(** * SuperMail: a shallow embedding of the error taxonomy, the three
      provider adapters and the facade, with the properties checked on it.

    Layout: the JavaScript value layer the code relies on ([Js]), the error
    classes and [normalizeError] ([Errors]), the Gmail, Microsoft Graph and
    IMAP adapters, the [SuperMail] facade, and then the lemmas.

    Strings are [string]s whose characters stand for the UTF-16 code units
    0..255.  Numbers are the safe integers (magnitude below 2^53) and NaN;
    [Js.JsNumber] says what the model does beyond them. *)

From Stdlib Require Import ZArith String Ascii List Bool Lia DecimalString.
Import ListNotations.

Local Open Scope string_scope.
Local Open Scope Z_scope.

(* ===================================================================== *)
(** ** JavaScript values, strings and the built-ins the adapters call     *)
(* ===================================================================== *)

Module Js.

(** A number: the integer [z], or NaN.  The model follows the engine on
    the safe integers ([safeInteger]); [Num 0] stands for both zeros, which
    [===] and ToBoolean do not tell apart.  Fractions and the infinities
    are outside the model.  Beyond the safe integers [parseInt] gives the
    mathematical integer where the engine gives a double near it, and
    [numberToString] gives all its digits where the engine may give fewer,
    or an exponent. *)
Inductive JsNumber : Type :=
| Num (z : Z)
| NaN.

(** [Number.isSafeInteger] *)
Definition safeInteger (z : Z) : bool := Z.abs z <? 2 ^ 53.

(** A number on which the model follows the engine *)
Definition safe (n : JsNumber) : bool :=
  match n with
  | Num z => safeInteger z
  | NaN => true
  end.

(** What an [any]-typed expression may hold, as far as the model goes:
    [undefined], [null], booleans, numbers, strings and plain objects.  A
    plain object has the prototype [Object.prototype] and own data
    properties with string keys, whose values are values of the model
    again; so no property value is callable.  Symbols, bigints, arrays,
    functions and instances of classes with methods of their own are
    outside the model.  For the property reads of this code an instance of
    [Error] that carries its [message] as an own property behaves as the
    plain object with the same own properties. *)
#[warnings="-register-all"] Inductive JsVal : Type :=
| JUndefined
| JNull
| JBool (b : bool)
| JNum (n : JsNumber)
| JStr (s : string)
| JObj (fields : list (string * JsVal)).

(** ToBoolean *)
Definition truthy (v : JsVal) : bool :=
  match v with
  | JUndefined | JNull => false
  | JBool b => b
  | JNum (Num z) => negb (z =? 0)
  | JNum NaN => false
  | JStr s => negb (s =? "")%string
  | JObj _ => true
  end.

Definition nullish (v : JsVal) : bool :=
  match v with
  | JUndefined | JNull => true
  | _ => false
  end.

(** [a || b] *)
Definition orElse (a b : JsVal) : JsVal := if truthy a then a else b.

(** [v === n] for a number literal, [v === s] for a string literal *)
Definition isNum (v : JsVal) (n : Z) : bool :=
  match v with
  | JNum (Num z) => z =? n
  | _ => false
  end.

Definition isStr (v : JsVal) (s : string) : bool :=
  match v with
  | JStr t => (t =? s)%string
  | _ => false
  end.

Fixpoint lookupOwn {A : Type} (k : string) (fields : list (string * A)) : option A :=
  match fields with
  | [] => None
  | (k', v) :: rest => if (k' =? k)%string then Some v else lookupOwn k rest
  end.

(** Number::toString: the decimal digits, which is what the engine prints
    for a safe integer *)
Definition numberToString (n : JsNumber) : string :=
  match n with
  | Num z => NilZero.string_of_int (Z.to_int z)
  | NaN => "NaN"
  end.

(** ToString, as template literals, [super(message)] and [parseInt] apply
    it; [None] when the conversion throws a TypeError.  A plain object is
    converted by the [toString] it finds: [Object.prototype.toString],
    which prints "[object Object]", unless the object has an own property
    of that name.  An own [toString] is not callable here, so the engine
    goes on to [valueOf], which is not callable either or, inherited,
    returns the object itself, and throws. *)
Definition toString (v : JsVal) : option string :=
  match v with
  | JUndefined => Some "undefined"
  | JNull => Some "null"
  | JBool true => Some "true"
  | JBool false => Some "false"
  | JNum n => Some (numberToString n)
  | JStr s => Some s
  | JObj fields =>
      match lookupOwn "toString" fields with
      | Some _ => None
      | None => Some "[object Object]"
      end
  end.

(** *** Characters *)

Definition codeUnit (c : ascii) : Z := Z.of_nat (nat_of_ascii c).

(** WhiteSpace and LineTerminator code units below 256: what [\s],
    [trim] and [parseInt] skip. *)
Definition isLineTerminator (c : ascii) : bool :=
  let n := codeUnit c in (n =? 10) || (n =? 13).

Definition isWhiteSpace (c : ascii) : bool :=
  let n := codeUnit c in
  ((9 <=? n) && (n <=? 13)) || (n =? 32) || (n =? 160).

Definition lowerChar (c : ascii) : ascii :=
  let n := codeUnit c in
  if ((65 <=? n) && (n <=? 90))
     || ((192 <=? n) && (n <=? 222) && negb (n =? 215))
  then ascii_of_nat (Z.to_nat (n + 32))
  else c.

Fixpoint toLowerCase (s : string) : string :=
  match s with
  | EmptyString => EmptyString
  | String c r => String (lowerChar c) (toLowerCase r)
  end.

Definition startsWith (s p : string) : bool := String.prefix p s.

(** [s.slice(a, b)] for [0 <= a <= b] *)
Definition slice (s : string) (a b : nat) : string :=
  String.substring a (b - a) s.

Fixpoint trimStart (s : string) : string :=
  match s with
  | EmptyString => EmptyString
  | String c r => if isWhiteSpace c then trimStart r else s
  end.

(** [trimEnd] keeps a character when it is not white space or when
    something survives after it. *)
Fixpoint trimEnd (s : string) : string :=
  match s with
  | EmptyString => EmptyString
  | String c r =>
      match trimEnd r with
      | EmptyString => if isWhiteSpace c then EmptyString else String c EmptyString
      | r' => String c r'
      end
  end.

Definition trim (s : string) : string := trimEnd (trimStart s).

(** [s.split(',')]: always at least one piece *)
Fixpoint split (sep : ascii) (s : string) : list string :=
  match s with
  | EmptyString => [EmptyString]
  | String c r =>
      if Ascii.eqb c sep then EmptyString :: split sep r
      else match split sep r with
           | [] => [String c EmptyString]
           | p :: ps => String c p :: ps
           end
  end.

Fixpoint join (sep : string) (l : list string) : string :=
  match l with
  | [] => ""
  | [x] => x
  | x :: rest => x ++ sep ++ join sep rest
  end.

(** *** parseInt *)

Definition digitValue (c : ascii) : option Z :=
  let n := codeUnit c in
  if (48 <=? n) && (n <=? 57) then Some (n - 48)
  else if (97 <=? n) && (n <=? 122) then Some (n - 87)
  else if (65 <=? n) && (n <=? 90) then Some (n - 55)
  else None.

(** The longest prefix of radix-[R] digits; [None] when it is empty. *)
Fixpoint parseDigits (R : Z) (s : string) (acc : option Z) : option Z :=
  match s with
  | EmptyString => acc
  | String c r =>
      match digitValue c with
      | Some d =>
          if d <? R
          then parseDigits R r (Some (match acc with Some a => a * R + d | None => d end))
          else acc
      | None => acc
      end
  end.

(** [parseInt(s, radix)]; [radix = None] is the one-argument call.  The
    result is the mathematical integer of the digits read, which is what
    the engine returns as long as it is a safe integer. *)
Definition parseInt (s : string) (radix : option Z) : JsNumber :=
  let s1 := trimStart s in
  let '(sign, s2) :=
    match s1 with
    | String "-"%char r => (-1, r)
    | String "+"%char r => (1, r)
    | _ => (1, s1)
    end in
  let R0 := match radix with Some r => r | None => 0 end in
  if negb (R0 =? 0) && ((R0 <? 2) || (36 <? R0)) then NaN
  else
    let strip := (R0 =? 0) || (R0 =? 16) in
    let R1 := if R0 =? 0 then 10 else R0 in
    let '(R, s3) :=
      if strip && (startsWith s2 "0x" || startsWith s2 "0X")
      then (16, slice s2 2 (String.length s2))
      else (R1, s2) in
    match parseDigits R s3 None with
    | Some v => Num (sign * v)
    | None => NaN
    end.

(** *** Plain-object property lookup, [obj[key]]

    An object literal inherits from [Object.prototype], so a lookup by a
    computed key also finds the inherited members. *)
Definition objectPrototypeMembers : list string :=
  [ "constructor"; "__proto__"; "hasOwnProperty"; "isPrototypeOf";
    "propertyIsEnumerable"; "toLocaleString"; "toString"; "valueOf";
    "__defineGetter__"; "__defineSetter__"; "__lookupGetter__";
    "__lookupSetter__" ]%string.

Inductive Looked (A : Type) : Type :=
| Own (a : A)
| Inherited (k : string)
| Missing.
Arguments Own {A} a.
Arguments Inherited {A} k.
Arguments Missing {A}.

(** What [return table[key]] hands back once the lookup was truthy: a value
    of the table, or the member of [Object.prototype] found under [key]. *)
Inductive FromTable (A : Type) : Type :=
| Value (a : A)
| PrototypeMember (k : string).
Arguments Value {A} a.
Arguments PrototypeMember {A} k.

Definition index {A : Type} (table : list (string * A)) (k : string) : Looked A :=
  match lookupOwn k table with
  | Some a => Own a
  | None =>
      if existsb (String.eqb k) objectPrototypeMembers then Inherited k else Missing
  end.

(** [.filter(Boolean)] on a list of possibly-undefined objects *)
Fixpoint somes {A : Type} (l : list (option A)) : list A :=
  match l with
  | [] => []
  | Some a :: r => a :: somes r
  | None :: r => somes r
  end.

(** [l.includes(x)] *)
Definition includes (l : list string) (x : string) : bool :=
  existsb (fun y => (y =? x)%string) l.

Definition CRLF : string :=
  String (ascii_of_nat 13) (String (ascii_of_nat 10) EmptyString).

Definition DQUOTE : string := String (ascii_of_nat 34) EmptyString.

End Js.

Import Js.

(* ===================================================================== *)
(** ** errors.ts: the error classes and [normalizeError]                  *)
(* ===================================================================== *)

Module Errors.

Inductive ErrorCode : Type :=
| AUTH_FAILED | TOKEN_EXPIRED | INVALID_CREDENTIALS
| RATE_LIMIT_EXCEEDED | QUOTA_EXCEEDED
| NOT_FOUND | INVALID_EMAIL_ID
| SEND_FAILED | OPERATION_FAILED
| NETWORK_ERROR | TIMEOUT
| INVALID_INPUT | MISSING_REQUIRED_FIELD
| UNKNOWN_ERROR.

(** The string value of each enum member *)
Definition codeString (c : ErrorCode) : string :=
  match c with
  | AUTH_FAILED => "AUTH_FAILED"
  | TOKEN_EXPIRED => "TOKEN_EXPIRED"
  | INVALID_CREDENTIALS => "INVALID_CREDENTIALS"
  | RATE_LIMIT_EXCEEDED => "RATE_LIMIT_EXCEEDED"
  | QUOTA_EXCEEDED => "QUOTA_EXCEEDED"
  | NOT_FOUND => "NOT_FOUND"
  | INVALID_EMAIL_ID => "INVALID_EMAIL_ID"
  | SEND_FAILED => "SEND_FAILED"
  | OPERATION_FAILED => "OPERATION_FAILED"
  | NETWORK_ERROR => "NETWORK_ERROR"
  | TIMEOUT => "TIMEOUT"
  | INVALID_INPUT => "INVALID_INPUT"
  | MISSING_REQUIRED_FIELD => "MISSING_REQUIRED_FIELD"
  | UNKNOWN_ERROR => "UNKNOWN_ERROR"
  end.

(** An instance of [SuperMailError] or of one of its subclasses; [name]
    tells the class, and the fields a subclass adds are [None] elsewhere.
    An omitted [provider] or [originalError] is [undefined]. *)
Record SuperMailError : Type := mkSuperMailError {
  name : string;
  code : ErrorCode;
  message : string;
  provider : option string;
  originalError : JsVal;
  retryAfter : option JsNumber;
  resourceId : option string
}.

Definition newSuperMailError (c : ErrorCode) (msg : string)
    (prov : option string) (orig : JsVal) : SuperMailError :=
  {| name := "SuperMailError"; code := c; message := msg; provider := prov;
     originalError := orig; retryAfter := None; resourceId := None |}.

Definition newAuthenticationError (msg : string) (prov : option string)
    (orig : JsVal) : SuperMailError :=
  {| name := "AuthenticationError"; code := AUTH_FAILED; message := msg;
     provider := prov; originalError := orig;
     retryAfter := None; resourceId := None |}.

Definition newRateLimitError (msg : string) (prov : option string)
    (retry : option JsNumber) (orig : JsVal) : SuperMailError :=
  {| name := "RateLimitError"; code := RATE_LIMIT_EXCEEDED; message := msg;
     provider := prov; originalError := orig;
     retryAfter := retry; resourceId := None |}.

Definition newNotFoundError (msg : string) (prov : option string)
    (resource : option string) (orig : JsVal) : SuperMailError :=
  {| name := "NotFoundError"; code := NOT_FOUND; message := msg;
     provider := prov; originalError := orig;
     retryAfter := None; resourceId := resource |}.

(** What a [throw] can carry: a classified error, a plain [Error], the
    engine's [TypeError], or a backend's own failure value. *)
Inductive Exn : Type :=
| ExnSuperMail (e : SuperMailError)
| ExnError (msg : string)
| ExnTypeError (msg : string)
| ExnRaw (v : JsVal).

Inductive Completion (A : Type) : Type :=
| Return (a : A)
| Throw (e : Exn).
Arguments Return {A} a.
Arguments Throw {A} e.

Definition bind {A B : Type} (m : Completion A) (f : A -> Completion B)
    : Completion B :=
  match m with
  | Return a => f a
  | Throw e => Throw e
  end.

Declare Scope js_scope.
Delimit Scope js_scope with js.
Notation "x <- m ;; f" := (bind m (fun x => f))
  (at level 61, m at next level, right associativity) : js_scope.
Local Open Scope js_scope.

Definition optJs {A : Type} (f : A -> JsVal) (o : option A) : JsVal :=
  match o with
  | Some a => f a
  | None => JUndefined
  end.

(** A thrown value as a catch clause sees it: the properties that
    [normalizeError] can read from it. *)
Definition exnToJs (e : Exn) : JsVal :=
  match e with
  | ExnSuperMail s =>
      JObj [ ("name", JStr (name s));
             ("code", JStr (codeString (code s)));
             ("message", JStr (message s));
             ("provider", optJs JStr (provider s));
             ("originalError", originalError s);
             ("retryAfter", optJs JNum (retryAfter s));
             ("resourceId", optJs JStr (resourceId s)) ]
  | ExnError msg => JObj [ ("name", JStr "Error"); ("message", JStr msg) ]
  | ExnTypeError msg => JObj [ ("name", JStr "TypeError"); ("message", JStr msg) ]
  | ExnRaw v => v
  end.

(** [v.k], for the keys this code reads, none of which names a member of
    [Object.prototype] or of a primitive's wrapper: a TypeError on [null]
    and [undefined], the own property of a plain object, and [undefined]
    on a primitive. *)
Definition getProp (v : JsVal) (k : string) : Completion JsVal :=
  match v with
  | JUndefined =>
      Throw (ExnTypeError ("Cannot read properties of undefined (reading '" ++ k ++ "')"))
  | JNull =>
      Throw (ExnTypeError ("Cannot read properties of null (reading '" ++ k ++ "')"))
  | JObj fields =>
      Return (match lookupOwn k fields with Some x => x | None => JUndefined end)
  | _ => Return JUndefined
  end.

(** [v?.k] *)
Definition optProp (v : JsVal) (k : string) : JsVal :=
  match v with
  | JObj fields => match lookupOwn k fields with Some x => x | None => JUndefined end
  | _ => JUndefined
  end.

(** [error.code || error.response?.status] *)
Definition gmailStatusCode (error : JsVal) : Completion JsVal :=
  c <- getProp error "code";;
  if truthy c then Return c
  else r <- getProp error "response";; Return (optProp r "status").

(** ToString where the code applies it: a failed conversion is thrown *)
Definition ToString (v : JsVal) : Completion string :=
  match toString v with
  | Some s => Return s
  | None => Throw (ExnTypeError "Cannot convert object to primitive value")
  end.

(** [retryAfter ? parseInt(retryAfter) : undefined] *)
Definition retryAfterOf (header : JsVal) : Completion (option JsNumber) :=
  if truthy header
  then s <- ToString header;; Return (Some (parseInt s None))
  else Return None.

(** The [provider === 'gmail'] block: [Some] when one of its [return]s
    fires, [None] when control falls out of the block. *)
Definition gmailRules (error : JsVal) (provider : string)
    : Completion (option SuperMailError) :=
  statusCode <- gmailStatusCode error;;
  if isNum statusCode 401 then
    Return (Some (newAuthenticationError
      "Gmail authentication failed. Token may be expired or invalid."
      (Some provider) error))
  else if isNum statusCode 403 then
    Return (Some (newSuperMailError QUOTA_EXCEEDED
      "Gmail quota exceeded or insufficient permissions."
      (Some provider) error))
  else if isNum statusCode 404 then
    Return (Some (newNotFoundError "Email not found in Gmail."
      (Some provider) None error))
  else if isNum statusCode 429 then
    r <- getProp error "response";;
    let retryAfter := optProp (optProp r "headers") "retry-after" in
    hint <- retryAfterOf retryAfter;;
    Return (Some (newRateLimitError "Gmail rate limit exceeded."
      (Some provider) hint error))
  else Return None.

Definition microsoftStatusCode (error : JsVal) : Completion JsVal :=
  s <- getProp error "statusCode";;
  if truthy s then Return s else getProp error "code".

Definition microsoftErrorCode (error : JsVal) : Completion JsVal :=
  c <- getProp error "code";;
  if truthy c then Return c
  else b <- getProp error "body";; Return (optProp (optProp b "error") "code").

(** The [provider === 'microsoft'] block *)
Definition microsoftRules (error : JsVal) (provider : string)
    : Completion (option SuperMailError) :=
  statusCode <- microsoftStatusCode error;;
  errorCode <- microsoftErrorCode error;;
  if isNum statusCode 401 || isStr errorCode "InvalidAuthenticationToken" then
    Return (Some (newAuthenticationError
      "Microsoft authentication failed. Token may be expired or invalid."
      (Some provider) error))
  else if isNum statusCode 403 || isStr errorCode "Forbidden" then
    Return (Some (newSuperMailError QUOTA_EXCEEDED
      "Microsoft insufficient permissions or quota exceeded."
      (Some provider) error))
  else if isNum statusCode 404 || isStr errorCode "ResourceNotFound" then
    Return (Some (newNotFoundError "Email not found in Microsoft."
      (Some provider) None error))
  else if isNum statusCode 429 || isStr errorCode "TooManyRequests" then
    h <- getProp error "headers";;
    let retryAfter := optProp h "retry-after" in
    hint <- retryAfterOf retryAfter;;
    Return (Some (newRateLimitError "Microsoft rate limit exceeded."
      (Some provider) hint error))
  else Return None.

Definition isNetworkCode (c : JsVal) : bool :=
  isStr c "ECONNREFUSED" || isStr c "ENOTFOUND" || isStr c "ETIMEDOUT".

Definition normalizeError (error : JsVal) (provider : string)
    : Completion SuperMailError :=
  g <- (if (provider =? "gmail")%string then gmailRules error provider
        else Return None);;
  match g with
  | Some e => Return e
  | None =>
      m <- (if (provider =? "microsoft")%string then microsoftRules error provider
            else Return None);;
      match m with
      | Some e => Return e
      | None =>
          c <- getProp error "code";;
          msg <- getProp error "message";;
          if isNetworkCode c then
            text <- ToString msg;;
            Return (newSuperMailError NETWORK_ERROR
              ("Network error: " ++ text) (Some provider) error)
          else
            text <- ToString (orElse msg (JStr "An unknown error occurred"));;
            Return (newSuperMailError UNKNOWN_ERROR text (Some provider) error)
      end
  end.

(** [throw normalizeError(error, tag)] inside a catch clause: what ends up
    thrown is the classified error, or whatever [normalizeError] itself
    threw. *)
Definition rethrow (tag : string) (e : Exn) : Exn :=
  match normalizeError (exnToJs e) tag with
  | Return s => ExnSuperMail s
  | Throw e' => e'
  end.

End Errors.

Import Errors.
Local Open Scope js_scope.

(* ===================================================================== *)
(** ** types.ts: the unified data model                                   *)
(* ===================================================================== *)

Module EmailAddress.
Record t : Type := mk { email : string; name : option string }.
End EmailAddress.

(** [content: string | Buffer]; [ContentAbsent] is the attachment object
    that the Microsoft adapter builds without a [content] property. *)
Inductive AttachmentContent : Type :=
| ContentString (s : string)
| ContentBuffer (bytes : string)
| ContentAbsent.

Module EmailAttachment.
Record t : Type := mk {
  filename : string;
  content : AttachmentContent;
  contentType : string;
  size : option Z
}.
End EmailAttachment.

(** A [Date] is its time value; [NaN] is the invalid date. *)
Definition Date : Type := JsNumber.

(** [new Date(n)]: a time value beyond 8.64e15 ms either way makes the
    invalid date.  The bound is a safe integer, so the date is the engine's
    also where [n] is not. *)
Definition dateOfNumber (n : JsNumber) : Date :=
  match n with
  | Num z => if Z.abs z <=? 8640000000000000 then Num z else NaN
  | NaN => NaN
  end.

Module EmailMessage.
Record t : Type := mk {
  id : option string;
  subject : string;
  from : option EmailAddress.t;
  to : list EmailAddress.t;
  cc : option (list EmailAddress.t);
  bcc : option (list EmailAddress.t);
  body : string;
  htmlBody : option string;
  attachments : option (list EmailAttachment.t);
  date : option Date;
  isRead : option bool;
  labels : option (list string);
  threadId : option string
}.
End EmailMessage.

Module SendEmailOptions.
Record t : Type := mk {
  subject : string;
  to : list EmailAddress.t;
  cc : option (list EmailAddress.t);
  bcc : option (list EmailAddress.t);
  body : string;
  htmlBody : option string;
  attachments : option (list EmailAttachment.t);
  replyTo : option EmailAddress.t
}.
(** [{ ...options, subject: s }] *)
Definition withSubject (o : t) (s : string) : t :=
  mk s (to o) (cc o) (bcc o) (body o) (htmlBody o) (attachments o) (replyTo o).
End SendEmailOptions.

Module ListEmailsOptions.
Record t : Type := mk {
  maxResults : option Z;
  pageToken : option string;
  labelIds : option (list string);
  query : option string;
  unreadOnly : option bool
}.
(** The default [options = {}] *)
Definition empty : t := mk None None None None None.
End ListEmailsOptions.

Module ListEmailsResponse.
Record t : Type := mk {
  messages : list EmailMessage.t;
  nextPageToken : option string;
  totalCount : option Z
}.
End ListEmailsResponse.

Module EmailFolder.
Record t : Type := mk {
  id : string;
  name : string;
  parentId : option string;
  unreadCount : option Z;
  totalCount : option Z
}.
End EmailFolder.

Inductive LabelType : Type := system | user.

Module EmailLabel.
Record t : Type := mk {
  id : string;
  name : string;
  color : option string;
  type : option LabelType
}.
End EmailLabel.

Module MoveEmailOptions.
Record t : Type := mk { emailId : string; folderId : string }.
End MoveEmailOptions.

(** [AddLabelsOptions] and [RemoveLabelsOptions] have the same shape. *)
Module LabelsOptions.
Record t : Type := mk { emailId : string; labelIds : list string }.
End LabelsOptions.

(** Truthiness of an optional string: present and not empty *)
Definition truthyStr (o : option string) : bool :=
  match o with
  | Some s => negb (s =? "")%string
  | None => false
  end.

(** [o || d] on an optional string *)
Definition orStr (o : option string) (d : string) : string :=
  if truthyStr o then match o with Some s => s | None => d end else d.

(* ===================================================================== *)
(** ** Asynchronous operations over a backend                             *)
(* ===================================================================== *)

(** An operation runs against the state [W] of the world it talks to (the
    remote mailbox, the clock) and completes normally or by a throw, that
    is, its promise resolves or rejects. *)
Module Async.

Definition M (W A : Type) : Type := W -> Completion A * W.

Definition ret {W A : Type} (a : A) : M W A := fun w => (Return a, w).

Definition throw {W A : Type} (e : Exn) : M W A := fun w => (Throw e, w).

Definition bind {W A B : Type} (m : M W A) (f : A -> M W B) : M W B :=
  fun w =>
    match m w with
    | (Return a, w') => f a w'
    | (Throw e, w') => (Throw e, w')
    end.

(** A backend call: it answers with data or fails with a raw value of the
    backend's own. *)
Definition Call (W A : Type) : Type := W -> (A + JsVal) * W.

Definition await {W A : Type} (c : Call W A) : M W A :=
  fun w =>
    match c w with
    | (inl a, w') => (Return a, w')
    | (inr raw, w') => (Throw (ExnRaw raw), w')
    end.

(** [try { m } catch (error) { throw normalizeError(error, tag); }] *)
Definition tryNormalize {W A : Type} (tag : string) (m : M W A) : M W A :=
  fun w =>
    match m w with
    | (Return a, w') => (Return a, w')
    | (Throw e, w') => (Throw (rethrow tag e), w')
    end.

(** A [for ... of] loop with an [await] in its body *)
Fixpoint forEach {W A B : Type} (f : A -> M W (option B)) (l : list A)
    : M W (list B) :=
  match l with
  | [] => ret []
  | a :: rest =>
      bind (f a) (fun ob =>
      bind (forEach f rest) (fun bs =>
      ret (match ob with Some b => b :: bs | None => bs end)))
  end.

End Async.

Declare Scope async_scope.
Delimit Scope async_scope with async.
Notation "x <~ m ;; f" := (Async.bind m (fun x => f))
  (at level 61, m at next level, right associativity) : async_scope.
Local Open Scope async_scope.

(* ===================================================================== *)
(** ** Nearest-colour search                                              *)
(* ===================================================================== *)

(** [convertToGmailColor] and [convertColorToPreset] each declare the same
    two closures, [hexToRgb] and [colorDistance], and run the same loop
    over the entries of their table. *)
Module Color.

Record Rgb : Type := mkRgb { r : JsNumber; g : JsNumber; b : JsNumber }.

Definition hexToRgb (hex : string) : Rgb :=
  {| r := parseInt (slice hex 1 3) (Some 16);
     g := parseInt (slice hex 3 5) (Some 16);
     b := parseInt (slice hex 5 7) (Some 16) |}.

(** The radicand of [colorDistance], NaN as soon as a channel is.
    [Math.sqrt] is strictly increasing on the integers this sum can take
    (two of them differ by at least 1, their roots by more than 1/2000), so
    the loop's [distance < minDistance] is decided on the radicands. *)
Definition colorDistance (c1 c2 : Rgb) : JsNumber :=
  match r c1, g c1, b c1, r c2, g c2, b c2 with
  | Num r1, Num g1, Num b1, Num r2, Num g2, Num b2 =>
      Num ((r1 - r2) ^ 2 + (g1 - g2) ^ 2 + (b1 - b2) ^ 2)
  | _, _, _, _, _, _ => NaN
  end.

(** [distance < minDistance], where [None] is the initial [Infinity] *)
Definition lessThan (distance : JsNumber) (minDistance : option Z) : bool :=
  match distance, minDistance with
  | NaN, _ => false
  | Num _, None => true
  | Num d, Some m => d <? m
  end.

(** One turn of the nearest-colour loop over [Object.entries(table)] *)
Definition closestStep {A : Type} (targetRgb : Rgb) (acc : A * option Z)
    (entry : string * A) : A * option Z :=
  let distance := colorDistance targetRgb (hexToRgb (fst entry)) in
  if lessThan distance (snd acc)
  then (snd entry, match distance with Num d => Some d | NaN => snd acc end)
  else acc.

Definition closest {A : Type} (table : list (string * A)) (fallback : A)
    (targetRgb : Rgb) : A :=
  fst (fold_left (closestStep targetRgb) table (fallback, None)).

End Color.

Import Color.

(* ===================================================================== *)
(** ** providers/gmail.ts                                                 *)
(* ===================================================================== *)

Module Gmail.

(** *** The googleapis schema, as far as the adapter reads it.  A field
    that is [null] or missing is [None]. *)

Record GmailMessagePartHeader : Type := mkHeader {
  h_name : option string;
  h_value : option string
}.

Record GmailMessagePartBody : Type := mkPartBody {
  b_data : option string;
  b_attachmentId : option string;
  b_size : option Z
}.

#[warnings="-register-all"] Inductive GmailMessagePart : Type :=
| mkPart (mimeType : option string) (filename : option string)
         (headers : option (list GmailMessagePartHeader))
         (body : option GmailMessagePartBody)
         (parts : option (list GmailMessagePart)).

Definition p_mimeType (p : GmailMessagePart) := let 'mkPart m _ _ _ _ := p in m.
Definition p_filename (p : GmailMessagePart) := let 'mkPart _ f _ _ _ := p in f.
Definition p_headers (p : GmailMessagePart) := let 'mkPart _ _ h _ _ := p in h.
Definition p_body (p : GmailMessagePart) := let 'mkPart _ _ _ b _ := p in b.
Definition p_parts (p : GmailMessagePart) := let 'mkPart _ _ _ _ ps := p in ps.

Record GmailMessage : Type := mkMessage {
  m_id : option string;
  m_threadId : option string;
  m_labelIds : option (list string);
  m_payload : option GmailMessagePart;
  m_internalDate : option string
}.

Record GmailColor : Type := mkColor {
  backgroundColor : string;
  textColor : string
}.

(** [l_id] and [l_name] are the fields the adapter reads with a non-null
    assertion; [l_backgroundColor] is [color?.backgroundColor]. *)
Record GmailLabel : Type := mkLabel {
  l_id : string;
  l_name : string;
  l_type : option string;
  l_backgroundColor : option string
}.

Record GmailLabelCreateRequest : Type := mkCreateRequest {
  rq_name : string;
  labelListVisibility : string;
  messageListVisibility : string;
  rq_color : option (FromTable GmailColor)
}.

Record SendRequest : Type := mkSend {
  raw : string;
  s_threadId : option string
}.

Record ListRequest : Type := mkList {
  q_maxResults : Z;
  q_pageToken : option string;
  q_labelIds : option (list string);
  q : string
}.

Record ListData : Type := mkListData {
  d_messages : option (list GmailMessage);
  d_nextPageToken : option string;
  d_resultSizeEstimate : option Z
}.

(** The [gmail_v1.Gmail] client ([response.data] of each call), the clock
    ([Date.now()], a time value and so a safe integer) and [Buffer]'s
    base64 codec. *)
Record Client (W : Type) : Type := mkClient {
  messages_send : SendRequest -> Async.Call W GmailMessage;
  messages_list : ListRequest -> Async.Call W ListData;
  messages_get : string -> Async.Call W GmailMessage;
  labels_create : GmailLabelCreateRequest -> Async.Call W GmailLabel;
  Date_now : W -> Z * W;
  toBase64 : AttachmentContent -> string;
  fromBase64 : string -> string
}.
Arguments messages_send {W} _ _ _.
Arguments messages_list {W} _ _ _.
Arguments messages_get {W} _ _ _.
Arguments labels_create {W} _ _ _.
Arguments Date_now {W} _ _.
Arguments toBase64 {W} _ _.
Arguments fromBase64 {W} _ _.

(** *** Address parsing *)

Fixpoint noLineTerminator (s : string) : bool :=
  match s with
  | EmptyString => true
  | String c r => negb (isLineTerminator c) && noLineTerminator r
  end.

(** The string without its last character, and that character *)
Fixpoint unsnoc (s : string) : option (string * ascii) :=
  match s with
  | EmptyString => None
  | String c r =>
      match unsnoc r with
      | None => Some (EmptyString, c)
      | Some (init, last) => Some (String c init, last)
      end
  end.

(** [\s*<(.+?)>$] against the rest of the input.  The white-space run has
    to be skipped whole (the next character must be [<]) and [>$] pins the
    group to everything up to the final [>]. *)
Definition matchTail (rest : string) : option string :=
  match trimStart rest with
  | String "<"%char t =>
      match unsnoc t with
      | Some (g2, ">"%char) =>
          if negb (g2 =? "")%string && noLineTerminator g2 then Some g2 else None
      | _ => None
      end
  | _ => None
  end.

(** The lazy first group grows one character at a time until the tail
    matches; [.] refuses line terminators. *)
Fixpoint matchFrom (g1 rest : string) : option (string * string) :=
  match matchTail rest with
  | Some g2 => Some (g1, g2)
  | None =>
      match rest with
      | EmptyString => None
      | String c r =>
          if isLineTerminator c then None
          else matchFrom (g1 ++ String c EmptyString) r
      end
  end.

(** [addr.match(/^(.+?)\s*<(.+?)>$/)]: the two groups, when it matches *)
Definition matchNameAddress (addr : string) : option (string * string) :=
  match addr with
  | EmptyString => None
  | String c r =>
      if isLineTerminator c then None else matchFrom (String c EmptyString) r
  end.

Definition parseEmailAddress (addr : option string) : option EmailAddress.t :=
  if negb (truthyStr addr) then None
  else
    let a := match addr with Some s => s | None => "" end in
    match matchNameAddress a with
    | Some (g1, g2) => Some (EmailAddress.mk (trim g2) (Some (trim g1)))
    | None => Some (EmailAddress.mk (trim a) None)
    end.

Definition parseEmailAddresses (addrs : option string) : list EmailAddress.t :=
  if negb (truthyStr addrs) then []
  else
    let s := match addrs with Some s => s | None => "" end in
    somes (map (fun addr => parseEmailAddress (Some (trim addr))) (split ","%char s)).

(** *** Message conversion *)

Definition formatEmailAddress (addr : EmailAddress.t) : string :=
  if truthyStr (EmailAddress.name addr)
  then orStr (EmailAddress.name addr) "" ++ " <" ++ EmailAddress.email addr ++ ">"
  else EmailAddress.email addr.

Definition bodyData (b : option GmailMessagePartBody) : option string :=
  match b with
  | Some x => if truthyStr (b_data x) then b_data x else None
  | None => None
  end.

(** The first loop of [extractBody]: a direct [text/plain] part with data *)
Fixpoint firstPlainData (ps : list GmailMessagePart) : option string :=
  match ps with
  | [] => None
  | p :: r =>
      match p_mimeType p, bodyData (p_body p) with
      | Some mt, Some d => if (mt =? "text/plain")%string then Some d else firstPlainData r
      | _, _ => firstPlainData r
      end
  end.

Fixpoint extractBodyWith (decode : string -> string) (payload : GmailMessagePart)
    : string :=
  match payload with
  | mkPart _ _ _ body parts =>
      match bodyData body with
      | Some d => decode d
      | None =>
          match parts with
          | Some ps =>
              match firstPlainData ps with
              | Some d => decode d
              | None =>
                  (fix loop (l : list GmailMessagePart) : string :=
                     match l with
                     | [] => ""
                     | p :: r =>
                         let b := extractBodyWith decode p in
                         if (b =? "")%string then loop r else b
                     end) ps
              end
          | None => ""
          end
      end
  end.

(** [processPayload]: the attachment of this part, then those of its
    sub-parts, in order *)
Fixpoint extractAttachments (payload : GmailMessagePart) : list EmailAttachment.t :=
  match payload with
  | mkPart mimeType filename _ body parts =>
      (match filename, body with
       | Some fn, Some b =>
           if negb (fn =? "")%string && truthyStr (b_attachmentId b)
           then [ EmailAttachment.mk fn
                    (ContentString (orStr (b_attachmentId b) ""))
                    (orStr mimeType "application/octet-stream")
                    (b_size b) ]
           else []
       | _, _ => []
       end)
      ++
      (match parts with
       | Some ps =>
           (fix each (l : list GmailMessagePart) : list EmailAttachment.t :=
              match l with
              | [] => []
              | p :: r => extractAttachments p ++ each r
              end) ps
       | None => []
       end)%list
  end.

(** [headers.find(h => h.name?.toLowerCase() === name.toLowerCase())?.value] *)
Definition getHeader (headers : list GmailMessagePartHeader) (name : string)
    : option string :=
  match find (fun h => match h_name h with
                       | Some n => (toLowerCase n =? toLowerCase name)%string
                       | None => false
                       end) headers with
  | Some h => h_value h
  | None => None
  end.

Definition convertGmailMessageWith (decode : string -> string) (gmailMsg : GmailMessage)
    : EmailMessage.t :=
  let headers :=
    match m_payload gmailMsg with
    | Some p => match p_headers p with Some hs => hs | None => [] end
    | None => []
    end in
  {| EmailMessage.id := m_id gmailMsg;
     EmailMessage.threadId := m_threadId gmailMsg;
     EmailMessage.subject := orStr (getHeader headers "subject") "";
     EmailMessage.from := parseEmailAddress (getHeader headers "from");
     EmailMessage.to := parseEmailAddresses (getHeader headers "to");
     EmailMessage.cc := Some (parseEmailAddresses (getHeader headers "cc"));
     EmailMessage.bcc := None;
     EmailMessage.body :=
       match m_payload gmailMsg with
       | Some p => extractBodyWith decode p
       | None => ""
       end;
     EmailMessage.htmlBody := None;
     EmailMessage.attachments :=
       match m_payload gmailMsg with
       | Some p => Some (extractAttachments p)
       | None => None
       end;
     EmailMessage.date :=
       if truthyStr (m_internalDate gmailMsg)
       then Some (dateOfNumber (parseInt (orStr (m_internalDate gmailMsg) "") None))
       else None;
     EmailMessage.isRead :=
       Some (negb (match m_labelIds gmailMsg with
                   | Some ids => includes ids "UNREAD"
                   | None => false
                   end));
     EmailMessage.labels :=
       Some (match m_labelIds gmailMsg with Some ids => ids | None => [] end)
  |}.

(** *** Label colours *)

Definition colorPalette : list (string * GmailColor) :=
  [ ("#ff0000", mkColor "#fb4c2f" "#ffffff");
    ("#fb4c2f", mkColor "#fb4c2f" "#ffffff");
    ("#ff8800", mkColor "#ffc8af" "#ffffff");
    ("#ffc8af", mkColor "#ffc8af" "#594c05");
    ("#ffff00", mkColor "#fad165" "#594c05");
    ("#fad165", mkColor "#fad165" "#594c05");
    ("#00ff00", mkColor "#16a765" "#ffffff");
    ("#16a765", mkColor "#16a765" "#ffffff");
    ("#7bd148", mkColor "#7bd148" "#594c05");
    ("#0000ff", mkColor "#4986e7" "#ffffff");
    ("#4986e7", mkColor "#4986e7" "#ffffff");
    ("#a4bdfc", mkColor "#a4bdfc" "#594c05");
    ("#800080", mkColor "#b99aff" "#ffffff");
    ("#b99aff", mkColor "#b99aff" "#594c05");
    ("#ff00ff", mkColor "#f691b3" "#ffffff");
    ("#f691b3", mkColor "#f691b3" "#ffffff");
    ("#808080", mkColor "#cabdbf" "#594c05");
    ("#cabdbf", mkColor "#cabdbf" "#594c05") ].

Definition defaultColor : GmailColor := mkColor "#fb4c2f" "#ffffff".

Definition convertToGmailColor (hexColor : string) : FromTable GmailColor :=
  let normalizedColor := toLowerCase hexColor in
  match index colorPalette normalizedColor with
  | Own c => Value c
  | Inherited k => PrototypeMember k
  | Missing =>
      if startsWith normalizedColor "#" && (String.length normalizedColor =? 7)%nat
      then Value (closest
                    (filter (fun e => startsWith (fst e) "#") colorPalette)
                    defaultColor (hexToRgb normalizedColor))
      else Value defaultColor
  end.

(** *** The operations *)

Section Operations.

Context {W : Type} (client : Client W).

Definition convertGmailMessage : GmailMessage -> EmailMessage.t :=
  convertGmailMessageWith (fromBase64 client).

Definition now : Async.M W Z :=
  fun w => let (t, w') := Date_now client w in (Return t, w').

Definition joinAddresses (l : list EmailAddress.t) : string :=
  join ", " (map formatEmailAddress l).

Definition textPart (boundary : string) (options : SendEmailOptions.t) : string :=
  "--" ++ boundary ++ CRLF
  ++ "Content-Type: text/plain; charset=UTF-8" ++ CRLF ++ CRLF
  ++ SendEmailOptions.body options ++ CRLF ++ CRLF.

Definition htmlPart (boundary : string) (options : SendEmailOptions.t) : string :=
  if truthyStr (SendEmailOptions.htmlBody options)
  then "--" ++ boundary ++ CRLF
       ++ "Content-Type: text/html; charset=UTF-8" ++ CRLF ++ CRLF
       ++ orStr (SendEmailOptions.htmlBody options) "" ++ CRLF ++ CRLF
  else "".

Definition attachmentPart (boundary : string) (attachment : EmailAttachment.t)
    : string :=
  "--" ++ boundary ++ CRLF
  ++ "Content-Type: " ++ EmailAttachment.contentType attachment
  ++ "; name=" ++ DQUOTE ++ EmailAttachment.filename attachment ++ DQUOTE ++ CRLF
  ++ "Content-Transfer-Encoding: base64" ++ CRLF
  ++ "Content-Disposition: attachment; filename=" ++ DQUOTE
  ++ EmailAttachment.filename attachment ++ DQUOTE ++ CRLF ++ CRLF
  ++ toBase64 client (EmailAttachment.content attachment) ++ CRLF ++ CRLF.

Definition mimeHeaders (options : SendEmailOptions.t) (contentType : string)
    : list string :=
  filter (fun h => negb (h =? "")%string)
    [ "To: " ++ joinAddresses (SendEmailOptions.to options);
      match SendEmailOptions.cc options with
      | Some cc => "Cc: " ++ joinAddresses cc
      | None => ""
      end;
      match SendEmailOptions.bcc options with
      | Some bcc => "Bcc: " ++ joinAddresses bcc
      | None => ""
      end;
      "Subject: " ++ SendEmailOptions.subject options;
      "MIME-Version: 1.0";
      "Content-Type: " ++ contentType ].

Definition createMimeMessage (options : SendEmailOptions.t)
    (_threadId : option string) : Async.M W string :=
  t <~ now;;
  let boundary := "----=_Part_" ++ numberToString (Num t) in
  match SendEmailOptions.attachments options with
  | Some (a :: rest) =>
      let contentType := "multipart/mixed; boundary=" ++ DQUOTE ++ boundary ++ DQUOTE in
      let head := join CRLF (mimeHeaders options contentType) ++ CRLF ++ CRLF in
      t' <~ now;;
      let innerBoundary := "----=_Part_Inner_" ++ numberToString (Num t') in
      Async.ret
        (head
         ++ "--" ++ boundary ++ CRLF
         ++ "Content-Type: multipart/alternative; boundary=" ++ DQUOTE
         ++ innerBoundary ++ DQUOTE ++ CRLF ++ CRLF
         ++ textPart innerBoundary options
         ++ htmlPart innerBoundary options
         ++ "--" ++ innerBoundary ++ "--" ++ CRLF ++ CRLF
         ++ String.concat "" (map (attachmentPart boundary) (a :: rest))
         ++ "--" ++ boundary ++ "--")
  | _ =>
      let contentType :=
        "multipart/alternative; boundary=" ++ DQUOTE ++ boundary ++ DQUOTE in
      let head := join CRLF (mimeHeaders options contentType) ++ CRLF ++ CRLF in
      Async.ret
        (head ++ textPart boundary options ++ htmlPart boundary options
         ++ "--" ++ boundary ++ "--")
  end.

Fixpoint replaceChar (from to : ascii) (s : string) : string :=
  match s with
  | EmptyString => EmptyString
  | String c rest =>
      String (if Ascii.eqb c from then to else c) (replaceChar from to rest)
  end.

(** [.replace(/=+$/, '')] *)
Fixpoint stripPadding (s : string) : string :=
  match s with
  | EmptyString => EmptyString
  | String c rest =>
      match stripPadding rest with
      | EmptyString => if Ascii.eqb c "="%char then EmptyString else String c EmptyString
      | rest' => String c rest'
      end
  end.

Definition encodeMessage (message : string) : string :=
  stripPadding
    (replaceChar "/"%char "_"%char
       (replaceChar "+"%char "-"%char (toBase64 client (ContentString message)))).

Definition getEmail (emailId : string) : Async.M W EmailMessage.t :=
  Async.tryNormalize "gmail"
    (data <~ Async.await (messages_get client emailId);;
     Async.ret (convertGmailMessage data)).

Definition buildQuery (options : ListEmailsOptions.t) : string :=
  join " "
    ((if truthyStr (ListEmailsOptions.query options)
      then [orStr (ListEmailsOptions.query options) ""] else [])
     ++
     (match ListEmailsOptions.unreadOnly options with
      | Some true => ["is:unread"]
      | _ => []
      end))%list.

Definition listEmails (options : ListEmailsOptions.t)
    : Async.M W ListEmailsResponse.t :=
  Async.tryNormalize "gmail"
    (let query := buildQuery options in
     data <~ Async.await (messages_list client
               {| q_maxResults :=
                    match ListEmailsOptions.maxResults options with
                    | Some n => if n =? 0 then 100 else n
                    | None => 100
                    end;
                  q_pageToken := ListEmailsOptions.pageToken options;
                  q_labelIds := ListEmailsOptions.labelIds options;
                  q := query |});;
     messages <~ Async.forEach
                   (fun msg =>
                      if truthyStr (m_id msg)
                      then fullMessage <~ getEmail (orStr (m_id msg) "");;
                           Async.ret (Some fullMessage)
                      else Async.ret None)
                   (match d_messages data with Some l => l | None => [] end);;
     Async.ret {| ListEmailsResponse.messages := messages;
                  ListEmailsResponse.nextPageToken := d_nextPageToken data;
                  ListEmailsResponse.totalCount := d_resultSizeEstimate data |}).

Definition replyToEmail (emailId : string) (options : SendEmailOptions.t)
    : Async.M W EmailMessage.t :=
  Async.tryNormalize "gmail"
    (originalMessage <~ getEmail emailId;;
     message <~ createMimeMessage
                  (SendEmailOptions.withSubject options
                     ("Re: " ++ EmailMessage.subject originalMessage))
                  (EmailMessage.threadId originalMessage);;
     let encodedMessage := encodeMessage message in
     data <~ Async.await (messages_send client
               {| raw := encodedMessage;
                  s_threadId := EmailMessage.threadId originalMessage |});;
     t <~ now;;
     Async.ret
       {| EmailMessage.id := m_id data;
          EmailMessage.threadId := m_threadId data;
          EmailMessage.subject := "Re: " ++ EmailMessage.subject originalMessage;
          EmailMessage.from := None;
          EmailMessage.to := SendEmailOptions.to options;
          EmailMessage.cc := SendEmailOptions.cc options;
          EmailMessage.bcc := None;
          EmailMessage.body := SendEmailOptions.body options;
          EmailMessage.htmlBody := SendEmailOptions.htmlBody options;
          EmailMessage.attachments := None;
          EmailMessage.date := Some (Num t);
          EmailMessage.isRead := None;
          EmailMessage.labels :=
            Some (match m_labelIds data with Some ids => ids | None => [] end) |}).

Definition createLabel (name : string) (color : option string)
    : Async.M W EmailLabel.t :=
  Async.tryNormalize "gmail"
    (let requestBody :=
       {| rq_name := name;
          labelListVisibility := "labelShow";
          messageListVisibility := "show";
          rq_color :=
            if truthyStr color then Some (convertToGmailColor (orStr color ""))
            else None |} in
     data <~ Async.await (labels_create client requestBody);;
     Async.ret
       {| EmailLabel.id := l_id data;
          EmailLabel.name := l_name data;
          EmailLabel.color := l_backgroundColor data;
          EmailLabel.type := Some user |}).

End Operations.

End Gmail.

(* ===================================================================== *)
(** ** providers/microsoft.ts                                             *)
(* ===================================================================== *)

Module Microsoft.

(** *** Graph resources, as far as the adapter reads them.  Responses are
    taken to have the shape of the Graph schema; a property that is [null]
    or missing is [None]. *)

Record GraphEmailAddress : Type := mkEmailAddress {
  address : option string;
  ea_name : option string
}.

Record GraphRecipient : Type := mkRecipient {
  emailAddress : option GraphEmailAddress
}.

Record GraphItemBody : Type := mkItemBody {
  ib_contentType : option string;
  ib_content : option string
}.

Record GraphAttachment : Type := mkAttachment {
  at_name : string;
  at_contentType : string;
  at_size : option Z;
  at_id : option string
}.

Record GraphMessage : Type := mkMessage {
  gm_id : option string;
  gm_subject : string;
  gm_from : option GraphRecipient;
  toRecipients : option (list GraphRecipient);
  ccRecipients : option (list GraphRecipient);
  gm_body : option GraphItemBody;
  hasAttachments : bool;
  gm_attachments : option (list GraphAttachment);
  receivedDateTime : option string;
  gm_isRead : option bool;
  conversationId : option string;
  categories : option (list string)
}.

Record GraphMessageList : Type := mkMessageList {
  ml_value : list GraphMessage;
  odata_nextLink : option string;
  odata_count : option Z
}.

Record GraphFolder : Type := mkFolder {
  f_id : string;
  displayName : string;
  parentFolderId : option string;
  unreadItemCount : option Z;
  totalItemCount : option Z
}.

(** [preset] stands for the truthiness of [category.preset]. *)
Record GraphCategory : Type := mkCategory {
  c_id : string;
  c_displayName : string;
  c_color : option string;
  preset : bool
}.

Inductive MessagePatch : Type :=
| PatchIsRead (isRead : bool)
| PatchCategories (categories : list string).

(** [this.client.api(endpoint)] followed by [.get()], [.post(body)],
    [.patch(body)] or [.delete()], one field per shape of answer, and
    [new Date(s)]. *)
Record Client (W : Type) : Type := mkClient {
  get_message : string -> Async.Call W GraphMessage;
  get_messages : string -> Async.Call W GraphMessageList;
  get_folders : string -> Async.Call W (list GraphFolder);
  get_categories : string -> Async.Call W (list GraphCategory);
  post_move : string -> string -> Async.Call W unit;
  post_category : string -> string -> FromTable string -> Async.Call W GraphCategory;
  patch : string -> MessagePatch -> Async.Call W unit;
  delete : string -> Async.Call W unit;
  newDate : option string -> Date
}.
Arguments get_message {W} _ _ _.
Arguments get_messages {W} _ _ _.
Arguments get_folders {W} _ _ _.
Arguments get_categories {W} _ _ _.
Arguments post_move {W} _ _ _ _.
Arguments post_category {W} _ _ _ _ _.
Arguments patch {W} _ _ _ _.
Arguments delete {W} _ _ _.
Arguments newDate {W} _ _.

(** *** Conversions *)

Definition convertFromGraphRecipient (recipient : option GraphRecipient)
    : EmailAddress.t :=
  match recipient with
  | None => EmailAddress.mk "" None
  | Some rcp =>
      match emailAddress rcp with
      | Some ea => EmailAddress.mk (orStr (address ea) "") (ea_name ea)
      | None => EmailAddress.mk "" None
      end
  end.

Definition convertRecipients (l : option (list GraphRecipient)) : list EmailAddress.t :=
  match l with
  | Some rs => map (fun rcp => convertFromGraphRecipient (Some rcp)) rs
  | None => []
  end.

Definition convertGraphMessageWith (mkDate : option string -> Date)
    (graphMsg : GraphMessage) : EmailMessage.t :=
  {| EmailMessage.id := gm_id graphMsg;
     EmailMessage.subject := gm_subject graphMsg;
     EmailMessage.from := Some (convertFromGraphRecipient (gm_from graphMsg));
     EmailMessage.to := convertRecipients (toRecipients graphMsg);
     EmailMessage.cc := Some (convertRecipients (ccRecipients graphMsg));
     EmailMessage.bcc := None;
     EmailMessage.body :=
       match gm_body graphMsg with
       | Some bd => orStr (ib_content bd) ""
       | None => ""
       end;
     EmailMessage.htmlBody :=
       match gm_body graphMsg with
       | Some bd =>
           match ib_contentType bd with
           | Some ct => if (ct =? "html")%string then ib_content bd else None
           | None => None
           end
       | None => None
       end;
     EmailMessage.attachments :=
       if hasAttachments graphMsg
       then match gm_attachments graphMsg with
            | Some atts =>
                Some (map (fun att =>
                             EmailAttachment.mk (at_name att) ContentAbsent
                               (at_contentType att) (at_size att)) atts)
            | None => None
            end
       else None;
     EmailMessage.date := Some (mkDate (receivedDateTime graphMsg));
     EmailMessage.isRead := gm_isRead graphMsg;
     EmailMessage.threadId := conversationId graphMsg;
     EmailMessage.labels :=
       Some (match categories graphMsg with Some cs => cs | None => [] end)
  |}.

(** *** Category colours *)

Definition colorMap : list (string * string) :=
  [ ("#ff0000", "preset0");  ("#ff4500", "preset1");  ("#8b4513", "preset2");
    ("#ffff00", "preset3");  ("#008000", "preset4");  ("#008080", "preset5");
    ("#808000", "preset6");  ("#0000ff", "preset7");  ("#800080", "preset8");
    ("#9b2d30", "preset9");  ("#5a7e9f", "preset10"); ("#485c69", "preset11");
    ("#808080", "preset12"); ("#696969", "preset13"); ("#000000", "preset14");
    ("#8b0000", "preset15"); ("#ff8c00", "preset16"); ("#654321", "preset17");
    ("#9b870c", "preset18"); ("#006400", "preset19"); ("#00555a", "preset20");
    ("#5b5e0a", "preset21"); ("#00008b", "preset22"); ("#4b0082", "preset23");
    ("#6f2633", "preset24") ].

Definition convertColorToPreset (color : option string) : FromTable string :=
  if negb (truthyStr color) then Value "preset0"
  else
    let c := orStr color "" in
    if startsWith c "preset" then Value c
    else
      let normalizedColor := toLowerCase c in
      match index colorMap normalizedColor with
      | Own preset => Value preset
      | Inherited k => PrototypeMember k
      | Missing =>
          if startsWith normalizedColor "#" && (String.length normalizedColor =? 7)%nat
          then Value (closest colorMap "preset0" (hexToRgb normalizedColor))
          else Value "preset0"
      end.

(** [labelIds.map(id => categories.find(c => c.id === id)?.name).filter(Boolean)] *)
Definition resolveNames (categories : list EmailLabel.t) (labelIds : list string)
    : list string :=
  filter (fun n => negb (n =? "")%string)
    (somes
       (map (fun id =>
               match find (fun c => (EmailLabel.id c =? id)%string) categories with
               | Some c => Some (EmailLabel.name c)
               | None => None
               end) labelIds)).

(** *** The operations *)

Section Operations.

Context {W : Type} (client : Client W).

Definition convertGraphMessage : GraphMessage -> EmailMessage.t :=
  convertGraphMessageWith (newDate client).

Definition listEmails (options : ListEmailsOptions.t)
    : Async.M W ListEmailsResponse.t :=
  Async.tryNormalize "microsoft"
    (let queryParams :=
       ((match ListEmailsOptions.maxResults options with
         | Some n => if n =? 0 then [] else [("$top=" ++ numberToString (Num n))%string]
         | None => []
         end)
        ++ (if truthyStr (ListEmailsOptions.query options)
            then [("$search=" ++ DQUOTE
                   ++ orStr (ListEmailsOptions.query options) "" ++ DQUOTE)%string]
            else [])
        ++ (match ListEmailsOptions.unreadOnly options with
            | Some true => ["$filter=isRead eq false"]
            | _ => []
            end)
        ++ ["$orderby=receivedDateTime desc"])%list in
     let endpoint := "/me/messages" ++ "?" ++ join "&" queryParams in
     response <~ Async.await (get_messages client endpoint);;
     Async.ret
       {| ListEmailsResponse.messages := map convertGraphMessage (ml_value response);
          ListEmailsResponse.nextPageToken := odata_nextLink response;
          ListEmailsResponse.totalCount := odata_count response |}).

Definition getEmail (emailId : string) : Async.M W EmailMessage.t :=
  Async.tryNormalize "microsoft"
    (response <~ Async.await (get_message client ("/me/messages/" ++ emailId));;
     Async.ret (convertGraphMessage response)).

Definition deleteEmail (emailId : string) : Async.M W unit :=
  Async.tryNormalize "microsoft"
    (Async.await (delete client ("/me/messages/" ++ emailId))).

Definition listFolders : Async.M W (list EmailFolder.t) :=
  Async.tryNormalize "microsoft"
    (response <~ Async.await (get_folders client "/me/mailFolders");;
     Async.ret
       (map (fun folder =>
               {| EmailFolder.id := f_id folder;
                  EmailFolder.name := displayName folder;
                  EmailFolder.parentId := parentFolderId folder;
                  EmailFolder.unreadCount := unreadItemCount folder;
                  EmailFolder.totalCount := totalItemCount folder |}) response)).

Definition moveToFolder (options : MoveEmailOptions.t) : Async.M W unit :=
  Async.tryNormalize "microsoft"
    (Async.await
       (post_move client
          ("/me/messages/" ++ MoveEmailOptions.emailId options ++ "/move")
          (MoveEmailOptions.folderId options))).

Definition listLabels : Async.M W (list EmailLabel.t) :=
  Async.tryNormalize "microsoft"
    (response <~ Async.await (get_categories client "/me/outlook/masterCategories");;
     Async.ret
       (map (fun category =>
               {| EmailLabel.id := c_id category;
                  EmailLabel.name := c_displayName category;
                  EmailLabel.color := c_color category;
                  EmailLabel.type := Some (if preset category then system else user) |})
            response)).

Definition addLabels (options : LabelsOptions.t) : Async.M W unit :=
  Async.tryNormalize "microsoft"
    (categories <~ listLabels;;
     let categoryNames := resolveNames categories (LabelsOptions.labelIds options) in
     Async.await
       (patch client ("/me/messages/" ++ LabelsOptions.emailId options)
          (PatchCategories categoryNames))).

Definition removeLabels (options : LabelsOptions.t) : Async.M W unit :=
  Async.tryNormalize "microsoft"
    (message <~ getEmail (LabelsOptions.emailId options);;
     let currentCategories :=
       match EmailMessage.labels message with Some l => l | None => [] end in
     categories <~ listLabels;;
     let categoriesToRemove := resolveNames categories (LabelsOptions.labelIds options) in
     let updatedCategories :=
       filter (fun cat => negb (includes categoriesToRemove cat)) currentCategories in
     Async.await
       (patch client ("/me/messages/" ++ LabelsOptions.emailId options)
          (PatchCategories updatedCategories))).

Definition createLabel (name : string) (color : option string)
    : Async.M W EmailLabel.t :=
  Async.tryNormalize "microsoft"
    (let presetColor := convertColorToPreset color in
     response <~ Async.await
                   (post_category client "/me/outlook/masterCategories" name presetColor);;
     Async.ret
       {| EmailLabel.id := c_id response;
          EmailLabel.name := c_displayName response;
          EmailLabel.color := c_color response;
          EmailLabel.type := Some user |}).

Definition archiveEmail (emailId : string) : Async.M W unit :=
  Async.tryNormalize "microsoft"
    (folders <~ listFolders;;
     match find (fun f => (EmailFolder.name f =? "Archive")%string) folders with
     | Some archiveFolder =>
         moveToFolder (MoveEmailOptions.mk emailId (EmailFolder.id archiveFolder))
     | None => Async.throw (ExnError "Archive folder not found")
     end).

Definition trashEmail (emailId : string) : Async.M W unit :=
  Async.tryNormalize "microsoft"
    (folders <~ listFolders;;
     match find (fun f => (EmailFolder.name f =? "Deleted Items")%string) folders with
     | Some trashFolder =>
         moveToFolder (MoveEmailOptions.mk emailId (EmailFolder.id trashFolder))
     | None => deleteEmail emailId
     end).

End Operations.

End Microsoft.

(* ===================================================================== *)
(** ** providers/imap.ts                                                  *)
(* ===================================================================== *)

Module Imap.

(** The method throws before it looks at its arguments or at the
    connection, so it is the same for every state of the session. *)
Definition createLabel {W : Type} (_name : string) (_color : option string)
    : Async.M W EmailLabel.t :=
  Async.throw
    (ExnSuperMail
       (newSuperMailError OPERATION_FAILED
          "IMAP does not support creating custom labels. Use folders instead."
          (Some "imap") JUndefined)).

End Imap.

(* ===================================================================== *)
(** ** SuperMail.ts: the facade                                           *)
(* ===================================================================== *)

Module SuperMail.

(** The classes that implement [IEmailProvider], each holding the
    configuration object it was constructed from. *)
Inductive IEmailProvider : Type :=
| GmailProvider (config : JsVal)
| MicrosoftProvider (config : JsVal)
| ImapProvider (config : JsVal).

(** [new GmailProvider(config)] reads three properties of
    [config.credentials]. *)
Definition newGmailProvider (config : JsVal) : Completion IEmailProvider :=
  credentials <- getProp config "credentials";;
  _ <- getProp credentials "client_id";;
  _ <- getProp credentials "client_secret";;
  _ <- getProp credentials "redirect_uri";;
  _ <- getProp config "token";;
  Return (GmailProvider config).

(** [new MicrosoftProvider(config)] reads nothing: the access token is
    looked up when a request is made. *)
Definition newMicrosoftProvider (config : JsVal) : Completion IEmailProvider :=
  Return (MicrosoftProvider config).

Definition createProvider (config : JsVal) : Completion IEmailProvider :=
  type <- getProp config "type";;
  if isStr type "gmail" then newGmailProvider config
  else if isStr type "microsoft" then newMicrosoftProvider config
  else text <- ToString type;;
       Throw (ExnError ("Unsupported provider type: " ++ text)).

Record t : Type := mk { provider : IEmailProvider }.

(** [new SuperMail(config)] *)
Definition new (config : JsVal) : Completion t :=
  p <- createProvider config;;
  Return (mk p).

End SuperMail.

(* ===================================================================== *)
(** ** providers/gmail.ts: flags, labels and folders                      *)
(* ===================================================================== *)

Module GmailLabels.

(** [requestBody] of [users.messages.modify] *)
Record ModifyRequest : Type := mkModify {
  addLabelIds : option (list string);
  removeLabelIds : option (list string)
}.

(** An entry of [users.labels.list]: the label and its two counters *)
Record LabelEntry : Type := mkEntry {
  label : Gmail.GmailLabel;
  messagesUnread : option Z;
  messagesTotal : option Z
}.

(** The part of the [gmail_v1.Gmail] client these operations call:
    [users.messages.modify] (its answer is not read) and
    [users.labels.list] ([response.data.labels]). *)
Record Client (W : Type) : Type := mkClient {
  messages_modify : string -> ModifyRequest -> Async.Call W unit;
  labels_list : Async.Call W (option (list LabelEntry))
}.
Arguments messages_modify {W} _ _ _ _.
Arguments labels_list {W} _ _.

Definition isSystem (entry : LabelEntry) : bool :=
  match Gmail.l_type (label entry) with
  | Some t => (t =? "system")%string
  | None => false
  end.

Section Operations.

Context {W : Type} (client : Client W).

Definition markAsRead (emailId : string) : Async.M W unit :=
  Async.tryNormalize "gmail"
    (Async.await (messages_modify client emailId (mkModify None (Some ["UNREAD"])))).

Definition markAsUnread (emailId : string) : Async.M W unit :=
  Async.tryNormalize "gmail"
    (Async.await (messages_modify client emailId (mkModify (Some ["UNREAD"]) None))).

Definition moveToFolder (options : MoveEmailOptions.t) : Async.M W unit :=
  Async.tryNormalize "gmail"
    (Async.await
       (messages_modify client (MoveEmailOptions.emailId options)
          (mkModify (Some [MoveEmailOptions.folderId options]) None))).

Definition addLabels (options : LabelsOptions.t) : Async.M W unit :=
  Async.tryNormalize "gmail"
    (Async.await
       (messages_modify client (LabelsOptions.emailId options)
          (mkModify (Some (LabelsOptions.labelIds options)) None))).

Definition removeLabels (options : LabelsOptions.t) : Async.M W unit :=
  Async.tryNormalize "gmail"
    (Async.await
       (messages_modify client (LabelsOptions.emailId options)
          (mkModify None (Some (LabelsOptions.labelIds options))))).

Definition archiveEmail (emailId : string) : Async.M W unit :=
  Async.tryNormalize "gmail"
    (Async.await (messages_modify client emailId (mkModify None (Some ["INBOX"])))).

Definition listFolders : Async.M W (list EmailFolder.t) :=
  Async.tryNormalize "gmail"
    (data <~ Async.await (labels_list client);;
     let labels := match data with Some l => l | None => [] end in
     Async.ret
       (map (fun entry =>
               {| EmailFolder.id := Gmail.l_id (label entry);
                  EmailFolder.name := Gmail.l_name (label entry);
                  EmailFolder.parentId := None;
                  EmailFolder.unreadCount := messagesUnread entry;
                  EmailFolder.totalCount := messagesTotal entry |})
            (filter isSystem labels))).

Definition listLabels : Async.M W (list EmailLabel.t) :=
  Async.tryNormalize "gmail"
    (data <~ Async.await (labels_list client);;
     let labels := match data with Some l => l | None => [] end in
     Async.ret
       (map (fun entry =>
               {| EmailLabel.id := Gmail.l_id (label entry);
                  EmailLabel.name := Gmail.l_name (label entry);
                  EmailLabel.color := Gmail.l_backgroundColor (label entry);
                  EmailLabel.type := Some (if isSystem entry then system else user) |})
            labels)).

End Operations.

End GmailLabels.

(* ===================================================================== *)
(** ** providers/microsoft.ts: outgoing recipients                        *)
(* ===================================================================== *)

Module MicrosoftSend.

Definition convertToGraphRecipient (addr : EmailAddress.t) : Microsoft.GraphRecipient :=
  Microsoft.mkRecipient
    (Some (Microsoft.mkEmailAddress (Some (EmailAddress.email addr))
             (EmailAddress.name addr))).

End MicrosoftSend.

(* ===================================================================== *)
(** ** providers/imap.ts: the folder tree                                 *)
(* ===================================================================== *)

Module ImapFolders.

(** [Imap.MailBoxes] as [Object.entries] walks it: a mailbox name whose box
    has no [children], or one whose box has, then the rest of the entries. *)
Inductive MailBoxes : Type :=
| NoBoxes
| Leaf (name : string) (rest : MailBoxes)
| Node (name : string) (children : MailBoxes) (rest : MailBoxes).

Definition fullPathOf (parentPath name : string) : string :=
  if negb (parentPath =? "")%string then parentPath ++ "/" ++ name else name.

(** The folder pushed for one entry *)
Definition folderOf (parentPath name : string) : EmailFolder.t :=
  {| EmailFolder.id := fullPathOf parentPath name;
     EmailFolder.name := name;
     EmailFolder.parentId :=
       if negb (parentPath =? "")%string then Some parentPath else None;
     EmailFolder.unreadCount := None;
     EmailFolder.totalCount := None |}.

Fixpoint flattenBoxes (boxes : MailBoxes) (parentPath : string) : list EmailFolder.t :=
  match boxes with
  | NoBoxes => []
  | Leaf name rest => folderOf parentPath name :: flattenBoxes rest parentPath
  | Node name children rest =>
      (folderOf parentPath name
       :: flattenBoxes children (fullPathOf parentPath name)
       ++ flattenBoxes rest parentPath)%list
  end.

(** The number of boxes in the tree *)
Fixpoint boxCount (boxes : MailBoxes) : nat :=
  match boxes with
  | NoBoxes => 0
  | Leaf _ rest => S (boxCount rest)
  | Node _ children rest => S (boxCount children + boxCount rest)
  end.

End ImapFolders.

(* ===================================================================== *)
(** ** providers/microsoft.ts: the read flag                              *)
(* ===================================================================== *)

Module MicrosoftFlags.

Section Operations.

Context {W : Type} (client : Microsoft.Client W).

Definition markAsRead (emailId : string) : Async.M W unit :=
  Async.tryNormalize "microsoft"
    (Async.await
       (Microsoft.patch client ("/me/messages/" ++ emailId) (Microsoft.PatchIsRead true))).

Definition markAsUnread (emailId : string) : Async.M W unit :=
  Async.tryNormalize "microsoft"
    (Async.await
       (Microsoft.patch client ("/me/messages/" ++ emailId) (Microsoft.PatchIsRead false))).

End Operations.

End MicrosoftFlags.

(* ===================================================================== *)
(** ** Concrete backends used to exercise the adapters                    *)
(* ===================================================================== *)

Module Scenario.

(** *** Raw failures *)

Definition rawUnauthorized : JsVal :=
  JObj [ ("code", JNum (Num 401));
         ("statusCode", JNum (Num 401));
         ("response", JObj [("status", JNum (Num 401))]);
         ("message", JStr "Unauthorized") ].

Definition gmailTooManyRequests : JsVal :=
  JObj [ ("code", JNum (Num 429));
         ("response", JObj [ ("status", JNum (Num 429));
                             ("headers", JObj [("retry-after", JStr "5")]) ]);
         ("message", JStr "Too Many Requests") ].

Definition graphTooManyRequests : JsVal :=
  JObj [ ("statusCode", JNum (Num 429));
         ("code", JStr "TooManyRequests");
         ("headers", JObj [("retry-after", JStr "5")]);
         ("message", JStr "Too Many Requests") ].


(** *** A Gmail mailbox with two messages; the world is the log of the
    messages submitted so far. *)

Definition header (n v : string) : Gmail.GmailMessagePartHeader :=
  Gmail.mkHeader (Some n) (Some v).

Definition gmailMessage1 : Gmail.GmailMessage :=
  Gmail.mkMessage (Some "m1") (Some "t1") (Some ["INBOX"; "UNREAD"])
    (Some (Gmail.mkPart (Some "text/plain") None
             (Some [ header "Subject" "Re: Hello";
                     header "From" "Alice <alice@example.com>";
                     header "To" "bob@example.com, Carol <carol@example.com>" ])
             (Some (Gmail.mkPartBody (Some "aGk=") None (Some 2)))
             None))
    (Some "1700000000000").

Definition gmailMessage2 : Gmail.GmailMessage :=
  Gmail.mkMessage (Some "m2") (Some "t2") None
    (Some (Gmail.mkPart (Some "text/plain") None
             (Some [ header "Subject" "Hi";
                     header "From" "dave@example.com";
                     header "To" "bob@example.com" ])
             None None))
    None.

Definition notFound : JsVal := JObj [ ("code", JNum (Num 404)) ].

Definition plainBytes (c : AttachmentContent) : string :=
  match c with
  | ContentString s => s
  | ContentBuffer bs => bs
  | ContentAbsent => ""
  end.

Definition gmailClient : Gmail.Client (list Gmail.SendRequest) :=
  Gmail.mkClient (list Gmail.SendRequest)
    (fun rq w =>
       (inl (Gmail.mkMessage (Some "sent-1") (Gmail.s_threadId rq) (Some ["SENT"])
               None None), (w ++ [rq])%list))
    (fun _ w =>
       (inl (Gmail.mkListData
               (Some [ Gmail.mkMessage (Some "m1") (Some "t1") None None None;
                       Gmail.mkMessage (Some "m2") (Some "t2") None None None ])
               None (Some 2)), w))
    (fun id w =>
       if (id =? "m1")%string then (inl gmailMessage1, w)
       else if (id =? "m2")%string then (inl gmailMessage2, w)
       else (inr notFound, w))
    (fun rq w =>
       (inl (Gmail.mkLabel "Label_1" (Gmail.rq_name rq) (Some "user")
               (match Gmail.rq_color rq with
                | Some (Value c) => Some (Gmail.backgroundColor c)
                | _ => None
                end)), w))
    (fun w => (1700000000000, w))
    plainBytes
    (fun s => s).

(** The same mailbox behind an expired token: every read is refused. *)
Definition gmailClientUnauthorized : Gmail.Client (list Gmail.SendRequest) :=
  Gmail.mkClient (list Gmail.SendRequest)
    (Gmail.messages_send gmailClient)
    (Gmail.messages_list gmailClient)
    (fun _ w => (inr rawUnauthorized, w))
    (Gmail.labels_create gmailClient)
    (Gmail.Date_now gmailClient)
    plainBytes
    (fun s => s).

Definition replyOptions : SendEmailOptions.t :=
  SendEmailOptions.mk "ignored" [EmailAddress.mk "alice@example.com" None]
    None None "Thanks" None None None.

(** *** A Graph mailbox with a given folder list; the world is the log of
    the requests that change the mailbox. *)

Definition graphFolder (id n : string) : Microsoft.GraphFolder :=
  Microsoft.mkFolder id n None (Some 0) (Some 0).

Definition graphCategories : list Microsoft.GraphCategory :=
  [ Microsoft.mkCategory "c1" "Work" (Some "preset0") false;
    Microsoft.mkCategory "c2" "Home" (Some "preset7") false ].

(** A draft: no sender, one recipient, two categories *)
Definition graphDraft : Microsoft.GraphMessage :=
  Microsoft.mkMessage (Some "m1") "Draft" None
    (Some [ Microsoft.mkRecipient
              (Some (Microsoft.mkEmailAddress (Some "bob@example.com") (Some "Bob"))) ])
    None None false None None (Some false) None (Some ["Work"; "Home"]).

Definition logged (w : list string) (entry : string) : list string :=
  (w ++ [entry])%list.

Definition graphClient (folders : list Microsoft.GraphFolder)
    : Microsoft.Client (list string) :=
  Microsoft.mkClient (list string)
    (fun _ w => (inl graphDraft, w))
    (fun _ w => (inl (Microsoft.mkMessageList [graphDraft] None None), w))
    (fun _ w => (inl folders, w))
    (fun _ w => (inl graphCategories, w))
    (fun endpoint dest w => (inl tt, logged w ("POST " ++ endpoint ++ " " ++ dest)))
    (fun endpoint n _ w => (inl (Microsoft.mkCategory "c9" n (Some "preset0") false), w))
    (fun endpoint p w =>
       (inl tt,
        logged w
          match p with
          | Microsoft.PatchIsRead _ => "PATCH " ++ endpoint
          | Microsoft.PatchCategories cs =>
              "PATCH " ++ endpoint ++ " categories=" ++ join "," cs
          end))
    (fun endpoint w => (inl tt, logged w ("DELETE " ++ endpoint)))
    (fun _ => Num 0).

Definition foldersWithArchive : list Microsoft.GraphFolder :=
  [ graphFolder "f1" "Inbox"; graphFolder "f2" "Archive" ].

Definition foldersWithoutReserved : list Microsoft.GraphFolder :=
  [ graphFolder "f1" "Inbox" ].

(** *** Configuration records *)

Definition gmailConfig : JsVal :=
  JObj [ ("type", JStr "gmail");
         ("credentials", JObj [ ("client_id", JStr "id");
                                ("client_secret", JStr "secret");
                                ("redirect_uri", JStr "http://localhost") ]) ].

Definition microsoftConfig : JsVal :=
  JObj [ ("type", JStr "microsoft"); ("clientId", JStr "id");
         ("clientSecret", JStr "secret"); ("tenantId", JStr "tenant");
         ("accessToken", JStr "token") ].

Definition pop3Config : JsVal := JObj [ ("type", JStr "pop3") ].

End Scenario.

(* ===================================================================== *)
(** ** Further backends and inputs                                        *)
(* ===================================================================== *)

Module Cases.

Definition connectionRefused : JsVal :=
  JObj [ ("code", JStr "ECONNREFUSED"); ("errno", JNum (Num (-111))) ].

Definition graphForbidden : JsVal :=
  JObj [ ("statusCode", JNum (Num 403)); ("code", JStr "ErrorAccessDenied");
         ("message", JStr "Access is denied.") ].

Definition gmailNotFound : JsVal :=
  JObj [ ("response", JObj [("status", JNum (Num 404))]);
         ("message", JStr "Requested entity was not found.") ].

(** A Graph failure that carries its error code in the response body only *)
Definition graphThrottledBody : JsVal :=
  JObj [ ("body", JObj [("error", JObj [("code", JStr "TooManyRequests")])]);
         ("headers", JObj [("retry-after", JStr "Wed, 21 Oct 2015 07:28:00 GMT")]) ].

(** An HTTP client failure whose [code] is a string, as axios-style clients
    set it *)
Definition stringCoded401 : JsVal :=
  JObj [ ("code", JStr "ERR_BAD_REQUEST");
         ("response", JObj [("status", JNum (Num 401))]);
         ("message", JStr "Request failed with status code 401") ].

(** A failure whose message is an object that cannot be converted to a
    string: it has a [toString] of its own, and that is a number *)
Definition opaque : JsVal := JObj [ ("toString", JNum (Num 1)) ].


(** A Gmail 429 whose retry-after header is such an object *)
Definition gmailThrottledOpaque : JsVal :=
  JObj [ ("code", JNum (Num 429));
         ("response", JObj [("headers", JObj [("retry-after", opaque)])]) ].

Definition opaqueConfig : JsVal := JObj [ ("type", opaque) ].

End Cases.

(** *** Further cases: a folder tree, a message with attachments, and
    mailboxes that keep what is written to them *)

Module Mailboxes.

(** INBOX with two sub-folders, one of them with a child, and Sent *)
Definition mailTree : ImapFolders.MailBoxes :=
  ImapFolders.Node "INBOX"
    (ImapFolders.Node "Work" (ImapFolders.Leaf "2024" ImapFolders.NoBoxes)
       (ImapFolders.Leaf "Private" ImapFolders.NoBoxes))
    (ImapFolders.Leaf "Sent" ImapFolders.NoBoxes).

(** A multipart message: a text part, a PDF and an inline part that has a
    file name but no attachment id *)
Definition withAttachments : Gmail.GmailMessagePart :=
  Gmail.mkPart (Some "multipart/mixed") (Some "") None None
    (Some [ Gmail.mkPart (Some "text/plain") None None
              (Some (Gmail.mkPartBody (Some "aGk=") None (Some 2))) None;
            Gmail.mkPart (Some "application/pdf") (Some "report.pdf") None
              (Some (Gmail.mkPartBody None (Some "att-1") (Some 1024))) None;
            Gmail.mkPart None (Some "logo.png") None
              (Some (Gmail.mkPartBody (Some "iVBORw==") None (Some 6))) None ]).

Definition pdfAttachment : EmailAttachment.t :=
  EmailAttachment.mk "report.pdf" (ContentString "att-1") "application/pdf" (Some 1024).

(** A Gmail mailbox of one message; the world is the label ids on it. *)
Definition gmailReads : Gmail.Client (list string) :=
  Gmail.mkClient (list string)
    (fun rq w => (inl (Gmail.mkMessage (Some "sent-1") (Gmail.s_threadId rq) (Some ["SENT"])
                         None None), w))
    (fun _ w => (inl (Gmail.mkListData None None None), w))
    (fun id w => (inl (Gmail.mkMessage (Some id) (Some "t1") (Some w) None None), w))
    (fun rq w => (inl (Gmail.mkLabel "Label_1" (Gmail.rq_name rq) (Some "user") None), w))
    (fun w => (1700000000000, w))
    Scenario.plainBytes
    (fun s => s).

(** The same mailbox, its message being the multipart one *)
Definition gmailReadsAttachments : Gmail.Client (list string) :=
  Gmail.mkClient (list string)
    (Gmail.messages_send gmailReads)
    (Gmail.messages_list gmailReads)
    (fun id w =>
       (inl (Gmail.mkMessage (Some id) None (Some w) (Some withAttachments) None), w))
    (Gmail.labels_create gmailReads)
    (Gmail.Date_now gmailReads)
    Scenario.plainBytes
    (fun s => s).

Definition without (ids : list string) (w : list string) : list string :=
  filter (fun l => negb (includes ids l)) w.

Definition gmailLabels : list GmailLabels.LabelEntry :=
  [ GmailLabels.mkEntry (Gmail.mkLabel "INBOX" "INBOX" (Some "system") None)
      (Some 3) (Some 10);
    GmailLabels.mkEntry (Gmail.mkLabel "Label_1" "Work" (Some "user") (Some "#fb4c2f"))
      None None;
    GmailLabels.mkEntry (Gmail.mkLabel "SENT" "SENT" (Some "system") None)
      (Some 0) (Some 4) ].

Definition gmailWrites : GmailLabels.Client (list string) :=
  GmailLabels.mkClient (list string)
    (fun _ rq w =>
       (inl tt,
        (without (match GmailLabels.removeLabelIds rq with Some l => l | None => [] end) w
         ++ match GmailLabels.addLabelIds rq with Some l => l | None => [] end)%list))
    (fun w => (inl (Some gmailLabels), w)).

(** A Graph mailbox of one message; the world is its read flag. *)
Definition graphFlags : Microsoft.Client (option bool) :=
  Microsoft.mkClient (option bool)
    (fun _ w =>
       (inl (Microsoft.mkMessage (Some "m1") "Draft" None None None None false None None
               w None None), w))
    (fun _ w => (inl (Microsoft.mkMessageList [] None None), w))
    (fun _ w => (inl [], w))
    (fun _ w => (inl [], w))
    (fun _ _ w => (inl tt, w))
    (fun _ n _ w => (inl (Microsoft.mkCategory "c9" n None false), w))
    (fun _ p w =>
       (inl tt,
        match p with
        | Microsoft.PatchIsRead b => Some b
        | Microsoft.PatchCategories _ => w
        end))
    (fun _ w => (inl tt, w))
    (fun _ => Num 0).

End Mailboxes.

(* ===================================================================== *)
(** ** Vocabulary of the properties                                       *)
(* ===================================================================== *)

(** *** Readings of a raw failure *)

(** The status and the Graph error code as pure readings of a defined
    failure value *)
Definition gmailStatusOf (error : JsVal) : JsVal :=
  orElse (optProp error "code") (optProp (optProp error "response") "status").

Definition microsoftStatusOf (error : JsVal) : JsVal :=
  orElse (optProp error "statusCode") (optProp error "code").

Definition microsoftCodeOf (error : JsVal) : JsVal :=
  orElse (optProp error "code") (optProp (optProp (optProp error "body") "error") "code").

Definition earlierGraphCode (c : JsVal) : bool :=
  isStr c "InvalidAuthenticationToken" || isStr c "Forbidden"
  || isStr c "ResourceNotFound".

Definition unauthorized (tag : string) (error : JsVal) : Prop :=
  nullish error = false /\
  ((tag = "gmail" /\ gmailStatusOf error = JNum (Num 401)) \/
   (tag = "microsoft" /\ microsoftStatusOf error = JNum (Num 401))).

Definition tooManyRequests (tag : string) (error : JsVal) : Prop :=
  nullish error = false /\
  ((tag = "gmail" /\ gmailStatusOf error = JNum (Num 429)) \/
   (tag = "microsoft" /\ microsoftStatusOf error = JNum (Num 429)
    /\ earlierGraphCode (microsoftCodeOf error) = false)).

Definition retryAfterHeader (tag : string) (error : JsVal) : JsVal :=
  if (tag =? "gmail")%string
  then optProp (optProp (optProp error "response") "headers") "retry-after"
  else optProp (optProp error "headers") "retry-after".

Definition providerRuleFires (tag : string) (error : JsVal) : bool :=
  if (tag =? "gmail")%string then
    let s := gmailStatusOf error in
    isNum s 401 || isNum s 403 || isNum s 404 || isNum s 429
  else if (tag =? "microsoft")%string then
    let s := microsoftStatusOf error in
    let c := microsoftCodeOf error in
    isNum s 401 || isStr c "InvalidAuthenticationToken"
    || isNum s 403 || isStr c "Forbidden"
    || isNum s 404 || isStr c "ResourceNotFound"
    || isNum s 429 || isStr c "TooManyRequests"
  else false.


(** The rule that builds a [RateLimitError] is the one that returns: the
    429 row of the tag's table, no earlier row taking the failure *)
Definition rateRuleFires (tag : string) (error : JsVal) : bool :=
  if (tag =? "gmail")%string then isNum (gmailStatusOf error) 429
  else if (tag =? "microsoft")%string then
    let s := microsoftStatusOf error in
    let c := microsoftCodeOf error in
    negb (isNum s 401 || isStr c "InvalidAuthenticationToken"
          || isNum s 403 || isStr c "Forbidden"
          || isNum s 404 || isStr c "ResourceNotFound")
    && (isNum s 429 || isStr c "TooManyRequests")
  else false.

(** A value that ToString converts: anything but a plain object with an
    own property [toString] *)
Definition convertible (v : JsVal) : bool :=
  match v with
  | JObj fields =>
      match lookupOwn "toString" fields with
      | Some _ => false
      | None => true
      end
  | _ => true
  end.

(** *** Facade *)

Definition supportedType (type : JsVal) : bool :=
  isStr type "gmail" || isStr type "microsoft" || isStr type "imap".

(** *** Messages and labels *)

(** The label-ID list of a backend record, [[]] when it carries none *)
Definition labelIdsOf (data : Gmail.GmailMessage) : list string :=
  match Gmail.m_labelIds data with
  | Some ids => ids
  | None => []
  end.

(** The request both label operations end with: the message's categories
    are set to the given names. *)
Definition patchCategories {W : Type} (client : Microsoft.Client W)
    (emailId : string) (names : list string) : Async.M W unit :=
  Async.tryNormalize "microsoft"
    (Async.await
       (Microsoft.patch client ("/me/messages/" ++ emailId)
          (Microsoft.PatchCategories names))).

(** *** Colours *)

Definition numeric (c : Rgb) : bool :=
  match r c, g c, b c with
  | Num _, Num _, Num _ => true
  | _, _, _ => false
  end.

Definition keysNumeric {A : Type} (table : list (string * A)) : bool :=
  forallb (fun e => numeric (hexToRgb (fst e))) table.

Definition isHexDigit (c : ascii) : bool :=
  match digitValue c with
  | Some d => d <? 16
  | None => false
  end.

(** [#] followed by exactly six hexadecimal digits *)
Definition wellFormedHex (s : string) : bool :=
  match s with
  | String h (String c1 (String c2 (String c3 (String c4 (String c5
      (String c6 EmptyString)))))) =>
      Ascii.eqb h "#" && isHexDigit c1 && isHexDigit c2 && isHexDigit c3
      && isHexDigit c4 && isHexDigit c5 && isHexDigit c6
  | _ => false
  end.

Definition keysHaveLength7 {A : Type} (table : list (string * A)) : bool :=
  forallb (fun e => (String.length (fst e) =? 7)%nat) table.

Definition allChars : list ascii := map ascii_of_nat (seq 0 256).

Definition pairParses (c1 c2 : ascii) : bool :=
  match parseInt (String (lowerChar c1) (String (lowerChar c2) EmptyString)) (Some 16) with
  | Num _ => true
  | NaN => false
  end.

(** *** Further readings of a raw failure *)

Definition statusInTable (s : JsVal) : bool :=
  isNum s 401 || isNum s 403 || isNum s 404 || isNum s 429.

Definition graphCodeInTable (c : JsVal) : bool :=
  isStr c "InvalidAuthenticationToken" || isStr c "Forbidden"
  || isStr c "ResourceNotFound" || isStr c "TooManyRequests".

(** The message of a classified error that went through [normalizeError]
    once more *)
Definition keptMessage (e : SuperMailError) : string :=
  if (message e =? "")%string then "An unknown error occurred" else message e.

(** A first character after which [parseInt] finds no number: not white
    space, not a sign, not a decimal digit *)
Definition leadingJunk (c : ascii) : bool :=
  negb (isWhiteSpace c) && negb (Ascii.eqb c "-") && negb (Ascii.eqb c "+")
  && match digitValue c with
     | Some d => 10 <=? d
     | None => true
     end.

(** *** Addresses that survive being written and read back *)

(** [c] does not occur in [s] *)
Fixpoint lacks (c : ascii) (s : string) : bool :=
  match s with
  | EmptyString => true
  | String x rest => negb (Ascii.eqb x c) && lacks c rest
  end.

(** Not empty, no white space at either end, on one line *)
Definition plainText (s : string) : Prop :=
  s <> "" /\ trimStart s = s /\ trimEnd s = s /\ Gmail.noLineTerminator s = true.

(** The display name, when there is one, has no [<]; an address without a
    display name has none either. *)
Definition writable (addr : EmailAddress.t) : Prop :=
  plainText (EmailAddress.email addr) /\
  match EmailAddress.name addr with
  | Some n => plainText n /\ lacks "<" n = true
  | None => lacks "<" (EmailAddress.email addr) = true
  end.

Definition commaFree (addr : EmailAddress.t) : Prop :=
  lacks "," (Gmail.formatEmailAddress addr) = true.

(** Two headers that differ at most in the capitalisation of their name *)
Definition sameUpToCase (h h' : Gmail.GmailMessagePartHeader) : Prop :=
  Gmail.h_value h = Gmail.h_value h' /\
  option_map toLowerCase (Gmail.h_name h) = option_map toLowerCase (Gmail.h_name h').

(** The parts of a payload, itself first, in document order *)
Fixpoint partsOf (payload : Gmail.GmailMessagePart) : list Gmail.GmailMessagePart :=
  payload ::
  match payload with
  | Gmail.mkPart _ _ _ _ (Some ps) =>
      (fix each (l : list Gmail.GmailMessagePart) : list Gmail.GmailMessagePart :=
         match l with
         | [] => []
         | p :: r => (partsOf p ++ each r)%list
         end) ps
  | Gmail.mkPart _ _ _ _ None => []
  end.

(** A part that stands for an attachment: it has a non-empty file name and
    its body a non-empty attachment id *)
Definition attached (p : Gmail.GmailMessagePart) : bool :=
  truthyStr (Gmail.p_filename p)
  && match Gmail.p_body p with
     | Some b => truthyStr (Gmail.b_attachmentId b)
     | None => false
     end.

(** [a] is the attachment the part [p] stands for: it has the part's file
    name, the attachment id of the part's body as its content, the part's
    MIME type (the octet-stream type when the part has none) and the size
    of the part's body. *)
Definition refersTo (a : EmailAttachment.t) (p : Gmail.GmailMessagePart) : Prop :=
  exists fn b id,
    Gmail.p_filename p = Some fn /\ fn <> "" /\
    Gmail.p_body p = Some b /\ Gmail.b_attachmentId b = Some id /\ id <> "" /\
    a = EmailAttachment.mk fn (ContentString id)
          (orStr (Gmail.p_mimeType p) "application/octet-stream") (Gmail.b_size b).

Definition added (rq : GmailLabels.ModifyRequest) : list string :=
  match GmailLabels.addLabelIds rq with Some l => l | None => [] end.

Definition removed (rq : GmailLabels.ModifyRequest) : list string :=
  match GmailLabels.removeLabelIds rq with Some l => l | None => [] end.

(** What [users.messages.modify] promises, seen through
    [users.messages.get]: after a [modify] that succeeded, the message has
    the added labels, has none of the removed ones, and keeps every other
    label it had when it was read just before. *)
Definition appliesModify {W : Type} (reads : Gmail.Client W)
    (writes : GmailLabels.Client W) : Prop :=
  forall emailId rq w w' after w'',
    GmailLabels.messages_modify writes emailId rq w = (inl tt, w') ->
    Gmail.messages_get reads emailId w' = (inl after, w'') ->
    (forall l, In l (added rq) -> In l (labelIdsOf after)) /\
    (forall l, In l (removed rq) -> ~ In l (added rq) -> ~ In l (labelIdsOf after)) /\
    (forall w0 before l,
        Gmail.messages_get reads emailId w0 = (inl before, w) ->
        In l (labelIdsOf before) -> ~ In l (removed rq) -> In l (labelIdsOf after)).

(** What a [PATCH] of [isRead] promises, seen through the next [GET] of the
    same message *)
Definition appliesPatch {W : Type} (client : Microsoft.Client W) : Prop :=
  forall endpoint flag w w' after w'',
    Microsoft.patch client endpoint (Microsoft.PatchIsRead flag) w = (inl tt, w') ->
    Microsoft.get_message client endpoint w' = (inl after, w'') ->
    Microsoft.gm_isRead after = Some flag.

(* ===================================================================== *)
(** ** Properties of the error taxonomy                                   *)
(* ===================================================================== *)

Lemma getProp_defined (v : JsVal) (k : string) :
  nullish v = false -> getProp v k = Return (optProp v k).
Proof. destruct v; simpl; intros H; try discriminate; reflexivity. Qed.

Lemma optProp_defined (v x : JsVal) (k : string) :
  optProp v k = x -> x <> JUndefined -> nullish v = false.
Proof. destruct v; simpl; intros <- H; try reflexivity; contradiction. Qed.

Lemma gmailStatusCode_eq (error : JsVal) :
  nullish error = false -> gmailStatusCode error = Return (gmailStatusOf error).
Proof.
  intros H. unfold gmailStatusCode, gmailStatusOf, orElse.
  rewrite !(getProp_defined _ _ H). simpl.
  destruct (truthy (optProp error "code")); reflexivity.
Qed.

Lemma microsoftStatusCode_eq (error : JsVal) :
  nullish error = false -> microsoftStatusCode error = Return (microsoftStatusOf error).
Proof.
  intros H. unfold microsoftStatusCode, microsoftStatusOf, orElse.
  rewrite !(getProp_defined _ _ H). simpl.
  destruct (truthy (optProp error "statusCode")); reflexivity.
Qed.

Lemma microsoftErrorCode_eq (error : JsVal) :
  nullish error = false -> microsoftErrorCode error = Return (microsoftCodeOf error).
Proof.
  intros H. unfold microsoftErrorCode, microsoftCodeOf, orElse.
  rewrite !(getProp_defined _ _ H). simpl.
  destruct (truthy (optProp error "code")); reflexivity.
Qed.

Lemma isStr_eq (v : JsVal) (s : string) : isStr v s = true -> v = JStr s.
Proof.
  destruct v; simpl; intros H; try discriminate.
  apply String.eqb_eq in H. now subst.
Qed.

Lemma isNum_eq (v : JsVal) (n : Z) : isNum v n = true -> v = JNum (Num n).
Proof.
  destruct v as [| | |[z|]| |]; simpl; intros H; try discriminate.
  apply Z.eqb_eq in H. now subst.
Qed.

Ltac split_false H :=
  repeat match type of H with
         | (_ || _)%bool = false =>
             let H' := fresh H in apply orb_false_iff in H as [H H']
         end.

(** *** The conversion to a string *)

Lemma ToString_convertible (v : JsVal) :
  convertible v = true -> exists s, ToString v = Return s.
Proof.
  unfold ToString. destruct v as [| |[]| | |fields]; cbn; intros H; eauto.
  destruct (lookupOwn "toString" fields); [discriminate | eauto].
Qed.

Lemma ToString_unconvertible (v : JsVal) :
  convertible v = false ->
  ToString v = Throw (ExnTypeError "Cannot convert object to primitive value") /\
  truthy v = true.
Proof.
  unfold ToString. destruct v as [| |[]| | |fields]; cbn; intros H; try discriminate.
  destruct (lookupOwn "toString" fields); [split; reflexivity | discriminate].
Qed.

Lemma retryAfterOf_convertible (h : JsVal) :
  convertible h = true ->
  exists hint, retryAfterOf h = Return hint /\
               (hint = None <-> truthy h = false) /\
               (forall s, h = JStr s -> s <> "" -> hint = Some (parseInt s None)).
Proof.
  intros Hc. unfold retryAfterOf. destruct (truthy h) eqn:Ht.
  - destruct (ToString_convertible h Hc) as [s Hs]. rewrite Hs. cbn [Errors.bind].
    eexists. split; [reflexivity|]. split; [split; discriminate|].
    intros s' -> _. cbn in Hs. now injection Hs as <-.
  - eexists. split; [reflexivity|]. split; [split; reflexivity|].
    intros s -> Hne. cbn in Ht. destruct (String.eqb_spec s ""); [contradiction|discriminate].
Qed.

Lemma retryAfterOf_unconvertible (h : JsVal) :
  convertible h = false ->
  retryAfterOf h = Throw (ExnTypeError "Cannot convert object to primitive value").
Proof.
  intros Hc. destruct (ToString_unconvertible h Hc) as [Hs Ht].
  unfold retryAfterOf. now rewrite Ht, Hs.
Qed.

(** *** The two provider blocks on a defined failure, in terms of the
    readings *)

Lemma gmailRules_eq (error : JsVal) (tag : string) :
  nullish error = false ->
  gmailRules error tag
  = let s := gmailStatusOf error in
    if isNum s 401 then
      Return (Some (newAuthenticationError
        "Gmail authentication failed. Token may be expired or invalid."
        (Some tag) error))
    else if isNum s 403 then
      Return (Some (newSuperMailError QUOTA_EXCEEDED
        "Gmail quota exceeded or insufficient permissions." (Some tag) error))
    else if isNum s 404 then
      Return (Some (newNotFoundError "Email not found in Gmail." (Some tag) None error))
    else if isNum s 429 then
      hint <- retryAfterOf
                (optProp (optProp (optProp error "response") "headers") "retry-after");;
      Return (Some (newRateLimitError "Gmail rate limit exceeded." (Some tag) hint error))
    else Return None.
Proof.
  intros Hn. unfold gmailRules. rewrite (gmailStatusCode_eq _ Hn).
  cbn [Errors.bind]. cbv zeta.
  repeat (match goal with |- context [if ?b then _ else _] => destruct b end;
          try reflexivity).
  all: rewrite (getProp_defined _ _ Hn); reflexivity.
Qed.

Lemma microsoftRules_eq (error : JsVal) (tag : string) :
  nullish error = false ->
  microsoftRules error tag
  = let s := microsoftStatusOf error in
    let c := microsoftCodeOf error in
    if isNum s 401 || isStr c "InvalidAuthenticationToken" then
      Return (Some (newAuthenticationError
        "Microsoft authentication failed. Token may be expired or invalid."
        (Some tag) error))
    else if isNum s 403 || isStr c "Forbidden" then
      Return (Some (newSuperMailError QUOTA_EXCEEDED
        "Microsoft insufficient permissions or quota exceeded." (Some tag) error))
    else if isNum s 404 || isStr c "ResourceNotFound" then
      Return (Some (newNotFoundError "Email not found in Microsoft." (Some tag) None error))
    else if isNum s 429 || isStr c "TooManyRequests" then
      hint <- retryAfterOf (optProp (optProp error "headers") "retry-after");;
      Return (Some (newRateLimitError "Microsoft rate limit exceeded." (Some tag) hint
                      error))
    else Return None.
Proof.
  intros Hn. unfold microsoftRules.
  rewrite (microsoftStatusCode_eq _ Hn), (microsoftErrorCode_eq _ Hn).
  cbn [Errors.bind]. cbv zeta.
  repeat (match goal with |- context [if ?b then _ else _] => destruct b end;
          try reflexivity).
  all: rewrite (getProp_defined _ _ Hn); reflexivity.
Qed.

(** *** The three ways through [normalizeError] *)

(** The 429 row returns: the outcome is that of reading the retry hint. *)
Lemma normalizeError_rate (error : JsVal) (tag : string) :
  nullish error = false -> rateRuleFires tag error = true ->
  exists text,
    normalizeError error tag
    = (hint <- retryAfterOf (retryAfterHeader tag error);;
       Return (newRateLimitError text (Some tag) hint error)).
Proof.
  intros Hn. unfold rateRuleFires, retryAfterHeader, normalizeError.
  destruct (String.eqb_spec tag "gmail") as [->|Hg].
  - intros H. apply isNum_eq in H. rewrite (gmailRules_eq _ _ Hn). cbv zeta.
    rewrite H. cbn [isNum Z.eqb Pos.eqb].
    eexists. destruct (retryAfterOf _) as [hint|e]; reflexivity.
  - cbn [Errors.bind]. destruct (String.eqb_spec tag "microsoft") as [->|Hm];
      [|discriminate].
    intros H. apply andb_prop in H as [H1 H2]. apply negb_true_iff in H1.
    rewrite (microsoftRules_eq _ _ Hn). cbv zeta.
    split_false H1. rewrite H1, H6, H5, H4, H3, H0, H2. cbn [orb].
    eexists. destruct (retryAfterOf _) as [hint|e]; reflexivity.
Qed.


(** No row of a table returns: the connectivity rule or the last one does. *)
Lemma normalizeError_unruled (error : JsVal) (tag : string) :
  nullish error = false -> providerRuleFires tag error = false ->
  normalizeError error tag
  = if isNetworkCode (optProp error "code") then
      text <- ToString (optProp error "message");;
      Return (newSuperMailError NETWORK_ERROR ("Network error: " ++ text) (Some tag) error)
    else
      text <- ToString (orElse (optProp error "message")
                          (JStr "An unknown error occurred"));;
      Return (newSuperMailError UNKNOWN_ERROR text (Some tag) error).
Proof.
  intros Hn. unfold providerRuleFires, normalizeError.
  destruct (String.eqb_spec tag "gmail") as [->|Hg].
  - rewrite (gmailRules_eq _ _ Hn). cbv zeta. intros Hp. split_false Hp.
    rewrite Hp, Hp2, Hp1, Hp0. cbn [Errors.bind String.eqb Ascii.eqb Bool.eqb andb].
    rewrite !(getProp_defined _ _ Hn). reflexivity.
  - cbn [Errors.bind]. destruct (String.eqb_spec tag "microsoft") as [->|Hm].
    + rewrite (microsoftRules_eq _ _ Hn). cbv zeta. intros Hp. split_false Hp.
      rewrite Hp, Hp6, Hp5, Hp4, Hp3, Hp2, Hp1, Hp0. cbn [orb Errors.bind].
      rewrite !(getProp_defined _ _ Hn). reflexivity.
    + intros _. cbn [Errors.bind]. rewrite !(getProp_defined _ _ Hn). reflexivity.
Qed.

Lemma tooManyRequests_rate (tag : string) (error : JsVal) :
  tooManyRequests tag error ->
  nullish error = false /\ rateRuleFires tag error = true.
Proof.
  intros [Hn [[-> H] | [-> [H Hc]]]]; (split; [exact Hn|]); unfold rateRuleFires.
  - cbn [String.eqb Ascii.eqb Bool.eqb andb]. now rewrite H.
  - cbn [String.eqb Ascii.eqb Bool.eqb andb]. cbv zeta. rewrite H.
    unfold earlierGraphCode in Hc. split_false Hc. rewrite Hc, Hc0, Hc1. reflexivity.
Qed.

(** The message of the last rule *)
Lemma unknown_message (msg : JsVal) :
  convertible msg = true ->
  exists text,
    ToString (orElse msg (JStr "An unknown error occurred")) = Return text /\
    (forall s, msg = JStr s -> s <> "" -> text = s) /\
    (truthy msg = false -> text = "An unknown error occurred").
Proof.
  intros Hc. unfold orElse. destruct (truthy msg) eqn:Ht.
  - destruct (ToString_convertible msg Hc) as [text Hs]. exists text.
    split; [exact Hs|]. split; [|discriminate].
    intros s -> _. cbn in Hs. now injection Hs as <-.
  - eexists. split; [reflexivity|]. split; [|reflexivity].
    intros s -> Hne. cbn in Ht. destruct (String.eqb_spec s ""); [contradiction|discriminate].
Qed.

(** Claim C1, as the code has it.  For the two tags that have a status
    table, ['gmail'] and ['microsoft']: a raw failure whose status reads 401
    is classified [AUTH_FAILED]; one whose status reads 429 (and, for
    Microsoft, whose Graph error code is not one that an earlier rule of the
    table takes) is classified [RATE_LIMIT_EXCEEDED], with [retryAfter = 5]
    when the retry-after header that the tag's block reads is the string
    "5", unless that header is an object that cannot be converted to a
    string, on which [normalizeError] throws a TypeError.  Under any other
    tag, ['imap'] among them, the kind is [NETWORK_ERROR] or
    [UNKNOWN_ERROR], unless the failure's message is such an object, on
    which [normalizeError] throws a TypeError. *)
Theorem normalizeError_status_kinds (tag : string) (error : JsVal) :
  (unauthorized tag error ->
   exists e, normalizeError error tag = Return e /\ code e = AUTH_FAILED) /\
  (tooManyRequests tag error ->
   (convertible (retryAfterHeader tag error) = true ->
    exists e, normalizeError error tag = Return e /\ code e = RATE_LIMIT_EXCEEDED /\
              (retryAfterHeader tag error = JStr "5" -> retryAfter e = Some (Num 5))) /\
   (convertible (retryAfterHeader tag error) = false ->
    exists m, normalizeError error tag = Throw (ExnTypeError m))) /\
  (tag <> "gmail" -> tag <> "microsoft" -> nullish error = false ->
   (convertible (optProp error "message") = true ->
    exists e, normalizeError error tag = Return e /\
              (code e = NETWORK_ERROR \/ code e = UNKNOWN_ERROR)) /\
   (convertible (optProp error "message") = false ->
    exists m, normalizeError error tag = Throw (ExnTypeError m))).
Proof.
  split; [|split].
  - intros [Hn [[-> H] | [-> H]]].
    + unfold normalizeError. cbn [String.eqb Ascii.eqb Bool.eqb andb].
      rewrite (gmailRules_eq _ _ Hn). cbv zeta. rewrite H. cbn.
      eexists; split; reflexivity.
    + unfold normalizeError. cbn [String.eqb Ascii.eqb Bool.eqb andb Errors.bind].
      rewrite (microsoftRules_eq _ _ Hn). cbv zeta. rewrite H. cbn.
      eexists; split; reflexivity.
  - intros H. destruct (tooManyRequests_rate _ _ H) as [Hn Hr].
    destruct (normalizeError_rate error tag Hn Hr) as [text ->]. split.
    + intros Hc. destruct (retryAfterOf_convertible _ Hc) as [hint [-> [_ Hs]]].
      eexists. split; [reflexivity|]. split; [reflexivity|].
      intros H5. cbn [retryAfter newRateLimitError]. rewrite (Hs "5" H5); [reflexivity|].
      discriminate.
    + intros Hc. rewrite (retryAfterOf_unconvertible _ Hc). eexists. reflexivity.
  - intros Hg Hm Hn.
    assert (Hp : providerRuleFires tag error = false).
    { unfold providerRuleFires.
      destruct (String.eqb_spec tag "gmail"); [contradiction|].
      destruct (String.eqb_spec tag "microsoft"); [contradiction|reflexivity]. }
    rewrite (normalizeError_unruled error tag Hn Hp). split.
    + intros Hc. destruct (isNetworkCode (optProp error "code")).
      * destruct (ToString_convertible _ Hc) as [text ->].
        eexists. split; [reflexivity|]. now left.
      * destruct (unknown_message _ Hc) as [text [-> _]].
        eexists. split; [reflexivity|]. now right.
    + intros Hc. destruct (ToString_unconvertible _ Hc) as [Hs Ht].
      unfold orElse. rewrite Ht, Hs.
      destruct (isNetworkCode (optProp error "code")); eexists; reflexivity.
Qed.

(** The theorem at a Gmail 401 and at a Graph 429 that carries the header *)
Lemma normalizeError_status_kinds_witness :
  (exists e, normalizeError Scenario.rawUnauthorized "gmail" = Return e /\
             code e = AUTH_FAILED) /\
  (exists e, normalizeError Scenario.graphTooManyRequests "microsoft" = Return e /\
             code e = RATE_LIMIT_EXCEEDED /\ retryAfter e = Some (Num 5)) /\
  (exists m, normalizeError Cases.gmailThrottledOpaque "gmail" = Throw (ExnTypeError m)).
Proof.
  split; [|split].
  - apply (proj1 (normalizeError_status_kinds "gmail" Scenario.rawUnauthorized)).
    split; [reflexivity | left; split; reflexivity].
  - destruct (proj1 (proj1 (proj2 (normalizeError_status_kinds "microsoft"
                                     Scenario.graphTooManyRequests))
                       (conj eq_refl (or_intror (conj eq_refl (conj eq_refl eq_refl)))))
                eq_refl)
      as [e [He [Hc Hr]]].
    exists e. split; [exact He|]. split; [exact Hc | apply Hr; reflexivity].
  - apply (proj2 (proj1 (proj2 (normalizeError_status_kinds "gmail"
                                  Cases.gmailThrottledOpaque))
                    (conj eq_refl (or_introl (conj eq_refl eq_refl))))).
    reflexivity.
Defined.

(** Claim C1 fails for the ['imap'] tag: [normalizeError] has no block for
    it, so a failure that reads 401 wherever a status is looked for comes
    out as [UNKNOWN_ERROR]. *)
Lemma normalizeError_imap_unauthorized :
  exists e, normalizeError Scenario.rawUnauthorized "imap" = Return e /\
            code e = UNKNOWN_ERROR /\ code e <> AUTH_FAILED.
Proof.
  eexists; split; [reflexivity|]. split; [reflexivity | discriminate].
Qed.

(** An operation that awaits a sibling operation inside its own try block
    normalizes the sibling's failure a second time; the classified error is
    then read as a raw one, its [code] is a string, and the kind is lost.
    [getEmail] reports the refused read as [AUTH_FAILED], [listEmails],
    which refetches through [getEmail], as [UNKNOWN_ERROR]. *)
Lemma nested_try_normalizes_twice :
  (exists e, Gmail.getEmail Scenario.gmailClientUnauthorized "m1" []
               = (Throw (ExnSuperMail e), []) /\ code e = AUTH_FAILED) /\
  (exists e, Gmail.listEmails Scenario.gmailClientUnauthorized ListEmailsOptions.empty []
               = (Throw (ExnSuperMail e), []) /\
             code e = UNKNOWN_ERROR /\
             message e = "Gmail authentication failed. Token may be expired or invalid.").
Proof.
  split; eexists; (split; [reflexivity|]); repeat split.
Qed.




(* ===================================================================== *)
(** ** Properties of the facade                                           *)
(* ===================================================================== *)

(** Claim C2, as the code has it.  A configuration whose [type] is
    ['gmail'] (with its [credentials] present) constructs the Gmail adapter,
    one whose [type] is ['microsoft'] the Microsoft adapter; a [type] that
    is none of ['gmail'], ['microsoft'], ['imap'] makes the constructor
    throw at once: a plain [Error] whose message is "Unsupported provider
    type: " followed by the string form of the type (the type itself when
    it is a string, "undefined" when there is none), or a TypeError when
    the type is an object that cannot be converted to a string. *)
Theorem SuperMail_new_dispatch (config : JsVal) :
  nullish config = false ->
  (isStr (optProp config "type") "gmail" = true ->
   nullish (optProp config "credentials") = false ->
   SuperMail.new config = Return (SuperMail.mk (SuperMail.GmailProvider config))) /\
  (isStr (optProp config "type") "microsoft" = true ->
   SuperMail.new config = Return (SuperMail.mk (SuperMail.MicrosoftProvider config))) /\
  (supportedType (optProp config "type") = false ->
   (forall s, optProp config "type" = JStr s ->
      SuperMail.new config = Throw (ExnError ("Unsupported provider type: " ++ s))) /\
   (optProp config "type" = JUndefined ->
      SuperMail.new config = Throw (ExnError "Unsupported provider type: undefined")) /\
   (convertible (optProp config "type") = true ->
      exists text,
        SuperMail.new config = Throw (ExnError ("Unsupported provider type: " ++ text))) /\
   (convertible (optProp config "type") = false ->
      exists m, SuperMail.new config = Throw (ExnTypeError m))).
Proof.
  intros Hn. unfold SuperMail.new, SuperMail.createProvider.
  rewrite (getProp_defined _ _ Hn). cbn [Errors.bind].
  split; [|split].
  - intros Hg Hc. rewrite Hg. unfold SuperMail.newGmailProvider.
    rewrite !(getProp_defined _ _ Hn). cbn [Errors.bind].
    rewrite !(getProp_defined _ _ Hc). reflexivity.
  - intros Hm.
    destruct (isStr (optProp config "type") "gmail") eqn:Hg.
    + exfalso. apply isStr_eq in Hg. rewrite Hg in Hm. discriminate.
    + rewrite Hm. reflexivity.
  - unfold supportedType. intros Hs.
    apply orb_false_iff in Hs as [Hs _]. apply orb_false_iff in Hs as [Hg Hm].
    rewrite Hg, Hm. repeat apply conj.
    + intros s ->. reflexivity.
    + intros ->. reflexivity.
    + intros Hc. destruct (ToString_convertible _ Hc) as [text ->].
      exists text. reflexivity.
    + intros Hc. rewrite (proj1 (ToString_unconvertible _ Hc)). eexists. reflexivity.
Qed.

(** The theorem at one configuration of each kind *)
Lemma SuperMail_new_dispatch_witness :
  SuperMail.new Scenario.gmailConfig = Return (SuperMail.mk (SuperMail.GmailProvider Scenario.gmailConfig)) /\
  SuperMail.new Scenario.microsoftConfig
    = Return (SuperMail.mk (SuperMail.MicrosoftProvider Scenario.microsoftConfig)) /\
  SuperMail.new Scenario.pop3Config = Throw (ExnError "Unsupported provider type: pop3") /\
  (exists m, SuperMail.new Cases.opaqueConfig = Throw (ExnTypeError m)).
Proof.
  split; [|split; [|split]].
  - apply (proj1 (SuperMail_new_dispatch Scenario.gmailConfig eq_refl)); reflexivity.
  - apply (proj1 (proj2 (SuperMail_new_dispatch Scenario.microsoftConfig eq_refl))); reflexivity.
  - apply (proj1 (proj2 (proj2 (SuperMail_new_dispatch Scenario.pop3Config eq_refl))
                    eq_refl) "pop3"); reflexivity.
  - apply (proj2 (proj2 (proj2 (proj2 (proj2 (SuperMail_new_dispatch Cases.opaqueConfig
                                               eq_refl)) eq_refl)))); reflexivity.
Defined.

(** Claim C2 fails on the kind of the failure: what is thrown for an
    unrecognized type is a plain [Error], not a classified error, so it has
    no [OPERATION_FAILED] kind. *)
Lemma SuperMail_new_unrecognized_is_plain_error :
  SuperMail.new Scenario.pop3Config = Throw (ExnError "Unsupported provider type: pop3") /\
  (forall e, SuperMail.new Scenario.pop3Config <> Throw (ExnSuperMail e)).
Proof.
  split; [reflexivity | intros e; discriminate].
Qed.

(* ===================================================================== *)
(** ** Properties of the adapters                                         *)
(* ===================================================================== *)

(** Claim C4.  For every name, colour and state of the session, the IMAP
    adapter's [createLabel] throws a classified error of kind
    [OPERATION_FAILED] tagged ['imap'], and never returns a label. *)
Theorem imap_createLabel_always_fails (W : Type) (name : string)
    (color : option string) (w : W) :
  (exists e, Imap.createLabel name color w = (Throw (ExnSuperMail e), w) /\
             code e = OPERATION_FAILED /\ provider e = Some "imap") /\
  (forall label w', Imap.createLabel name color w <> (Return label, w')).
Proof.
  split.
  - eexists. split; [reflexivity|]. split; reflexivity.
  - intros label w'. discriminate.
Qed.

Lemma find_absent {A : Type} (f : A -> bool) (l : list A) :
  (forall x, In x l -> f x = false) -> find f l = None.
Proof.
  induction l as [|a l IH]; simpl; intros H; [reflexivity|].
  rewrite (H a (or_introl eq_refl)). apply IH. intros x Hx. apply H. now right.
Qed.

Lemma named_absent (n : string) (folders : list EmailFolder.t) :
  (forall f, In f folders -> EmailFolder.name f <> n) ->
  find (fun f => (EmailFolder.name f =? n)%string) folders = None.
Proof.
  intros H. apply find_absent. intros f Hf.
  destruct (String.eqb_spec (EmailFolder.name f) n) as [E|E]; [|reflexivity].
  exfalso. exact (H f Hf E).
Qed.

Section MicrosoftReserved.

Context {W : Type} (client : Microsoft.Client W).

(** Claim C3, as the code has it.  Once [listFolders] has answered: with
    no folder named "Archive", [archiveEmail] fails with a classified error
    of kind [UNKNOWN_ERROR] whose message is "Archive folder not found";
    with no folder named "Deleted Items", [trashEmail] goes on as
    [deleteEmail]; when the reserved folder is there, each operation goes
    on as [moveToFolder] to the first folder of that name. *)
Theorem microsoft_archive_trash_reserved_folders
    (emailId : string) (w w1 : W) (folders : list EmailFolder.t) :
  Microsoft.listFolders client w = (Return folders, w1) ->
  ((forall f, In f folders -> EmailFolder.name f <> "Archive") ->
   exists e, Microsoft.archiveEmail client emailId w = (Throw (ExnSuperMail e), w1) /\
             code e = UNKNOWN_ERROR /\ message e = "Archive folder not found" /\
             provider e = Some "microsoft") /\
  (forall f, find (fun f => (EmailFolder.name f =? "Archive")%string) folders = Some f ->
   Microsoft.archiveEmail client emailId w
     = Async.tryNormalize "microsoft"
         (Microsoft.moveToFolder client (MoveEmailOptions.mk emailId (EmailFolder.id f))) w1) /\
  ((forall f, In f folders -> EmailFolder.name f <> "Deleted Items") ->
   Microsoft.trashEmail client emailId w
     = Async.tryNormalize "microsoft" (Microsoft.deleteEmail client emailId) w1) /\
  (forall f, find (fun f => (EmailFolder.name f =? "Deleted Items")%string) folders = Some f ->
   Microsoft.trashEmail client emailId w
     = Async.tryNormalize "microsoft"
         (Microsoft.moveToFolder client (MoveEmailOptions.mk emailId (EmailFolder.id f))) w1).
Proof.
  intros Hl. repeat apply conj.
  - intros Habs. unfold Microsoft.archiveEmail, Async.tryNormalize, Async.bind.
    rewrite Hl, (named_absent _ _ Habs). unfold Async.throw.
    eexists. split; [reflexivity|]. repeat split.
  - intros f Hf. unfold Microsoft.archiveEmail.
    unfold Async.tryNormalize at 1. unfold Async.bind. rewrite Hl, Hf. reflexivity.
  - intros Habs. unfold Microsoft.trashEmail.
    unfold Async.tryNormalize at 1. unfold Async.bind.
    rewrite Hl, (named_absent _ _ Habs). reflexivity.
  - intros f Hf. unfold Microsoft.trashEmail.
    unfold Async.tryNormalize at 1. unfold Async.bind. rewrite Hl, Hf. reflexivity.
Qed.

End MicrosoftReserved.

(** The theorem on a mailbox without the reserved folders and on one with
    an Archive folder *)
Lemma microsoft_archive_trash_reserved_folders_witness :
  (exists e, Microsoft.archiveEmail (Scenario.graphClient Scenario.foldersWithoutReserved) "m1" []
               = (Throw (ExnSuperMail e), []) /\ code e = UNKNOWN_ERROR) /\
  Microsoft.trashEmail (Scenario.graphClient Scenario.foldersWithoutReserved) "m1" []
    = (Return tt, ["DELETE /me/messages/m1"]) /\
  Microsoft.archiveEmail (Scenario.graphClient Scenario.foldersWithArchive) "m1" []
    = (Return tt, ["POST /me/messages/m1/move f2"]).
Proof.
  split; [|split].
  - destruct (proj1 (microsoft_archive_trash_reserved_folders
                       (Scenario.graphClient Scenario.foldersWithoutReserved)
                       "m1" [] [] _ eq_refl)) as [e [He [Hc _]]].
    + intros f [<-|[]]. discriminate.
    + exists e. split; [exact He | exact Hc].
  - rewrite (proj1 (proj2 (proj2 (microsoft_archive_trash_reserved_folders
                       (Scenario.graphClient Scenario.foldersWithoutReserved)
                       "m1" [] [] _ eq_refl)))).
    + reflexivity.
    + intros f [<-|[]]. discriminate.
  - rewrite (proj1 (proj2 (microsoft_archive_trash_reserved_folders
                       (Scenario.graphClient Scenario.foldersWithArchive)
                       "m1" [] [] _ eq_refl))
               (EmailFolder.mk "f2" "Archive" None (Some 0) (Some 0)) eq_refl).
    reflexivity.
Defined.

(** Claim C3 fails on the kind: the plain [Error] thrown for a missing
    Archive folder is caught and normalized, which makes it
    [UNKNOWN_ERROR], not [OPERATION_FAILED]. *)
Lemma microsoft_archive_without_folder_is_unknown_error :
  exists e,
    Microsoft.archiveEmail (Scenario.graphClient Scenario.foldersWithoutReserved) "m1" []
      = (Throw (ExnSuperMail e), []) /\
    code e = UNKNOWN_ERROR /\ code e <> OPERATION_FAILED.
Proof.
  eexists. split; [reflexivity|]. split; [reflexivity | discriminate].
Qed.

Lemma somes_app {A : Type} (l1 l2 : list (option A)) :
  somes (l1 ++ l2) = (somes l1 ++ somes l2)%list.
Proof.
  induction l1 as [|[a|] l1 IH]; simpl; [reflexivity | now rewrite IH | exact IH].
Qed.

Lemma resolveNames_app (cats : list EmailLabel.t) (ids1 ids2 : list string) :
  Microsoft.resolveNames cats (ids1 ++ ids2)
  = (Microsoft.resolveNames cats ids1 ++ Microsoft.resolveNames cats ids2)%list.
Proof.
  unfold Microsoft.resolveNames. now rewrite map_app, somes_app, filter_app.
Qed.

Lemma resolveNames_unresolved (cats : list EmailLabel.t) (id : string) :
  (forall c, In c cats -> EmailLabel.id c <> id) ->
  Microsoft.resolveNames cats [id] = [].
Proof.
  intros H. unfold Microsoft.resolveNames. simpl.
  rewrite find_absent; [reflexivity|].
  intros c Hc. destruct (String.eqb_spec (EmailLabel.id c) id) as [E|E]; [|reflexivity].
  exfalso. exact (H c Hc E).
Qed.

Lemma in_somes {A : Type} (l : list (option A)) (a : A) :
  In a (somes l) -> In (Some a) l.
Proof.
  induction l as [|[x|] l IH]; simpl; intros H; [contradiction | |].
  - destruct H as [->|H]; [now left | right; auto].
  - right; auto.
Qed.

Lemma in_resolveNames (cats : list EmailLabel.t) (ids : list string) (n : string) :
  In n (Microsoft.resolveNames cats ids) ->
  exists c, In c cats /\ In (EmailLabel.id c) ids /\ EmailLabel.name c = n /\ n <> "".
Proof.
  unfold Microsoft.resolveNames. intros H.
  apply filter_In in H as [H Hne].
  apply in_somes, in_map_iff in H as [id [Hf Hid]].
  destruct (find (fun c => (EmailLabel.id c =? id)%string) cats) as [c|] eqn:E;
    [|discriminate].
  injection Hf as <-.
  pose proof (find_some _ _ E) as [Hc He].
  apply String.eqb_eq in He. subst id.
  exists c. repeat split; try assumption.
  intros E'. rewrite E' in Hne. discriminate.
Qed.

Lemma includes_In (l : list string) (x : string) :
  includes l x = true <-> In x l.
Proof.
  unfold includes. rewrite existsb_exists. split.
  - intros [y [Hy E]]. apply String.eqb_eq in E. now subst.
  - intros H. exists x. split; [exact H | apply String.eqb_refl].
Qed.

Lemma resolveNames_one (cats : list EmailLabel.t) (id : string) (c : EmailLabel.t) :
  find (fun c => (EmailLabel.id c =? id)%string) cats = Some c ->
  Microsoft.resolveNames cats [id]
  = if (EmailLabel.name c =? "")%string then [] else [EmailLabel.name c].
Proof.
  intros H. unfold Microsoft.resolveNames. cbn [map]. rewrite H. cbn [somes filter].
  destruct (EmailLabel.name c =? "")%string; reflexivity.
Qed.

Lemma resolveNames_complete (cats : list EmailLabel.t) (ids : list string)
    (id : string) (c : EmailLabel.t) :
  In id ids ->
  find (fun c => (EmailLabel.id c =? id)%string) cats = Some c ->
  EmailLabel.name c <> "" ->
  In (EmailLabel.name c) (Microsoft.resolveNames cats ids).
Proof.
  intros Hin Hf Hne. apply in_split in Hin as [ids1 [ids2 ->]].
  change (id :: ids2) with ([id] ++ ids2)%list.
  rewrite !resolveNames_app, (resolveNames_one _ _ _ Hf).
  destruct (String.eqb_spec (EmailLabel.name c) ""); [contradiction|].
  apply in_or_app. right. now left.
Qed.

Section MicrosoftLabels.

Context {W : Type} (client : Microsoft.Client W).

(** Claim C7.  [addLabels] and [removeLabels] look the given label IDs up
    in the answer of [listLabels] and patch the message with names: the
    resolved names for [addLabels], the message's current categories
    without the resolved names for [removeLabels]; the outcome is that of
    the patch request.  The resolved names are, in the order of the IDs,
    the non-empty names of the categories found: an ID that no category
    has adds nothing, every resolved name is the name of a category whose
    ID was given, and every given ID that a category with a non-empty name
    has puts that name among them, so into what [addLabels] sends and out
    of what [removeLabels] sends. *)
Theorem microsoft_labels_resolved_by_name (options : LabelsOptions.t) :
  (forall w cats w1,
     Microsoft.listLabels client w = (Return cats, w1) ->
     Microsoft.addLabels client options w
       = patchCategories client (LabelsOptions.emailId options)
           (Microsoft.resolveNames cats (LabelsOptions.labelIds options)) w1) /\
  (forall w message w1 cats w2,
     Microsoft.getEmail client (LabelsOptions.emailId options) w = (Return message, w1) ->
     Microsoft.listLabels client w1 = (Return cats, w2) ->
     Microsoft.removeLabels client options w
       = patchCategories client (LabelsOptions.emailId options)
           (filter
              (fun cat =>
                 negb (includes
                         (Microsoft.resolveNames cats (LabelsOptions.labelIds options)) cat))
              (match EmailMessage.labels message with Some l => l | None => [] end)) w2) /\
  (forall cats ids1 id ids2,
     (forall c, In c cats -> EmailLabel.id c <> id) ->
     Microsoft.resolveNames cats (ids1 ++ id :: ids2)
       = Microsoft.resolveNames cats (ids1 ++ ids2)) /\
  (forall cats ids n,
     In n (Microsoft.resolveNames cats ids) ->
     exists c, In c cats /\ In (EmailLabel.id c) ids /\ EmailLabel.name c = n /\ n <> "") /\
  (forall cats ids id c,
     In id ids ->
     find (fun c => (EmailLabel.id c =? id)%string) cats = Some c ->
     EmailLabel.name c <> "" ->
     In (EmailLabel.name c) (Microsoft.resolveNames cats ids)) /\
  (forall cats ids1 ids2,
     Microsoft.resolveNames cats (ids1 ++ ids2)
     = (Microsoft.resolveNames cats ids1 ++ Microsoft.resolveNames cats ids2)%list) /\
  (forall cats id c,
     find (fun c => (EmailLabel.id c =? id)%string) cats = Some c ->
     EmailLabel.name c <> "" ->
     Microsoft.resolveNames cats [id] = [EmailLabel.name c]) /\
  (forall w cats w1 id c,
     Microsoft.listLabels client w = (Return cats, w1) ->
     In id (LabelsOptions.labelIds options) ->
     find (fun c => (EmailLabel.id c =? id)%string) cats = Some c ->
     EmailLabel.name c <> "" ->
     exists names,
       Microsoft.addLabels client options w
       = patchCategories client (LabelsOptions.emailId options) names w1 /\
       In (EmailLabel.name c) names) /\
  (forall w message w1 cats w2 id c,
     Microsoft.getEmail client (LabelsOptions.emailId options) w = (Return message, w1) ->
     Microsoft.listLabels client w1 = (Return cats, w2) ->
     In id (LabelsOptions.labelIds options) ->
     find (fun c => (EmailLabel.id c =? id)%string) cats = Some c ->
     EmailLabel.name c <> "" ->
     exists names,
       Microsoft.removeLabels client options w
       = patchCategories client (LabelsOptions.emailId options) names w2 /\
       ~ In (EmailLabel.name c) names /\
       incl names (match EmailMessage.labels message with Some l => l | None => [] end)).
Proof.
  assert (Add : forall w cats w1,
     Microsoft.listLabels client w = (Return cats, w1) ->
     Microsoft.addLabels client options w
       = patchCategories client (LabelsOptions.emailId options)
           (Microsoft.resolveNames cats (LabelsOptions.labelIds options)) w1).
  { intros w cats w1 Hl. unfold Microsoft.addLabels, patchCategories.
    unfold Async.tryNormalize at 1. unfold Async.bind. rewrite Hl.
    unfold Async.tryNormalize, Async.await.
    destruct (Microsoft.patch _ _ _ _) as [[u|raw] w']; reflexivity. }
  assert (Remove : forall w message w1 cats w2,
     Microsoft.getEmail client (LabelsOptions.emailId options) w = (Return message, w1) ->
     Microsoft.listLabels client w1 = (Return cats, w2) ->
     Microsoft.removeLabels client options w
       = patchCategories client (LabelsOptions.emailId options)
           (filter
              (fun cat =>
                 negb (includes
                         (Microsoft.resolveNames cats (LabelsOptions.labelIds options)) cat))
              (match EmailMessage.labels message with Some l => l | None => [] end)) w2).
  { intros w message w1 cats w2 Hg Hl. unfold Microsoft.removeLabels, patchCategories.
    unfold Async.tryNormalize at 1. unfold Async.bind. rewrite Hg, Hl.
    unfold Async.tryNormalize, Async.await.
    destruct (Microsoft.patch _ _ _ _) as [[u|raw] w']; reflexivity. }
  repeat apply conj.
  - exact Add.
  - exact Remove.
  - intros cats ids1 id ids2 H.
    change (id :: ids2) with ([id] ++ ids2)%list.
    rewrite !resolveNames_app, (resolveNames_unresolved _ _ H). reflexivity.
  - intros cats ids n. apply in_resolveNames.
  - intros cats ids id c. apply resolveNames_complete.
  - intros cats ids1 ids2. apply resolveNames_app.
  - intros cats id c Hf Hne. rewrite (resolveNames_one _ _ _ Hf).
    destruct (String.eqb_spec (EmailLabel.name c) ""); [contradiction | reflexivity].
  - intros w cats w1 id c Hl Hin Hf Hne. eexists. split; [exact (Add _ _ _ Hl)|].
    exact (resolveNames_complete _ _ _ _ Hin Hf Hne).
  - intros w message w1 cats w2 id c Hg Hl Hin Hf Hne. eexists.
    split; [exact (Remove _ _ _ _ _ Hg Hl)|]. split.
    + intros H. apply filter_In in H as [_ H]. apply negb_true_iff in H.
      pose proof (resolveNames_complete _ _ _ _ Hin Hf Hne) as Hc.
      apply includes_In in Hc. congruence.
    + intros n H. now apply filter_In in H as [H _].
Qed.

End MicrosoftLabels.

(** The theorem on a mailbox with the categories c1 and c2, asked for an
    unknown ID as well *)
Lemma microsoft_labels_resolved_by_name_witness :
  Microsoft.addLabels (Scenario.graphClient Scenario.foldersWithArchive)
    (LabelsOptions.mk "m1" ["c2"; "zz"; "c1"]) []
    = (Return tt, ["PATCH /me/messages/m1 categories=Home,Work"]) /\
  Microsoft.removeLabels (Scenario.graphClient Scenario.foldersWithArchive)
    (LabelsOptions.mk "m1" ["zz"; "c2"]) []
    = (Return tt, ["PATCH /me/messages/m1 categories=Work"]) /\
  Microsoft.resolveNames
    [EmailLabel.mk "c1" "Work" None None] (["c1"] ++ "zz" :: ["c1"])
    = Microsoft.resolveNames [EmailLabel.mk "c1" "Work" None None] (["c1"] ++ ["c1"]) /\
  (exists c, In c [EmailLabel.mk "c1" "Work" None None] /\ In (EmailLabel.id c) ["c1"] /\
             EmailLabel.name c = "Work" /\ "Work" <> "") /\
  In "Work" (Microsoft.resolveNames [EmailLabel.mk "c1" "Work" None None] ["zz"; "c1"]).
Proof.
  set (client := Scenario.graphClient Scenario.foldersWithArchive).
  pose proof (microsoft_labels_resolved_by_name client (LabelsOptions.mk "m1" [])) as T.
  split; [|split; [|split; [|split]]].
  - rewrite (proj1 (microsoft_labels_resolved_by_name client
                      (LabelsOptions.mk "m1" ["c2"; "zz"; "c1"])) [] _ [] eq_refl).
    reflexivity.
  - rewrite (proj1 (proj2 (microsoft_labels_resolved_by_name client
                      (LabelsOptions.mk "m1" ["zz"; "c2"]))) [] _ [] _ [] eq_refl eq_refl).
    reflexivity.
  - apply (proj1 (proj2 (proj2 T))).
    intros c [<-|[]]. discriminate.
  - apply (proj1 (proj2 (proj2 (proj2 T)))).
    simpl. now left.
  - apply (proj1 (proj2 (proj2 (proj2 (proj2 T))))
             [EmailLabel.mk "c1" "Work" None None] ["zz"; "c1"] "c1"
             (EmailLabel.mk "c1" "Work" None None)).
    + simpl. now right; left.
    + reflexivity.
    + discriminate.
Defined.

Lemma forEach_In {W A B : Type} (f : A -> Async.M W (option B)) (l : list A) :
  forall (w w' : W) (bs : list B),
    Async.forEach f l w = (Return bs, w') ->
    forall b, In b bs ->
    exists a w1 w2, In a l /\ f a w1 = (Return (Some b), w2).
Proof.
  induction l as [|a l IH]; simpl; intros w w' bs H b Hb.
  - unfold Async.ret in H. injection H as <- _. contradiction.
  - unfold Async.bind in H.
    destruct (f a w) as [[ob|e] wa] eqn:Ef; [|discriminate].
    destruct (Async.forEach f l wa) as [[bs'|e] wb] eqn:El; [|discriminate].
    unfold Async.ret in H. injection H as <- _.
    destruct ob as [b0|].
    + destruct Hb as [<-|Hb].
      * exists a, w, wa. split; [now left | exact Ef].
      * destruct (IH _ _ _ El b Hb) as [a' [w1 [w2 [Ha Hf]]]].
        exists a', w1, w2. split; [now right | exact Hf].
    + destruct (IH _ _ _ El b Hb) as [a' [w1 [w2 [Ha Hf]]]].
      exists a', w1, w2. split; [now right | exact Hf].
Qed.

Section GmailReading.

Context {W : Type} (client : Gmail.Client W).

Lemma getEmail_Return (emailId : string) (w w' : W) (m : EmailMessage.t) :
  Gmail.getEmail client emailId w = (Return m, w') ->
  exists data, Gmail.messages_get client emailId w = (inl data, w') /\
               m = Gmail.convertGmailMessage client data.
Proof.
  unfold Gmail.getEmail, Async.tryNormalize, Async.bind, Async.await, Async.ret.
  destruct (Gmail.messages_get client emailId w) as [[data|raw] w1]; intros H.
  - injection H as <- <-. now exists data.
  - discriminate.
Qed.

Lemma listEmails_Return (options : ListEmailsOptions.t) (w w' : W)
    (response : ListEmailsResponse.t) :
  Gmail.listEmails client options w = (Return response, w') ->
  forall m, In m (ListEmailsResponse.messages response) ->
  exists emailId w1 w2, Gmail.getEmail client emailId w1 = (Return m, w2).
Proof.
  unfold Gmail.listEmails. unfold Async.tryNormalize at 1. unfold Async.bind at 1.
  destruct (Async.await _ w) as [[data|e] w1]; [|discriminate].
  unfold Async.bind at 1.
  match goal with |- context [Async.forEach ?f ?l w1] =>
    destruct (Async.forEach f l w1) as [[ms|e] w2] eqn:Ef; [|discriminate];
    pose proof (forEach_In f l _ _ _ Ef) as HIn
  end.
  unfold Async.ret. intros H. injection H as <- _. simpl.
  intros m Hm. destruct (HIn m Hm) as [a [wa [wb [_ Hf]]]].
  destruct (truthyStr (Gmail.m_id a)); [|discriminate].
  unfold Async.bind, Async.ret in Hf.
  destruct (Gmail.getEmail client _ wa) as [[m'|e] wc] eqn:Eg; [|discriminate].
  injection Hf as -> ->. eauto.
Qed.

Lemma converted_read_state (data : Gmail.GmailMessage) :
  let m := Gmail.convertGmailMessage client data in
  EmailMessage.labels m = Some (labelIdsOf data) /\
  (EmailMessage.isRead m = Some false <-> In "UNREAD" (labelIdsOf data)) /\
  (EmailMessage.isRead m = Some true <-> ~ In "UNREAD" (labelIdsOf data)) /\
  (Gmail.m_labelIds data = None ->
   EmailMessage.isRead m = Some true /\ EmailMessage.labels m = Some []).
Proof.
  unfold Gmail.convertGmailMessage, Gmail.convertGmailMessageWith, labelIdsOf. simpl.
  destruct (Gmail.m_labelIds data) as [ids|].
  - split; [reflexivity|].
    destruct (includes ids "UNREAD") eqn:E; simpl.
    + apply includes_In in E.
      repeat split; try (intros; assumption); try discriminate; try tauto.
    + assert (~ In "UNREAD" ids) as N
        by (intros HIn; apply includes_In in HIn; congruence).
      repeat split; try (intros; assumption); try discriminate; try tauto.
  - simpl. repeat split; try (intros; assumption); try discriminate; try tauto.
Qed.

(** Claim C10.  Every message that [getEmail] returns, and every message
    in what [listEmails] returns, is the conversion of a record that the
    backend's [messages.get] answered: its [labels] are the record's
    label-ID list ([[]] when there is none) and its [isRead] is [false]
    exactly when "UNREAD" is in that list; a record without a label-ID list
    comes out read. *)
Theorem gmail_read_state_from_labelIds :
  (forall emailId w w' m,
     Gmail.getEmail client emailId w = (Return m, w') ->
     exists data,
       Gmail.messages_get client emailId w = (inl data, w') /\
       EmailMessage.labels m = Some (labelIdsOf data) /\
       (EmailMessage.isRead m = Some false <-> In "UNREAD" (labelIdsOf data)) /\
       (EmailMessage.isRead m = Some true <-> ~ In "UNREAD" (labelIdsOf data)) /\
       (Gmail.m_labelIds data = None ->
        EmailMessage.isRead m = Some true /\ EmailMessage.labels m = Some [])) /\
  (forall options w w' response,
     Gmail.listEmails client options w = (Return response, w') ->
     forall m, In m (ListEmailsResponse.messages response) ->
     exists emailId w1 w2 data,
       Gmail.messages_get client emailId w1 = (inl data, w2) /\
       EmailMessage.labels m = Some (labelIdsOf data) /\
       (EmailMessage.isRead m = Some false <-> In "UNREAD" (labelIdsOf data)) /\
       (EmailMessage.isRead m = Some true <-> ~ In "UNREAD" (labelIdsOf data)) /\
       (Gmail.m_labelIds data = None ->
        EmailMessage.isRead m = Some true /\ EmailMessage.labels m = Some [])).
Proof.
  split.
  - intros emailId w w' m H.
    destruct (getEmail_Return _ _ _ _ H) as [data [Hd ->]].
    exists data. split; [exact Hd | apply converted_read_state].
  - intros options w w' response H m Hm.
    destruct (listEmails_Return _ _ _ _ H m Hm) as [emailId [w1 [w2 Hg]]].
    destruct (getEmail_Return _ _ _ _ Hg) as [data [Hd ->]].
    exists emailId, w1, w2, data. split; [exact Hd | apply converted_read_state].
Qed.

End GmailReading.

(** The theorem on the message that carries no label-ID list, and on the
    listing of the mailbox *)
Lemma gmail_read_state_from_labelIds_witness :
  (exists m, Gmail.getEmail Scenario.gmailClient "m2" [] = (Return m, []) /\
             EmailMessage.isRead m = Some true /\ EmailMessage.labels m = Some []) /\
  (forall m,
     In m (ListEmailsResponse.messages
             (ListEmailsResponse.mk
                [ Gmail.convertGmailMessage Scenario.gmailClient Scenario.gmailMessage1;
                  Gmail.convertGmailMessage Scenario.gmailClient Scenario.gmailMessage2 ]
                None (Some 2))) ->
     exists data, EmailMessage.labels m = Some (labelIdsOf data)).
Proof.
  split.
  - eexists. split; [reflexivity|].
    destruct (proj1 (gmail_read_state_from_labelIds Scenario.gmailClient)
                "m2" [] [] _ eq_refl) as [data [Hd [_ [_ [_ Hn]]]]].
    injection Hd as <-. apply Hn. reflexivity.
  - intros m Hm.
    destruct (proj2 (gmail_read_state_from_labelIds Scenario.gmailClient)
                ListEmailsOptions.empty [] [] _ eq_refl m Hm)
      as [emailId [w1 [w2 [data [_ [Hl _]]]]]].
    exists data. exact Hl.
Defined.

Section GmailReply.

Context {W : Type} (client : Gmail.Client W).

Lemma subject_header_present (options : SendEmailOptions.t) (contentType : string) :
  In ("Subject: " ++ SendEmailOptions.subject options)
     (Gmail.mimeHeaders options contentType).
Proof.
  unfold Gmail.mimeHeaders. apply filter_In. split.
  - simpl. right. right. right. now left.
  - reflexivity.
Qed.

(** The message text always gets built, and it opens with the header
    block, which has the subject line. *)
Lemma createMimeMessage_total (options : SendEmailOptions.t)
    (threadId : option string) (w : W) :
  exists message w' contentType rest,
    Gmail.createMimeMessage client options threadId w = (Return message, w') /\
    message = (join CRLF (Gmail.mimeHeaders options contentType) ++ CRLF ++ CRLF) ++ rest /\
    In ("Subject: " ++ SendEmailOptions.subject options)
       (Gmail.mimeHeaders options contentType).
Proof.
  unfold Gmail.createMimeMessage, Async.bind, Gmail.now.
  destruct (Gmail.Date_now client w) as [t w1].
  destruct (SendEmailOptions.attachments options) as [[|a rest]|].
  - do 4 eexists. split; [reflexivity|]. split; [reflexivity|].
    apply subject_header_present.
  - destruct (Gmail.Date_now client w1) as [t' w2].
    do 4 eexists. split; [reflexivity|]. split; [reflexivity|].
    apply subject_header_present.
  - do 4 eexists. split; [reflexivity|]. split; [reflexivity|].
    apply subject_header_present.
Qed.

(** Claim C6, as the code has it.  Once the original has been fetched,
    [replyToEmail] builds a message whose header block has the line
    "Subject: Re: " followed by the original subject, whatever that subject
    starts with, and submits it with the original's thread identifier; when
    the backend accepts it, the returned message has that same subject and
    the thread identifier of the backend's answer; when the backend
    refuses, the reply fails with the normalized failure. *)
Theorem gmail_reply_thread_and_subject
    (emailId : string) (options : SendEmailOptions.t) (w w1 : W)
    (original : EmailMessage.t) :
  Gmail.getEmail client emailId w = (Return original, w1) ->
  exists message w2 contentType rest,
    Gmail.createMimeMessage client
      (SendEmailOptions.withSubject options ("Re: " ++ EmailMessage.subject original))
      (EmailMessage.threadId original) w1 = (Return message, w2) /\
    message = (join CRLF
                 (Gmail.mimeHeaders
                    (SendEmailOptions.withSubject options
                       ("Re: " ++ EmailMessage.subject original)) contentType)
               ++ CRLF ++ CRLF) ++ rest /\
    In ("Subject: Re: " ++ EmailMessage.subject original)
       (Gmail.mimeHeaders
          (SendEmailOptions.withSubject options
             ("Re: " ++ EmailMessage.subject original)) contentType) /\
    (forall data w3,
       Gmail.messages_send client
         (Gmail.mkSend (Gmail.encodeMessage client message)
            (EmailMessage.threadId original)) w2 = (inl data, w3) ->
       exists reply w4,
         Gmail.replyToEmail client emailId options w = (Return reply, w4) /\
         EmailMessage.subject reply = "Re: " ++ EmailMessage.subject original /\
         EmailMessage.threadId reply = Gmail.m_threadId data) /\
    (forall raw w3,
       Gmail.messages_send client
         (Gmail.mkSend (Gmail.encodeMessage client message)
            (EmailMessage.threadId original)) w2 = (inr raw, w3) ->
       Gmail.replyToEmail client emailId options w
         = (Throw (rethrow "gmail" (ExnRaw raw)), w3)).
Proof.
  intros Hg.
  destruct (createMimeMessage_total
              (SendEmailOptions.withSubject options ("Re: " ++ EmailMessage.subject original))
              (EmailMessage.threadId original) w1)
    as [message [w2 [contentType [rest [Hm [Hshape Hin]]]]]].
  exists message, w2, contentType, rest.
  split; [exact Hm|]. split; [exact Hshape|]. split; [exact Hin|]. split.
  - intros data w3 Hs.
    unfold Gmail.replyToEmail, Async.tryNormalize, Async.bind.
    rewrite Hg, Hm. unfold Async.await. rewrite Hs.
    unfold Gmail.now. destruct (Gmail.Date_now client w3) as [t w4].
    do 2 eexists. split; [reflexivity|]. split; reflexivity.
  - intros raw w3 Hs.
    unfold Gmail.replyToEmail, Async.tryNormalize, Async.bind.
    rewrite Hg, Hm. unfold Async.await. rewrite Hs. reflexivity.
Qed.

End GmailReply.

(** The theorem on a reply to the first message of the mailbox *)
Lemma gmail_reply_thread_and_subject_witness :
  exists reply log,
    Gmail.replyToEmail Scenario.gmailClient "m1" Scenario.replyOptions []
      = (Return reply, log) /\
    EmailMessage.subject reply = "Re: Re: Hello" /\
    EmailMessage.threadId reply = Some "t1" /\
    map Gmail.s_threadId log = [Some "t1"].
Proof.
  destruct (gmail_reply_thread_and_subject Scenario.gmailClient "m1"
              Scenario.replyOptions [] [] _ eq_refl)
    as [message [w2 [ct [rest [Hm [_ [_ [Hok _]]]]]]]].
  injection Hm as <- <-.
  destruct (Hok _ _ eq_refl) as [reply [w4 [Hr [Hs Ht]]]].
  exists reply, w4. split; [exact Hr|].
  split; [exact Hs|]. split; [exact Ht|].
  injection Hr as _ <-. reflexivity.
Defined.

(** Claim C6 fails on the prefix: the original's subject is already
    "Re: Hello" and the reply's is "Re: Re: Hello". *)
Lemma gmail_reply_prefixes_twice :
  exists reply log,
    Gmail.getEmail Scenario.gmailClient "m1" []
      = (Return (Gmail.convertGmailMessage Scenario.gmailClient Scenario.gmailMessage1), []) /\
    EmailMessage.subject (Gmail.convertGmailMessage Scenario.gmailClient Scenario.gmailMessage1)
      = "Re: Hello" /\
    Gmail.replyToEmail Scenario.gmailClient "m1" Scenario.replyOptions []
      = (Return reply, log) /\
    EmailMessage.subject reply = "Re: Re: Hello" /\
    EmailMessage.subject reply <> "Re: Hello".
Proof.
  do 2 eexists. split; [reflexivity|]. split; [reflexivity|].
  split; [reflexivity|]. split; [reflexivity | discriminate].
Qed.





Lemma truthyStr_Some (s : string) : truthyStr (Some s) = true <-> s <> "".
Proof.
  simpl. destruct (String.eqb_spec s ""); simpl; split; intros; try congruence.
Qed.

Lemma lacks_trimStart (c : ascii) (s : string) :
  lacks c s = true -> lacks c (trimStart s) = true.
Proof.
  induction s as [|x s IH]; simpl; [reflexivity|].
  intros H. apply andb_prop in H as [Hx Hs].
  destruct (isWhiteSpace x); [auto|]. simpl. now rewrite Hx, Hs.
Qed.

(** The tail of the pattern cannot start at a character other than [<]. *)
Lemma matchTail_head (rest : string) (c : ascii) (r : string) :
  trimStart rest = String c r -> Ascii.eqb c "<" = false ->
  Gmail.matchTail rest = None.
Proof.
  intros H Hc. unfold Gmail.matchTail. rewrite H.
  destruct c as [[] [] [] [] [] [] [] []]; try discriminate Hc; reflexivity.
Qed.

Lemma matchTail_lacks (s : string) :
  lacks "<" s = true -> Gmail.matchTail s = None.
Proof.
  intros H. apply lacks_trimStart in H.
  destruct (trimStart s) as [|c r] eqn:E.
  - unfold Gmail.matchTail. now rewrite E.
  - simpl in H. apply andb_prop in H as [Hc _].
    apply (matchTail_head _ _ _ E). now apply negb_true_iff in Hc.
Qed.

Lemma matchFrom_unfold (g1 rest : string) :
  Gmail.matchFrom g1 rest
  = match Gmail.matchTail rest with
    | Some g2 => Some (g1, g2)
    | None =>
        match rest with
        | EmptyString => None
        | String c r =>
            if isLineTerminator c then None
            else Gmail.matchFrom (g1 ++ String c EmptyString) r
        end
    end.
Proof. destruct rest; reflexivity. Qed.

Lemma matchFrom_lacks (s : string) :
  lacks "<" s = true -> forall g1, Gmail.matchFrom g1 s = None.
Proof.
  induction s as [|x s IH]; intros Hl g1; rewrite matchFrom_unfold, (matchTail_lacks _ Hl).
  - reflexivity.
  - simpl in Hl. apply andb_prop in Hl as [_ Hl].
    destruct (isLineTerminator x); [reflexivity | now apply IH].
Qed.

Lemma matchNameAddress_lacks (s : string) :
  lacks "<" s = true -> Gmail.matchNameAddress s = None.
Proof.
  destruct s as [|x s]; [reflexivity|]. simpl. intros Hl.
  apply andb_prop in Hl as [_ Hl].
  destruct (isLineTerminator x); [reflexivity | now apply matchFrom_lacks].
Qed.



Section Addresses.

Context {W : Type} (gmail : Gmail.Client W).


End Addresses.



(** *** The nearest-colour loop *)

Lemma colorDistance_numeric (c1 c2 : Rgb) :
  numeric c1 = true -> numeric c2 = true ->
  exists d, colorDistance c1 c2 = Num d.
Proof.
  unfold numeric, colorDistance.
  destruct (r c1), (g c1), (b c1); try discriminate.
  destruct (r c2), (g c2), (b c2); try discriminate.
  eauto.
Qed.

Lemma colorDistance_NaN (c1 c2 : Rgb) :
  numeric c1 = false -> colorDistance c1 c2 = NaN.
Proof.
  unfold numeric, colorDistance.
  destruct (r c1), (g c1), (b c1); try discriminate; reflexivity.
Qed.

Section Closest.

Context {A : Type} (target : Rgb).

Let dist (e : string * A) : JsNumber := colorDistance target (hexToRgb (fst e)).

Lemma closestStep_eq (acc : A * option Z) (e : string * A) (d : Z) :
  dist e = Num d ->
  closestStep target acc e
  = if lessThan (Num d) (snd acc) then (snd e, Some d) else acc.
Proof. unfold closestStep, dist. now intros ->. Qed.

(** What the loop holds after any number of turns: the least distance met
    so far and the value of the first entry that reached it. *)
Lemma closest_fold (table : list (string * A)) :
  forall (v : A) (m : option Z),
    (forall e, In e table -> exists d, dist e = Num d) ->
    let res := fold_left (closestStep target) table (v, m) in
    (forall e d, In e table -> dist e = Num d ->
       exists m', snd res = Some m' /\ m' <= d) /\
    (forall m0, m = Some m0 -> exists m', snd res = Some m' /\ m' <= m0) /\
    ((res = (v, m)) \/
     (exists e m', In e table /\ dist e = Num m' /\ res = (snd e, Some m'))).
Proof.
  induction table as [|e table IH]; intros v m Hnum; cbn [fold_left].
  - cbn zeta. split; [intros e d []|]. split; [|now left].
    intros m0 ->. exists m0. split; [reflexivity | lia].
  - destruct (Hnum e (or_introl eq_refl)) as [d Hd]. fold (dist e) in Hd.
    assert (Hnum' : forall e', In e' table -> exists d', dist e' = Num d')
      by (intros e' He'; apply Hnum; now right).
    rewrite (closestStep_eq _ _ _ Hd). cbn [snd]. cbn zeta.
    destruct (lessThan (Num d) m) eqn:Hlt.
    + specialize (IH (snd e) (Some d) Hnum'). simpl in IH.
      destruct IH as [IH1 [IH2 IH3]].
      destruct (IH2 d eq_refl) as [m' [Hm' Hle]].
      split; [|split].
      * intros e' d' [<-|He'] Hd'.
        -- rewrite Hd in Hd'. injection Hd' as <-. eauto.
        -- eauto.
      * intros m0 ->. simpl in Hlt. apply Z.ltb_lt in Hlt.
        exists m'. split; [exact Hm' | lia].
      * right. destruct IH3 as [IH3 | [e' [m'' [He' [Hd' Hres]]]]].
        -- exists e, d. split; [now left|]. split; [exact Hd | exact IH3].
        -- exists e', m''. split; [now right|]. split; assumption.
    + specialize (IH v m Hnum'). simpl in IH.
      destruct IH as [IH1 [IH2 IH3]].
      destruct m as [m0|]; [|discriminate].
      simpl in Hlt. apply Z.ltb_ge in Hlt.
      destruct (IH2 m0 eq_refl) as [m' [Hm' Hle]].
      split; [|split].
      * intros e' d' [<-|He'] Hd'.
        -- rewrite Hd in Hd'. injection Hd' as <-.
           exists m'. split; [exact Hm' | lia].
        -- eauto.
      * intros m1 Hm1. injection Hm1 as <-. eauto.
      * destruct IH3 as [IH3 | [e' [m'' [He' [Hd' Hres]]]]].
        -- now left.
        -- right. exists e', m''. split; [now right|]. split; assumption.
Qed.

Lemma closest_nearest (table : list (string * A)) (fallback : A) :
  table <> [] ->
  (forall e, In e table -> exists d, dist e = Num d) ->
  exists e d,
    In e table /\ closest table fallback target = snd e /\ dist e = Num d /\
    (forall e', In e' table -> exists d', dist e' = Num d' /\ d <= d').
Proof.
  intros Hne Hnum. unfold closest.
  destruct (closest_fold table fallback None Hnum) as [H1 [_ H3]].
  destruct table as [|e0 table']; [contradiction|].
  set (T := e0 :: table') in *.
  destruct (Hnum e0 (or_introl eq_refl)) as [d0 Hd0].
  destruct (H1 e0 d0 (or_introl eq_refl) Hd0) as [m0 [Hm0 _]].
  destruct H3 as [H3 | [e [m' [He [Hd Hres]]]]].
  - rewrite H3 in Hm0. discriminate.
  - exists e, m'. split; [exact He|]. rewrite Hres. split; [reflexivity|].
    split; [exact Hd|].
    intros e' He'. destruct (Hnum e' He') as [d' Hd'].
    exists d'. split; [exact Hd'|].
    destruct (H1 e' d' He' Hd') as [m'' [Hm'' Hle]].
    rewrite Hres in Hm''. injection Hm'' as <-. exact Hle.
Qed.

Lemma closest_member (table : list (string * A)) (fallback : A) :
  closest table fallback target = fallback \/
  In (closest table fallback target) (map snd table).
Proof.
  unfold closest.
  assert (G : forall acc,
             fst (fold_left (closestStep target) table acc) = fst acc \/
             In (fst (fold_left (closestStep target) table acc)) (map snd table)).
  { induction table as [|e table' IH]; intros acc; simpl; [now left|].
    destruct (IH (closestStep target acc e)) as [E|E]; [|now right; right].
    rewrite E. unfold closestStep.
    destruct (lessThan _ _); simpl; [right; now left | now left]. }
  exact (G (fallback, None)).
Qed.

Lemma closest_unparsed (table : list (string * A)) (fallback : A) :
  numeric target = false -> closest table fallback target = fallback.
Proof.
  intros Hn. unfold closest.
  assert (G : forall acc, fold_left (closestStep target) table acc = acc).
  { induction table as [|e table' IH]; intros acc; simpl; [reflexivity|].
    unfold closestStep at 2. rewrite (colorDistance_NaN _ _ Hn). simpl. apply IH. }
  now rewrite G.
Qed.

End Closest.

(** *** Hexadecimal colour strings *)

Lemma allChars_complete (c : ascii) : In c allChars.
Proof.
  unfold allChars. rewrite <- (ascii_nat_embedding c).
  apply in_map, in_seq. pose proof (nat_ascii_bounded c). lia.
Qed.

Lemma hexPairs_parse_check :
  forallb (fun c1 =>
             forallb (fun c2 => implb (isHexDigit c1 && isHexDigit c2) (pairParses c1 c2))
                     allChars) allChars = true.
Proof. vm_compute. reflexivity. Qed.

Lemma hexPair_parses (c1 c2 : ascii) :
  isHexDigit c1 = true -> isHexDigit c2 = true ->
  exists z, parseInt (String (lowerChar c1) (String (lowerChar c2) EmptyString)) (Some 16)
            = Num z.
Proof.
  intros H1 H2.
  pose proof hexPairs_parse_check as H.
  rewrite forallb_forall in H. specialize (H c1 (allChars_complete c1)).
  rewrite forallb_forall in H. specialize (H c2 (allChars_complete c2)).
  rewrite H1, H2 in H. simpl in H. unfold pairParses in H.
  destruct (parseInt _ _) as [z|]; [eauto | discriminate].
Qed.

Lemma wellFormedHex_numeric (s : string) :
  wellFormedHex s = true -> numeric (hexToRgb (toLowerCase s)) = true.
Proof.
  destruct s as [|h [|c1 [|c2 [|c3 [|c4 [|c5 [|c6 [|c7 s]]]]]]]];
    cbn [wellFormedHex]; try discriminate.
  intros H. repeat (apply andb_prop in H as [H ?]).
  destruct (hexPair_parses c1 c2) as [z1 E1]; try assumption.
  destruct (hexPair_parses c3 c4) as [z2 E2]; try assumption.
  destruct (hexPair_parses c5 c6) as [z3 E3]; try assumption.
  unfold numeric, hexToRgb, slice.
  cbn [toLowerCase Nat.sub String.substring r g b].
  rewrite E1, E2, E3. reflexivity.
Qed.

Lemma wellFormedHex_shape (s : string) :
  wellFormedHex s = true -> startsWith s "#" = true /\ String.length s = 7%nat.
Proof.
  destruct s as [|h [|c1 [|c2 [|c3 [|c4 [|c5 [|c6 [|c7 s]]]]]]]];
    cbn [wellFormedHex]; try discriminate.
  intros H. repeat (apply andb_prop in H as [H ?]).
  apply Ascii.eqb_eq in H. subst h. split; reflexivity.
Qed.

Lemma startsWith_hash (s : string) :
  startsWith s "#" = true -> exists rest, s = String "#" rest.
Proof.
  unfold startsWith. destruct s as [|c rest]; cbn [String.prefix];
    [intros H; discriminate H|].
  destruct (ascii_dec "#" c) as [<-|]; [eauto | intros H; discriminate H].
Qed.

Lemma toLowerCase_length (s : string) :
  String.length (toLowerCase s) = String.length s.
Proof. induction s; simpl; congruence. Qed.

Lemma toLowerCase_hash (rest : string) :
  toLowerCase (String "#" rest) = String "#" (toLowerCase rest).
Proof. reflexivity. Qed.

(** A key that starts with [#] finds own entries only. *)
Lemma index_hash {A : Type} (table : list (string * A)) (rest : string) :
  index table (String "#" rest)
  = match lookupOwn (String "#" rest) table with
    | Some a => Own a
    | None => Missing
    end.
Proof. unfold index. destruct (lookupOwn _ table); reflexivity. Qed.

Lemma lookupOwn_In {A : Type} (table : list (string * A)) (k : string) (a : A) :
  lookupOwn k table = Some a -> In (k, a) table.
Proof.
  induction table as [|[k' v] table IH]; simpl; [discriminate|].
  destruct (String.eqb_spec k' k) as [->|].
  - intros E. injection E as ->. now left.
  - intros E. right. auto.
Qed.

Lemma lookupOwn_other_length {A : Type} (table : list (string * A)) (k : string) :
  keysHaveLength7 table = true -> String.length k <> 7%nat ->
  lookupOwn k table = None.
Proof.
  intros Hk Hl. destruct (lookupOwn k table) as [a|] eqn:E; [|reflexivity].
  apply lookupOwn_In in E. unfold keysHaveLength7 in Hk.
  rewrite forallb_forall in Hk. specialize (Hk _ E). simpl in Hk.
  apply Nat.eqb_eq in Hk. contradiction.
Qed.

Lemma table_distances {A : Type} (table : list (string * A)) (target : Rgb) :
  keysNumeric table = true -> numeric target = true ->
  forall e, In e table -> exists d, colorDistance target (hexToRgb (fst e)) = Num d.
Proof.
  intros Hk Ht e He. unfold keysNumeric in Hk. rewrite forallb_forall in Hk.
  apply colorDistance_numeric; [exact Ht | exact (Hk e He)].
Qed.

Lemma in_values {A : Type} (table : list (string * A)) (e : string * A) :
  In e table -> In (snd e) (map snd table).
Proof. apply in_map. Qed.

(** *** Label colours of the three adapters *)

Lemma gmail_palette_facts :
  keysNumeric Gmail.colorPalette = true /\
  keysHaveLength7 Gmail.colorPalette = true /\
  filter (fun e : string * Gmail.GmailColor => startsWith (fst e) "#") Gmail.colorPalette
    = Gmail.colorPalette /\
  In Gmail.defaultColor (map snd Gmail.colorPalette).
Proof. repeat split; try reflexivity. simpl. now left. Qed.

Lemma microsoft_colorMap_facts :
  keysNumeric Microsoft.colorMap = true /\
  keysHaveLength7 Microsoft.colorMap = true /\
  In "preset0" (map snd Microsoft.colorMap).
Proof. repeat split; try reflexivity. simpl. now left. Qed.

Lemma startsWith_hash_cons (rest : string) :
  startsWith (String "#" rest) "#" = true.
Proof. unfold startsWith. destruct rest; reflexivity. Qed.

Lemma startsWith_lower_hash (rest : string) :
  startsWith (toLowerCase (String "#" rest)) "#" = true.
Proof. rewrite toLowerCase_hash. apply startsWith_hash_cons. Qed.

(** [convertToGmailColor] on a string that starts with [#] *)
Lemma convertToGmailColor_hash (rest : string) :
  let k := toLowerCase (String "#" rest) in
  Gmail.convertToGmailColor (String "#" rest)
  = match lookupOwn k Gmail.colorPalette with
    | Some c => Value c
    | None =>
        if (String.length k =? 7)%nat
        then Value (closest Gmail.colorPalette Gmail.defaultColor (hexToRgb k))
        else Value Gmail.defaultColor
    end.
Proof.
  intros k. unfold Gmail.convertToGmailColor. fold k.
  unfold k at 1 2. rewrite toLowerCase_hash, index_hash. fold k.
  rewrite <- toLowerCase_hash. fold k.
  destruct (lookupOwn k Gmail.colorPalette); [reflexivity|].
  destruct gmail_palette_facts as [_ [_ [Hf _]]]. rewrite Hf.
  unfold k at 1. rewrite startsWith_lower_hash. reflexivity.
Qed.

Lemma convertColorToPreset_hash (rest : string) :
  let k := toLowerCase (String "#" rest) in
  Microsoft.convertColorToPreset (Some (String "#" rest))
  = match lookupOwn k Microsoft.colorMap with
    | Some p => Value p
    | None =>
        if (String.length k =? 7)%nat
        then Value (closest Microsoft.colorMap "preset0" (hexToRgb k))
        else Value "preset0"
    end.
Proof.
  intros k. unfold Microsoft.convertColorToPreset.
  replace (truthyStr (Some (String "#" rest))) with true by reflexivity.
  cbn [negb]. cbv iota.
  replace (orStr (Some (String "#" rest)) "") with (String "#" rest) by reflexivity.
  replace (startsWith (String "#" rest) "preset") with false by reflexivity.
  cbv iota. fold k.
  unfold k at 1. rewrite toLowerCase_hash, index_hash.
  rewrite <- toLowerCase_hash. fold k.
  destruct (lookupOwn k Microsoft.colorMap); [reflexivity|].
  unfold k at 1. rewrite startsWith_lower_hash. reflexivity.
Qed.

Lemma imap_createLabel_outcome {W : Type} (name : string) (color : option string)
    (w : W) :
  Imap.createLabel name color w
  = (Throw (ExnSuperMail
              (newSuperMailError OPERATION_FAILED
                 "IMAP does not support creating custom labels. Use folders instead."
                 (Some "imap") JUndefined)), w).
Proof. reflexivity. Qed.

(** The three parts of the conversion, for any table whose keys are
    seven-character colours that parse *)
Section Conversion.

Context {A : Type} (table : list (string * A)) (fallback : A).
Context (convert : string -> FromTable A).

Hypothesis table_nonempty : table <> [].
Hypothesis table_numeric : keysNumeric table = true.
Hypothesis table_length7 : keysHaveLength7 table = true.
Hypothesis fallback_member : In fallback (map snd table).
Hypothesis convert_hash :
  forall rest,
    let k := toLowerCase (String "#" rest) in
    convert (String "#" rest)
    = match lookupOwn k table with
      | Some c => Value c
      | None =>
          if (String.length k =? 7)%nat
          then Value (closest table fallback (hexToRgb k))
          else Value fallback
      end.

Lemma conversion_member (hexColor : string) :
  startsWith hexColor "#" = true ->
  exists c, convert hexColor = Value c /\ In c (map snd table).
Proof.
  intros H. destruct (startsWith_hash _ H) as [rest ->].
  rewrite convert_hash. cbv zeta.
  destruct (lookupOwn _ table) as [c|] eqn:E.
  - exists c. split; [reflexivity|]. apply lookupOwn_In in E.
    exact (in_values _ _ E).
  - destruct (String.length _ =? 7)%nat.
    + eexists. split; [reflexivity|].
      destruct (closest_member (hexToRgb (toLowerCase (String "#" rest))) table fallback)
        as [-> | Hin]; assumption.
    + exists fallback. split; [reflexivity | exact fallback_member].
Qed.

Lemma conversion_nearest (hexColor : string) :
  wellFormedHex hexColor = true ->
  lookupOwn (toLowerCase hexColor) table = None ->
  exists k c d,
    In (k, c) table /\ convert hexColor = Value c /\
    colorDistance (hexToRgb (toLowerCase hexColor)) (hexToRgb k) = Num d /\
    (forall k' c', In (k', c') table ->
       exists d', colorDistance (hexToRgb (toLowerCase hexColor)) (hexToRgb k') = Num d'
                  /\ d <= d').
Proof.
  intros Hwf Hout.
  pose proof (wellFormedHex_numeric _ Hwf) as Hnum.
  destruct (wellFormedHex_shape _ Hwf) as [Hs Hlen].
  destruct (startsWith_hash _ Hs) as [rest ->].
  rewrite convert_hash. cbv zeta. rewrite Hout.
  rewrite toLowerCase_length, Hlen. cbn [Nat.eqb].
  destruct (closest_nearest (hexToRgb (toLowerCase (String "#" rest))) table fallback
              table_nonempty (table_distances table _ table_numeric Hnum))
    as [[k c] [d [Hin [Hc [Hd Hmin]]]]].
  exists k, c, d. split; [exact Hin|]. split; [now rewrite Hc|].
  split; [exact Hd|].
  intros k' c' Hin'. exact (Hmin (k', c') Hin').
Qed.

Lemma conversion_fallback (hexColor : string) :
  startsWith hexColor "#" = true ->
  String.length hexColor <> 7%nat \/ numeric (hexToRgb (toLowerCase hexColor)) = false ->
  lookupOwn (toLowerCase hexColor) table = None ->
  convert hexColor = Value fallback.
Proof.
  intros H Hbad Hout. destruct (startsWith_hash _ H) as [rest ->].
  rewrite convert_hash. cbv zeta. rewrite Hout.
  destruct (String.length _ =? 7)%nat eqn:E; [|reflexivity].
  destruct Hbad as [Hlen | Hnan].
  - apply Nat.eqb_eq in E. rewrite toLowerCase_length in E. contradiction.
  - now rewrite (closest_unparsed _ table fallback Hnan).
Qed.

Lemma conversion_other_length (hexColor : string) :
  String.length hexColor <> 7%nat ->
  lookupOwn (toLowerCase hexColor) table = None.
Proof.
  intros H. apply lookupOwn_other_length; [exact table_length7|].
  now rewrite toLowerCase_length.
Qed.

End Conversion.

(** Claim C8, as the code has it.  In the Gmail and the Microsoft adapter,
    a colour string that starts with [#] is converted, without failure, to
    a value of the adapter's own table; for [#] and six hexadecimal digits
    that are not a key of the table, it is the value of a key at least
    squared RGB distance from the input; for a length other than seven it
    is the default entry.  [createLabel] sends the converted colour and
    fails only if the backend does.  The IMAP adapter's [createLabel] fails
    with [OPERATION_FAILED] whatever the colour. *)
Theorem label_colours_from_own_palette :
  (forall hexColor, startsWith hexColor "#" = true ->
     (exists c, Gmail.convertToGmailColor hexColor = Value c /\
                In c (map snd Gmail.colorPalette)) /\
     (exists p, Microsoft.convertColorToPreset (Some hexColor) = Value p /\
                In p (map snd Microsoft.colorMap))) /\
  (forall hexColor, wellFormedHex hexColor = true ->
     (lookupOwn (toLowerCase hexColor) Gmail.colorPalette = None ->
      exists k c d,
        In (k, c) Gmail.colorPalette /\ Gmail.convertToGmailColor hexColor = Value c /\
        colorDistance (hexToRgb (toLowerCase hexColor)) (hexToRgb k) = Num d /\
        (forall k' c', In (k', c') Gmail.colorPalette ->
           exists d', colorDistance (hexToRgb (toLowerCase hexColor)) (hexToRgb k') = Num d'
                      /\ d <= d')) /\
     (lookupOwn (toLowerCase hexColor) Microsoft.colorMap = None ->
      exists k p d,
        In (k, p) Microsoft.colorMap /\
        Microsoft.convertColorToPreset (Some hexColor) = Value p /\
        colorDistance (hexToRgb (toLowerCase hexColor)) (hexToRgb k) = Num d /\
        (forall k' p', In (k', p') Microsoft.colorMap ->
           exists d', colorDistance (hexToRgb (toLowerCase hexColor)) (hexToRgb k') = Num d'
                      /\ d <= d'))) /\
  (forall hexColor, startsWith hexColor "#" = true -> String.length hexColor <> 7%nat ->
     Gmail.convertToGmailColor hexColor = Value Gmail.defaultColor /\
     Microsoft.convertColorToPreset (Some hexColor) = Value "preset0") /\
  (forall (W : Type) (client : Gmail.Client W) name color w,
     color <> "" ->
     match Gmail.labels_create client
             (Gmail.mkCreateRequest name "labelShow" "show"
                (Some (Gmail.convertToGmailColor color))) w with
     | (inl data, w') =>
         Gmail.createLabel client name (Some color) w
         = (Return (EmailLabel.mk (Gmail.l_id data) (Gmail.l_name data)
                      (Gmail.l_backgroundColor data) (Some user)), w')
     | (inr raw, w') =>
         Gmail.createLabel client name (Some color) w
         = (Throw (rethrow "gmail" (ExnRaw raw)), w')
     end) /\
  (forall (W : Type) (client : Microsoft.Client W) name color w,
     match Microsoft.post_category client "/me/outlook/masterCategories" name
             (Microsoft.convertColorToPreset color) w with
     | (inl response, w') =>
         Microsoft.createLabel client name color w
         = (Return (EmailLabel.mk (Microsoft.c_id response)
                      (Microsoft.c_displayName response)
                      (Microsoft.c_color response) (Some user)), w')
     | (inr raw, w') =>
         Microsoft.createLabel client name color w
         = (Throw (rethrow "microsoft" (ExnRaw raw)), w')
     end) /\
  (forall (W : Type) name color (w : W),
     exists e, Imap.createLabel name color w = (Throw (ExnSuperMail e), w) /\
               code e = OPERATION_FAILED).
Proof.
  destruct gmail_palette_facts as [Gn [Gl [_ Gd]]].
  destruct microsoft_colorMap_facts as [Mn [Ml Md]].
  assert (Gne : Gmail.colorPalette <> []) by discriminate.
  assert (Mne : Microsoft.colorMap <> []) by discriminate.
  repeat apply conj.
  - intros hexColor H. split.
    + exact (conversion_member Gmail.colorPalette Gmail.defaultColor
               Gmail.convertToGmailColor Gd convertToGmailColor_hash hexColor H).
    + exact (conversion_member Microsoft.colorMap "preset0"
               (fun s => Microsoft.convertColorToPreset (Some s)) Md
               convertColorToPreset_hash hexColor H).
  - intros hexColor H. split.
    + exact (conversion_nearest Gmail.colorPalette Gmail.defaultColor
               Gmail.convertToGmailColor Gne Gn convertToGmailColor_hash hexColor H).
    + exact (conversion_nearest Microsoft.colorMap "preset0"
               (fun s => Microsoft.convertColorToPreset (Some s)) Mne Mn
               convertColorToPreset_hash hexColor H).
  - intros hexColor H Hlen. split.
    + apply (conversion_fallback Gmail.colorPalette Gmail.defaultColor
               Gmail.convertToGmailColor convertToGmailColor_hash hexColor H
               (or_introl Hlen)).
      exact (conversion_other_length Gmail.colorPalette Gl hexColor Hlen).
    + apply (conversion_fallback Microsoft.colorMap "preset0"
               (fun s => Microsoft.convertColorToPreset (Some s))
               convertColorToPreset_hash hexColor H (or_introl Hlen)).
      exact (conversion_other_length Microsoft.colorMap Ml hexColor Hlen).
  - intros W client name color w Hc.
    unfold Gmail.createLabel, Async.tryNormalize, Async.bind, Async.await, Async.ret.
    rewrite (proj2 (truthyStr_Some color) Hc).
    replace (orStr (Some color) "") with color
      by (unfold orStr; now rewrite (proj2 (truthyStr_Some color) Hc)).
    destruct (Gmail.labels_create client _ w) as [[data|raw] w']; reflexivity.
  - intros W client name color w.
    unfold Microsoft.createLabel, Async.tryNormalize, Async.bind, Async.await, Async.ret.
    destruct (Microsoft.post_category client _ _ _ w) as [[response|raw] w']; reflexivity.
  - intros W name color w. rewrite imap_createLabel_outcome.
    eexists. split; reflexivity.
Qed.

(** The theorem at an out-of-palette orange, at a three-digit colour and
    on the Gmail mailbox *)
Lemma label_colours_from_own_palette_witness :
  (exists c, Gmail.convertToGmailColor "#FF8801" = Value c /\
             In c (map snd Gmail.colorPalette)) /\
  (exists k p d,
     In (k, p) Microsoft.colorMap /\
     Microsoft.convertColorToPreset (Some "#FF8801") = Value p /\
     colorDistance (hexToRgb "#ff8801") (hexToRgb k) = Num d /\
     (forall k' p', In (k', p') Microsoft.colorMap ->
        exists d', colorDistance (hexToRgb "#ff8801") (hexToRgb k') = Num d' /\ d <= d')) /\
  Gmail.convertToGmailColor "#abc" = Value Gmail.defaultColor /\
  Gmail.createLabel Scenario.gmailClient "Work" (Some "#123456") []
    = (Return (EmailLabel.mk "Label_1" "Work" (Some "#16a765") (Some user)), []).
Proof.
  destruct label_colours_from_own_palette as [H1 [H2 [H3 [H4 _]]]].
  split; [|split; [|split]].
  - apply (H1 "#FF8801"). reflexivity.
  - apply (H2 "#FF8801"); reflexivity.
  - apply (H3 "#abc"); [reflexivity | discriminate].
  - specialize (H4 _ Scenario.gmailClient "Work" "#123456" []).
    apply H4. discriminate.
Defined.

(** Claim C8 fails for the IMAP adapter, which produces no label at all,
    and on malformed strings that still parse in part: [#1g0000] is read as
    (1, 0, 0) and lands on the black preset, not on the default. *)
Lemma createLabel_colour_fails_or_leaves_default :
  (exists e, Imap.createLabel "Work" (Some "#123456") tt = (Throw (ExnSuperMail e), tt) /\
             code e = OPERATION_FAILED) /\
  (forall label w, Imap.createLabel "Work" (Some "#123456") tt <> (Return label, w)) /\
  Microsoft.convertColorToPreset (Some "#1g0000") = Value "preset14" /\
  Value "preset14" <> Value (A := string) "preset0".
Proof.
  split; [|split; [|split]].
  - eexists. split; reflexivity.
  - intros label w. discriminate.
  - vm_compute. reflexivity.
  - discriminate.
Qed.

(* ===================================================================== *)
(** ** Further properties of the error taxonomy                           *)
(* ===================================================================== *)

(** A classified error read back as a raw failure matches no rule of any
    tag: its [code] is the name of its kind. *)
Lemma normalizeError_of_classified (tag : string) (e : SuperMailError) :
  normalizeError (exnToJs (ExnSuperMail e)) tag
  = Return (newSuperMailError UNKNOWN_ERROR (keptMessage e) (Some tag)
              (exnToJs (ExnSuperMail e))).
Proof.
  unfold keptMessage. destruct e as [n c m p o ra rid]. cbn [message].
  unfold normalizeError.
  destruct (tag =? "gmail")%string; destruct (tag =? "microsoft")%string;
    destruct c; cbn; unfold orElse; cbn; destruct (m =? "")%string; reflexivity.
Qed.

(** X1.  An operation whose try block encloses an operation that has
    already normalized its failure reports that failure as
    [UNKNOWN_ERROR]: the kind and the retry hint of the inner error are
    lost, its message is kept. *)
Theorem second_normalization_loses_kind {W A : Type} (tag tag' : string)
    (m : Async.M W A) (w w' : W) (e : SuperMailError) :
  Async.tryNormalize tag m w = (Throw (ExnSuperMail e), w') ->
  exists e',
    Async.tryNormalize tag' (Async.tryNormalize tag m) w = (Throw (ExnSuperMail e'), w') /\
    code e' = UNKNOWN_ERROR /\ retryAfter e' = None /\
    provider e' = Some tag' /\ message e' = keptMessage e.
Proof.
  intros H. unfold Async.tryNormalize at 1. rewrite H.
  unfold rethrow. rewrite normalizeError_of_classified.
  eexists. split; [reflexivity|]. repeat split.
Qed.

Lemma second_normalization_loses_kind_witness :
  exists e',
    Async.tryNormalize "gmail"
      (Async.tryNormalize "gmail"
         (Async.await (Gmail.messages_get Scenario.gmailClientUnauthorized "m1"))) []
      = (Throw (ExnSuperMail e'), []) /\
    code e' = UNKNOWN_ERROR /\
    message e' = "Gmail authentication failed. Token may be expired or invalid.".
Proof.
  destruct (second_normalization_loses_kind "gmail" "gmail"
              (Async.await (Gmail.messages_get Scenario.gmailClientUnauthorized "m1"))
              [] [] _ eq_refl) as [e' [He [Hc [_ [_ Hm]]]]].
  exists e'. split; [exact He|]. split; [exact Hc | exact Hm].
Defined.

(** X2.  A failure whose [code] is one of the three connectivity codes is
    handled by the connectivity rule under every tag (under ['microsoft'],
    unless its [statusCode] is one of the table's).  The rule converts the
    original message to a string: the result is a [NETWORK_ERROR] that
    carries the tag and the failure, with the message "Network error: "
    followed by the original message when that is a string, by "undefined"
    when there is none and by "null" when it is [null]; when the message is
    an object that cannot be converted, a TypeError is thrown. *)
Theorem connectivity_codes_are_network_errors (tag : string) (error : JsVal)
    (c : string) :
  optProp error "code" = JStr c ->
  In c ["ECONNREFUSED"; "ENOTFOUND"; "ETIMEDOUT"] ->
  (tag = "microsoft" -> statusInTable (optProp error "statusCode") = false) ->
  (forall s, optProp error "message" = JStr s ->
     normalizeError error tag
     = Return (newSuperMailError NETWORK_ERROR ("Network error: " ++ s) (Some tag) error)) /\
  (optProp error "message" = JUndefined ->
     normalizeError error tag
     = Return (newSuperMailError NETWORK_ERROR "Network error: undefined" (Some tag)
                 error)) /\
  (optProp error "message" = JNull ->
     normalizeError error tag
     = Return (newSuperMailError NETWORK_ERROR "Network error: null" (Some tag) error)) /\
  (convertible (optProp error "message") = true ->
     exists text,
       normalizeError error tag
       = Return (newSuperMailError NETWORK_ERROR ("Network error: " ++ text) (Some tag)
                   error)) /\
  (convertible (optProp error "message") = false ->
     exists m, normalizeError error tag = Throw (ExnTypeError m)).
Proof.
  intros Hc Hin Hs.
  assert (Hn : nullish error = false)
    by (apply (optProp_defined _ _ _ Hc); discriminate).
  assert (Ht : truthy (JStr c) = true)
    by (destruct Hin as [<-|[<-|[<-|[]]]]; reflexivity).
  assert (Hnet : isNetworkCode (JStr c) = true)
    by (destruct Hin as [<-|[<-|[<-|[]]]]; reflexivity).
  assert (Hg : graphCodeInTable (JStr c) = false)
    by (destruct Hin as [<-|[<-|[<-|[]]]]; reflexivity).
  assert (Hp : providerRuleFires tag error = false).
  { unfold providerRuleFires.
    destruct (String.eqb_spec tag "gmail") as [->|Hg'].
    - unfold gmailStatusOf, orElse. rewrite Hc, Ht. reflexivity.
    - destruct (String.eqb_spec tag "microsoft") as [->|Hm]; [|reflexivity].
      specialize (Hs eq_refl). cbv zeta.
      unfold microsoftStatusOf, microsoftCodeOf, orElse. rewrite Hc, Ht.
      unfold graphCodeInTable in Hg. split_false Hg. rewrite Hg, Hg2, Hg1, Hg0.
      destruct (truthy (optProp error "statusCode")).
      + unfold statusInTable in Hs. split_false Hs. rewrite Hs, Hs2, Hs1, Hs0.
        reflexivity.
      + reflexivity. }
  rewrite (normalizeError_unruled error tag Hn Hp), Hc, Hnet.
  repeat apply conj.
  - intros s ->. reflexivity.
  - intros ->. reflexivity.
  - intros ->. reflexivity.
  - intros Hv. destruct (ToString_convertible _ Hv) as [text ->]. now exists text.
  - intros Hv. rewrite (proj1 (ToString_unconvertible _ Hv)). eexists. reflexivity.
Qed.

Lemma connectivity_codes_are_network_errors_witness :
  exists e, normalizeError Cases.connectionRefused "imap" = Return e /\
            code e = NETWORK_ERROR /\ message e = "Network error: undefined".
Proof.
  eexists. split.
  - refine (proj1 (proj2 (connectivity_codes_are_network_errors "imap"
                            Cases.connectionRefused "ECONNREFUSED" eq_refl _ _)) _).
    + simpl. now left.
    + discriminate.
    + reflexivity.
  - split; reflexivity.
Defined.

(** X3.  The two middle rows of the status tables: a status that reads 403
    is classified [QUOTA_EXCEEDED] and one that reads 404 [NOT_FOUND],
    with no resource id, under ['gmail'] and under ['microsoft'] (there,
    unless the Graph error code is one an earlier rule takes). *)
Theorem normalizeError_forbidden_and_not_found (error : JsVal) :
  nullish error = false ->
  (gmailStatusOf error = JNum (Num 403) ->
   exists e, normalizeError error "gmail" = Return e /\ code e = QUOTA_EXCEEDED) /\
  (gmailStatusOf error = JNum (Num 404) ->
   exists e, normalizeError error "gmail" = Return e /\
             code e = NOT_FOUND /\ resourceId e = None) /\
  (microsoftStatusOf error = JNum (Num 403) ->
   isStr (microsoftCodeOf error) "InvalidAuthenticationToken" = false ->
   exists e, normalizeError error "microsoft" = Return e /\ code e = QUOTA_EXCEEDED) /\
  (microsoftStatusOf error = JNum (Num 404) ->
   isStr (microsoftCodeOf error) "InvalidAuthenticationToken" = false ->
   isStr (microsoftCodeOf error) "Forbidden" = false ->
   exists e, normalizeError error "microsoft" = Return e /\
             code e = NOT_FOUND /\ resourceId e = None).
Proof.
  intros Hn. unfold normalizeError. cbn [String.eqb Ascii.eqb Bool.eqb andb].
  rewrite (gmailRules_eq _ _ Hn), (microsoftRules_eq _ _ Hn). cbv zeta.
  repeat apply conj.
  - intros ->. cbn. eexists. split; reflexivity.
  - intros ->. cbn. eexists. repeat split.
  - intros -> ->. cbn. eexists. split; reflexivity.
  - intros -> -> ->. cbn. eexists. repeat split.
Qed.

Lemma normalizeError_forbidden_and_not_found_witness :
  (exists e, normalizeError Cases.gmailNotFound "gmail" = Return e /\
             code e = NOT_FOUND /\ resourceId e = None) /\
  (exists e, normalizeError Cases.graphForbidden "microsoft" = Return e /\
             code e = QUOTA_EXCEEDED).
Proof.
  split.
  - apply (proj1 (proj2 (normalizeError_forbidden_and_not_found
                           Cases.gmailNotFound eq_refl))). reflexivity.
  - apply (proj1 (proj2 (proj2 (normalizeError_forbidden_and_not_found
                                  Cases.graphForbidden eq_refl)))); reflexivity.
Defined.

(** X4.  Under ['microsoft'] the Graph error code classifies a failure
    that has no status at all: the code is read from [error.code] and,
    when that is falsy, from [error.body.error.code]; each row applies
    unless the status is one that an earlier row takes.  The last row
    converts the retry-after header: [retryAfter] is left undefined for a
    falsy header, and is the integer [parseInt] reads from a header
    string (NaN when it reads none) as long as that is a safe integer; on
    a header that cannot be converted to a string a TypeError is thrown. *)
Theorem graph_error_codes_classify (error : JsVal) :
  nullish error = false ->
  (truthy (optProp error "code") = false ->
   microsoftCodeOf error = optProp (optProp (optProp error "body") "error") "code") /\
  (microsoftCodeOf error = JStr "InvalidAuthenticationToken" ->
   exists e, normalizeError error "microsoft" = Return e /\ code e = AUTH_FAILED) /\
  (microsoftCodeOf error = JStr "Forbidden" ->
   isNum (microsoftStatusOf error) 401 = false ->
   exists e, normalizeError error "microsoft" = Return e /\ code e = QUOTA_EXCEEDED) /\
  (microsoftCodeOf error = JStr "ResourceNotFound" ->
   isNum (microsoftStatusOf error) 401 = false ->
   isNum (microsoftStatusOf error) 403 = false ->
   exists e, normalizeError error "microsoft" = Return e /\ code e = NOT_FOUND) /\
  (microsoftCodeOf error = JStr "TooManyRequests" ->
   isNum (microsoftStatusOf error) 401 = false ->
   isNum (microsoftStatusOf error) 403 = false ->
   isNum (microsoftStatusOf error) 404 = false ->
   let header := optProp (optProp error "headers") "retry-after" in
   (convertible header = true ->
    exists e, normalizeError error "microsoft" = Return e /\
              code e = RATE_LIMIT_EXCEEDED /\
              (retryAfter e = None <-> truthy header = false) /\
              (forall s, header = JStr s -> s <> "" -> safe (parseInt s None) = true ->
                         retryAfter e = Some (parseInt s None))) /\
   (convertible header = false ->
    exists m, normalizeError error "microsoft" = Throw (ExnTypeError m))).
Proof.
  intros Hn. unfold normalizeError. cbn [String.eqb Ascii.eqb Bool.eqb andb].
  cbn [Errors.bind]. rewrite (microsoftRules_eq _ _ Hn). cbv zeta.
  repeat apply conj.
  - intros H. unfold microsoftCodeOf, orElse. now rewrite H.
  - intros ->. rewrite orb_true_r. eexists. split; reflexivity.
  - intros -> ->. cbn. rewrite ?orb_true_r. eexists. split; reflexivity.
  - intros -> -> ->. cbn. rewrite ?orb_true_r. eexists. split; reflexivity.
  - intros -> -> -> ->. cbn [orb isStr String.eqb Ascii.eqb Bool.eqb andb].
    rewrite ?orb_true_r. split.
    + intros Hv. destruct (retryAfterOf_convertible _ Hv) as [hint [Hh [Hnone Hs]]].
      rewrite Hh. cbn [Errors.bind].
      eexists. split; [reflexivity|]. split; [reflexivity|].
      cbn [retryAfter newRateLimitError]. split; [exact Hnone|].
      intros s E Hne _. exact (Hs s E Hne).
    + intros Hv. rewrite (retryAfterOf_unconvertible _ Hv).
      eexists. reflexivity.
Qed.

Lemma graph_error_codes_classify_witness :
  exists e, normalizeError Cases.graphThrottledBody "microsoft" = Return e /\
            code e = RATE_LIMIT_EXCEEDED /\ retryAfter e = Some NaN.
Proof.
  destruct (proj1 (proj2 (proj2 (proj2 (proj2 (graph_error_codes_classify
              Cases.graphThrottledBody eq_refl))))
                     eq_refl eq_refl eq_refl eq_refl) eq_refl) as [e [He [Hc [_ Hr]]]].
  exists e. split; [exact He|]. split; [exact Hc|].
  rewrite (Hr "Wed, 21 Oct 2015 07:28:00 GMT" eq_refl); [reflexivity | discriminate |
                                                          reflexivity].
Defined.

(** X5.  Under ['gmail'] a truthy [error.code] hides [error.response.status]:
    when the code is not one of the four numbers of the table (a string
    such as "ERR_BAD_REQUEST", or the string "401") and not a connectivity
    code, the failure is [UNKNOWN_ERROR] whatever the response status, with
    the original message when that is a non-empty string and the fixed
    text when it is falsy; when the message is an object that cannot be
    converted to a string, a TypeError is thrown. *)
Theorem gmail_code_hides_response_status (error : JsVal) :
  truthy (optProp error "code") = true ->
  statusInTable (optProp error "code") = false ->
  isNetworkCode (optProp error "code") = false ->
  (convertible (optProp error "message") = true ->
   exists e, normalizeError error "gmail" = Return e /\
             code e = UNKNOWN_ERROR /\
             (forall s, optProp error "message" = JStr s -> s <> "" -> message e = s) /\
             (truthy (optProp error "message") = false ->
              message e = "An unknown error occurred")) /\
  (convertible (optProp error "message") = false ->
   exists m, normalizeError error "gmail" = Throw (ExnTypeError m)).
Proof.
  intros Ht Hs Hk.
  assert (Hn : nullish error = false) by (destruct error; try reflexivity; discriminate).
  assert (Hp : providerRuleFires "gmail" error = false).
  { unfold providerRuleFires. cbn [String.eqb Ascii.eqb Bool.eqb andb]. cbv zeta.
    unfold gmailStatusOf, orElse. rewrite Ht. exact Hs. }
  rewrite (normalizeError_unruled error "gmail" Hn Hp), Hk. split.
  - intros Hv. destruct (unknown_message _ Hv) as [text [-> [H1 H2]]].
    eexists. split; [reflexivity|]. split; [reflexivity|]. split; assumption.
  - intros Hv. destruct (ToString_unconvertible _ Hv) as [E Hy].
    unfold orElse. rewrite Hy, E. eexists. reflexivity.
Qed.

Lemma gmail_code_hides_response_status_witness :
  exists e, normalizeError Cases.stringCoded401 "gmail" = Return e /\
            code e = UNKNOWN_ERROR /\
            message e = "Request failed with status code 401".
Proof.
  destruct (proj1 (gmail_code_hides_response_status Cases.stringCoded401
                     eq_refl eq_refl eq_refl) eq_refl)
    as [e [He [Hc [Hm _]]]].
  exists e. split; [exact He|]. split; [exact Hc|].
  apply Hm; [reflexivity | discriminate].
Defined.

Lemma parseInt_leadingJunk (c : ascii) (rest : string) :
  leadingJunk c = true -> parseInt (String c rest) None = NaN.
Proof.
  destruct c as [[] [] [] [] [] [] [] []]; intros H;
    try (vm_compute in H; discriminate H); reflexivity.
Qed.

(** X6.  For a failure whose status reads 429, the retry-after header is
    converted to a string unless it is falsy: [retryAfter] is left
    undefined exactly when the header is missing or falsy, and a header
    string that does not start with a number, such as an HTTP date, gives
    NaN; on a header that is an object that cannot be converted to a
    string, [normalizeError] throws a TypeError. *)
Theorem retry_hint_from_header (tag : string) (error : JsVal) :
  tooManyRequests tag error ->
  (convertible (retryAfterHeader tag error) = true ->
   exists e, normalizeError error tag = Return e /\
             code e = RATE_LIMIT_EXCEEDED /\
             (retryAfter e = None <-> truthy (retryAfterHeader tag error) = false) /\
             (forall c rest, retryAfterHeader tag error = JStr (String c rest) ->
                             leadingJunk c = true -> retryAfter e = Some NaN)) /\
  (convertible (retryAfterHeader tag error) = false ->
   exists m, normalizeError error tag = Throw (ExnTypeError m)).
Proof.
  intros H. destruct (tooManyRequests_rate _ _ H) as [Hn Hr].
  destruct (normalizeError_rate error tag Hn Hr) as [text ->]. split.
  - intros Hv. destruct (retryAfterOf_convertible _ Hv) as [hint [-> [Hnone Hs]]].
    eexists. split; [reflexivity|]. split; [reflexivity|].
    cbn [retryAfter newRateLimitError]. split; [exact Hnone|].
    intros c rest E Hj. rewrite (Hs _ E); [|discriminate].
    now rewrite (parseInt_leadingJunk _ _ Hj).
  - intros Hv. rewrite (retryAfterOf_unconvertible _ Hv). eexists. reflexivity.
Qed.

Lemma retry_hint_from_header_witness :
  exists e, normalizeError Scenario.gmailTooManyRequests "gmail" = Return e /\
            code e = RATE_LIMIT_EXCEEDED /\ retryAfter e <> None.
Proof.
  destruct (proj1 (retry_hint_from_header "gmail" Scenario.gmailTooManyRequests
                     (conj eq_refl (or_introl (conj eq_refl eq_refl)))) eq_refl)
    as [e [He [Hc [Hr _]]]].
  exists e. split; [exact He|]. split; [exact Hc|].
  intros Hnone. apply Hr in Hnone. discriminate Hnone.
Defined.

(* ===================================================================== *)
(** ** Further properties of the Gmail adapter                            *)
(* ===================================================================== *)

(** *** Writing addresses and reading them back *)

Lemma append_nil_r (s : string) : s ++ "" = s.
Proof. induction s; simpl; congruence. Qed.

Lemma append_assoc (a b c : string) : (a ++ b) ++ c = a ++ b ++ c.
Proof. induction a; simpl; congruence. Qed.

Lemma unsnoc_app_last (s : string) (c : ascii) :
  Gmail.unsnoc (s ++ String c "") = Some (s, c).
Proof. induction s as [|x s IH]; simpl; [reflexivity | now rewrite IH]. Qed.

Lemma trimStart_length (s : string) :
  (String.length (trimStart s) <= String.length s)%nat.
Proof.
  induction s as [|x s IH]; simpl; [lia|].
  destruct (isWhiteSpace x); simpl; lia.
Qed.

Lemma trimStart_fixed_head (x : ascii) (r : string) :
  trimStart (String x r) = String x r -> isWhiteSpace x = false.
Proof.
  simpl. destruct (isWhiteSpace x); [|reflexivity].
  intros H. pose proof (trimStart_length r) as L. rewrite H in L. simpl in L. lia.
Qed.

Lemma trimEnd_tail (x : ascii) (r : string) :
  r <> "" -> trimEnd (String x r) = String x r -> trimEnd r = r.
Proof.
  intros Hr. simpl. destruct (trimEnd r) as [|a t].
  - destruct (isWhiteSpace x); intros H; [discriminate|].
    injection H as H. congruence.
  - intros H. now injection H.
Qed.

Lemma trimEnd_single (x : ascii) :
  trimEnd (String x "") = String x "" -> isWhiteSpace x = false.
Proof. simpl. destruct (isWhiteSpace x); [discriminate | reflexivity]. Qed.

Lemma trimEnd_app_visible (s : string) (c : ascii) :
  isWhiteSpace c = false -> trimEnd (s ++ String c "") = s ++ String c "".
Proof.
  intros Hc. induction s as [|x s IH]; simpl.
  - now rewrite Hc.
  - rewrite IH. destruct (s ++ String c "") eqn:E; [|reflexivity].
    destruct s; discriminate.
Qed.

Lemma lacks_app (c : ascii) (s t : string) :
  lacks c (s ++ t) = lacks c s && lacks c t.
Proof.
  induction s as [|x s IH]; simpl; [reflexivity|].
  rewrite IH. now rewrite andb_assoc.
Qed.

Lemma trimStart_app_head (s t : string) :
  s <> "" -> trimEnd s = s -> lacks "<" s = true ->
  exists c r, trimStart (s ++ t) = String c r /\ Ascii.eqb c "<" = false.
Proof.
  induction s as [|x s IH]; intros Hne He Hl; [contradiction|].
  simpl in Hl. apply andb_prop in Hl as [Hx Hs]. apply negb_true_iff in Hx.
  simpl. destruct (isWhiteSpace x) eqn:Ew.
  - destruct s as [|y s'].
    + apply trimEnd_single in He. congruence.
    + apply IH; [discriminate | | exact Hs].
      apply (trimEnd_tail x); [discriminate | exact He].
  - eauto.
Qed.

Lemma matchTail_bracketed (e : string) :
  e <> "" -> Gmail.noLineTerminator e = true ->
  Gmail.matchTail (" <" ++ e ++ ">") = Some e.
Proof.
  intros He Hl. unfold Gmail.matchTail.
  change (trimStart (" <" ++ e ++ ">")) with (String "<" (e ++ ">")).
  cbv iota beta. rewrite unsnoc_app_last. rewrite Hl.
  destruct (String.eqb_spec e ""); [contradiction | reflexivity].
Qed.

Lemma matchFrom_named (e : string) :
  e <> "" -> Gmail.noLineTerminator e = true ->
  forall suffix g1,
    Gmail.noLineTerminator suffix = true -> lacks "<" suffix = true ->
    suffix = "" \/ trimEnd suffix = suffix ->
    Gmail.matchFrom g1 (suffix ++ " <" ++ e ++ ">") = Some (g1 ++ suffix, e).
Proof.
  intros He Hl. induction suffix as [|x s IH]; intros g1 Hlt Hlk Hend.
  - rewrite matchFrom_unfold. change ("" ++ " <" ++ e ++ ">") with (" <" ++ e ++ ">").
    rewrite (matchTail_bracketed e He Hl). now rewrite append_nil_r.
  - destruct Hend as [Hend|Hend]; [discriminate|].
    destruct (trimStart_app_head (String x s) (" <" ++ e ++ ">")) as [c [r [Ht Hc]]];
      [discriminate | exact Hend | exact Hlk |].
    rewrite matchFrom_unfold, (matchTail_head _ _ _ Ht Hc).
    simpl in Hlt, Hlk. apply andb_prop in Hlt as [Hx Hlt]. apply andb_prop in Hlk as [_ Hlk].
    apply negb_true_iff in Hx.
    change (String x s ++ " <" ++ e ++ ">") with (String x (s ++ " <" ++ e ++ ">")).
    cbv iota beta. rewrite Hx. rewrite IH; [| exact Hlt | exact Hlk |].
    + now rewrite append_assoc.
    + destruct s as [|y s']; [now left | right].
      apply (trimEnd_tail x); [discriminate | exact Hend].
Qed.

Lemma plainText_trim (s : string) : plainText s -> trim s = s.
Proof. intros [_ [Hs [He _]]]. unfold trim. now rewrite Hs. Qed.

Lemma parse_formatted (addr : EmailAddress.t) :
  writable addr ->
  Gmail.parseEmailAddress (Some (Gmail.formatEmailAddress addr)) = Some addr.
Proof.
  destruct addr as [e [n|]]; unfold writable; cbn [EmailAddress.email EmailAddress.name].
  - intros [He [Hn Hlk]].
    pose proof (plainText_trim _ He) as Te. pose proof (plainText_trim _ Hn) as Tn.
    destruct He as [He0 [_ [_ Hel]]]. destruct Hn as [Hn0 [_ [Hne Hnl]]].
    unfold Gmail.formatEmailAddress. cbn [EmailAddress.email EmailAddress.name].
    rewrite (proj2 (truthyStr_Some n) Hn0).
    replace (orStr (Some n) "") with n
      by (unfold orStr; now rewrite (proj2 (truthyStr_Some n) Hn0)).
    destruct n as [|x n']; [contradiction|].
    unfold Gmail.parseEmailAddress. cbn [truthyStr String.append String.eqb negb].
    cbv iota. unfold Gmail.matchNameAddress.
    simpl in Hnl, Hlk. apply andb_prop in Hnl as [Hx Hnl]. apply andb_prop in Hlk as [_ Hlk].
    apply negb_true_iff in Hx. rewrite Hx.
    change (String " " (String "<" (e ++ ">"))) with (" <" ++ e ++ ">").
    rewrite (matchFrom_named e He0 Hel n' (String x "") Hnl Hlk).
    + cbn [String.append]. now rewrite Te, Tn.
    + destruct n' as [|y n'']; [now left | right].
      apply (trimEnd_tail x); [discriminate | exact Hne].
  - intros [He Hlk]. pose proof (plainText_trim _ He) as Te. destruct He as [He0 _].
    unfold Gmail.formatEmailAddress. cbn [EmailAddress.email EmailAddress.name truthyStr].
    unfold Gmail.parseEmailAddress. rewrite (proj2 (truthyStr_Some e) He0).
    cbn [negb]. cbv iota. rewrite (matchNameAddress_lacks _ Hlk). now rewrite Te.
Qed.

(** X7.  Reading back what [formatEmailAddress] writes gives the address
    again: for every address whose parts are non-empty, trimmed,
    one-line text and that has no [<] in its display name (in its email
    when it has no display name), [parseEmailAddress (formatEmailAddress
    addr)] is [addr]. *)
Theorem format_then_parse_address (addr : EmailAddress.t) :
  writable addr ->
  Gmail.parseEmailAddress (Some (Gmail.formatEmailAddress addr)) = Some addr.
Proof. exact (parse_formatted addr). Qed.

Lemma format_then_parse_address_witness :
  Gmail.parseEmailAddress (Some "Ada Lovelace <ada@example.com>")
  = Some (EmailAddress.mk "ada@example.com" (Some "Ada Lovelace")).
Proof.
  apply (format_then_parse_address (EmailAddress.mk "ada@example.com" (Some "Ada Lovelace"))).
  repeat split; try reflexivity; discriminate.
Defined.

Lemma split_lacks (s : string) :
  lacks "," s = true -> split "," s = [s].
Proof.
  induction s as [|x s IH]; simpl; [reflexivity|].
  intros H. apply andb_prop in H as [Hx Hs]. apply negb_true_iff in Hx.
  rewrite Hx, (IH Hs). reflexivity.
Qed.

Lemma split_app_comma (s t : string) :
  lacks "," s = true -> split "," (s ++ String "," t) = s :: split "," t.
Proof.
  induction s as [|x s IH]; simpl; [reflexivity|].
  intros H. apply andb_prop in H as [Hx Hs]. apply negb_true_iff in Hx.
  rewrite Hx, (IH Hs). reflexivity.
Qed.

(** The pieces that [split] finds in a joined list: the first item, then
    each further item behind the blank of the separator *)
Lemma split_join (items : list string) (first : string) :
  Forall (fun s => lacks "," s = true) (first :: items) ->
  split "," (join ", " (first :: items))
  = first :: map (fun s => String " " s) items.
Proof.
  revert first. induction items as [|second items IH]; intros first H.
  - inversion H; subst. now apply split_lacks.
  - inversion H as [|? ? Hf Hrest]; subst.
    change (join ", " (first :: second :: items))
      with (first ++ String "," (String " " (join ", " (second :: items)))).
    rewrite (split_app_comma _ _ Hf).
    change (split "," (String " " (join ", " (second :: items))))
      with (match split "," (join ", " (second :: items)) with
            | [] => [String " " EmptyString]
            | p :: ps => String " " p :: ps
            end).
    rewrite (IH second Hrest). reflexivity.
Qed.

Lemma formatted_nonempty (addr : EmailAddress.t) :
  writable addr -> Gmail.formatEmailAddress addr <> "".
Proof.
  destruct addr as [e [n|]]; unfold writable, Gmail.formatEmailAddress;
    cbn [EmailAddress.email EmailAddress.name].
  - intros [_ [[Hn _] _]]. rewrite (proj2 (truthyStr_Some n) Hn).
    unfold orStr. rewrite (proj2 (truthyStr_Some n) Hn).
    destruct n; [contradiction | discriminate].
  - intros [[He _] _]. exact He.
Qed.

Lemma formatted_trimmed (addr : EmailAddress.t) :
  writable addr -> trim (Gmail.formatEmailAddress addr) = Gmail.formatEmailAddress addr.
Proof.
  destruct addr as [e [n|]]; unfold writable, Gmail.formatEmailAddress;
    cbn [EmailAddress.email EmailAddress.name].
  - intros [_ [[Hn [Hs _]] _]]. rewrite (proj2 (truthyStr_Some n) Hn).
    unfold orStr. rewrite (proj2 (truthyStr_Some n) Hn).
    destruct n as [|x n']; [contradiction|].
    pose proof (trimStart_fixed_head _ _ Hs) as Hx.
    assert (E : String x n' ++ " <" ++ e ++ ">" = (String x n' ++ " <" ++ e) ++ ">")
      by (now rewrite !append_assoc).
    assert (Hst : trimStart (String x n' ++ " <" ++ e ++ ">")
                  = String x n' ++ " <" ++ e ++ ">")
      by (simpl; now rewrite Hx).
    unfold trim. rewrite Hst, E. now apply trimEnd_app_visible.
  - intros [He _]. now apply plainText_trim.
Qed.

Lemma join_nonempty (first : string) (items : list string) :
  first <> "" -> join ", " (first :: items) <> "".
Proof.
  destruct first; [contradiction|]. destruct items; discriminate.
Qed.

Lemma parse_blank_formatted (addr : EmailAddress.t) :
  writable addr ->
  Gmail.parseEmailAddress (Some (trim (String " " (Gmail.formatEmailAddress addr))))
  = Some addr.
Proof.
  intros H.
  change (trim (String " " (Gmail.formatEmailAddress addr)))
    with (trim (Gmail.formatEmailAddress addr)).
  rewrite (formatted_trimmed _ H). now apply parse_formatted.
Qed.

(** X8.  An address list written by [joinAddresses], as it goes into the
    To, Cc and Bcc lines, is read back whole and in order by
    [parseEmailAddresses], for addresses that are writable and have no
    comma in their written form; the empty list reads back as the empty
    list. *)
Theorem join_then_parse_addresses (l : list EmailAddress.t) :
  Forall writable l -> Forall commaFree l ->
  Gmail.parseEmailAddresses (Some (Gmail.joinAddresses l)) = l.
Proof.
  intros Hw Hc. destruct l as [|a l]; [reflexivity|].
  unfold Gmail.parseEmailAddresses, Gmail.joinAddresses.
  cbn [map]. inversion Hw as [|? ? Ha Hl]; subst.
  rewrite (proj2 (truthyStr_Some _)
             (join_nonempty _ (map Gmail.formatEmailAddress l) (formatted_nonempty _ Ha))).
  cbn [negb]. cbv iota.
  rewrite split_join.
  - cbn [map somes]. rewrite (formatted_trimmed _ Ha), (parse_formatted _ Ha).
    cbn [somes]. f_equal.
    clear Hw Hc Ha. induction l as [|b l IH]; [reflexivity|].
    inversion Hl; subst. cbn [map]. rewrite parse_blank_formatted by assumption.
    cbn [somes]. now rewrite IH.
  - change (Forall (fun s => lacks "," s = true) (map Gmail.formatEmailAddress (a :: l))).
    apply Forall_map. exact Hc.
Qed.

Lemma join_then_parse_addresses_witness :
  Gmail.parseEmailAddresses (Some "Ada Lovelace <ada@example.com>, bob@example.com")
  = [ EmailAddress.mk "ada@example.com" (Some "Ada Lovelace");
      EmailAddress.mk "bob@example.com" None ].
Proof.
  apply (join_then_parse_addresses
           [ EmailAddress.mk "ada@example.com" (Some "Ada Lovelace");
             EmailAddress.mk "bob@example.com" None ]).
  - repeat constructor; try reflexivity; discriminate.
  - repeat constructor.
Defined.

(** *** The encoded message *)

Lemma lacks_replaced (from to : ascii) (s : string) :
  Ascii.eqb to from = false -> lacks from (Gmail.replaceChar from to s) = true.
Proof.
  intros H. induction s as [|x s IH]; simpl; [reflexivity|].
  rewrite IH, andb_true_r.
  destruct (Ascii.eqb x from) eqn:E; [now rewrite H | now rewrite E].
Qed.

Lemma lacks_replaceChar (c from to : ascii) (s : string) :
  Ascii.eqb to c = false -> lacks c s = true ->
  lacks c (Gmail.replaceChar from to s) = true.
Proof.
  intros H. induction s as [|x s IH]; simpl; [reflexivity|].
  intros Hl. apply andb_prop in Hl as [Hx Hs]. rewrite (IH Hs), andb_true_r.
  destruct (Ascii.eqb x from); [now rewrite H | exact Hx].
Qed.

Lemma lacks_stripPadding (c : ascii) (s : string) :
  lacks c s = true -> lacks c (Gmail.stripPadding s) = true.
Proof.
  induction s as [|x s IH]; simpl; [reflexivity|].
  intros Hl. apply andb_prop in Hl as [Hx Hs]. specialize (IH Hs).
  destruct (Gmail.stripPadding s) as [|a r].
  - destruct (Ascii.eqb x "="); [reflexivity|]. simpl. now rewrite Hx.
  - change (lacks c (String x (String a r)) = true).
    cbn [lacks] in IH |- *. now rewrite Hx, IH.
Qed.

Lemma stripPadding_end (s init : string) :
  Gmail.unsnoc (Gmail.stripPadding s) <> Some (init, "="%char).
Proof.
  revert init. induction s as [|x s IH]; intros init; simpl; [discriminate|].
  destruct (Gmail.stripPadding s) as [|a r].
  - destruct (Ascii.eqb x "=") eqn:E; [discriminate|].
    simpl. intros H. injection H as _ ->. discriminate.
  - change (Gmail.unsnoc (String x (String a r)))
      with (match Gmail.unsnoc (String a r) with
            | None => Some (EmptyString, x)
            | Some (i, l) => Some (String x i, l)
            end).
    destruct (Gmail.unsnoc (String a r)) as [[i l]|] eqn:E.
    + intros H. injection H as _ ->. exact (IH i eq_refl).
    + simpl in E. destruct (Gmail.unsnoc r) as [[? ?]|]; discriminate.
Qed.

Lemma replaceChar_absent (from to : ascii) (s : string) :
  lacks from s = true -> Gmail.replaceChar from to s = s.
Proof.
  induction s as [|x s IH]; simpl; [reflexivity|].
  intros H. apply andb_prop in H as [Hx Hs]. apply negb_true_iff in Hx.
  now rewrite Hx, (IH Hs).
Qed.

Lemma stripPadding_absent (s : string) :
  lacks "=" s = true -> Gmail.stripPadding s = s.
Proof.
  induction s as [|x s IH]; simpl; [reflexivity|].
  intros H. apply andb_prop in H as [Hx Hs]. apply negb_true_iff in Hx.
  rewrite (IH Hs), Hx. now destruct s.
Qed.

(** X9.  What is submitted as [raw] is URL-safe whatever the message:
    it has no [+] and no [/], and it does not end in [=]; and a base64
    text that has none of the three characters is submitted as it is. *)
Theorem encoded_message_is_url_safe {W : Type} (client : Gmail.Client W)
    (message : string) :
  lacks "+" (Gmail.encodeMessage client message) = true /\
  lacks "/" (Gmail.encodeMessage client message) = true /\
  (forall init, Gmail.unsnoc (Gmail.encodeMessage client message) <> Some (init, "="%char)) /\
  (lacks "+" (Gmail.toBase64 client (ContentString message)) = true ->
   lacks "/" (Gmail.toBase64 client (ContentString message)) = true ->
   lacks "=" (Gmail.toBase64 client (ContentString message)) = true ->
   Gmail.encodeMessage client message = Gmail.toBase64 client (ContentString message)).
Proof.
  unfold Gmail.encodeMessage. repeat apply conj.
  - apply lacks_stripPadding, lacks_replaceChar; [reflexivity|].
    now apply lacks_replaced.
  - apply lacks_stripPadding. now apply lacks_replaced.
  - intros init. apply stripPadding_end.
  - intros Hp Hs He.
    rewrite (replaceChar_absent "+" "-" _ Hp), (replaceChar_absent "/" "_" _ Hs).
    now apply stripPadding_absent.
Qed.

Lemma encoded_message_is_url_safe_witness :
  Gmail.encodeMessage Scenario.gmailClient "aGVsbG8" = "aGVsbG8".
Proof.
  apply (proj2 (proj2 (proj2 (encoded_message_is_url_safe Scenario.gmailClient "aGVsbG8"))));
    reflexivity.
Defined.

(** *** Listing *)

Lemma forEach_Forall2 {W A B : Type} (keep : A -> bool)
    (f : A -> Async.M W (option B)) :
  (forall a w r w', f a w = (Return r, w') ->
     (keep a = true /\ exists b, r = Some b) \/ (keep a = false /\ r = None)) ->
  forall (l : list A) (w w' : W) (bs : list B),
    Async.forEach f l w = (Return bs, w') ->
    Forall2 (fun a b => exists w1 w2, f a w1 = (Return (Some b), w2)) (filter keep l) bs.
Proof.
  intros Hf. induction l as [|a l IH]; intros w w' bs H; simpl in H.
  - unfold Async.ret in H. injection H as <- _. constructor.
  - unfold Async.bind in H.
    destruct (f a w) as [[ob|e] wa] eqn:Ef; [|discriminate].
    destruct (Async.forEach f l wa) as [[bs'|e] wb] eqn:El; [|discriminate].
    unfold Async.ret in H. injection H as <- _.
    specialize (IH _ _ _ El). simpl.
    destruct (Hf _ _ _ _ Ef) as [[Hk [b ->]] | [Hk ->]]; rewrite Hk.
    + constructor; [eauto | exact IH].
    + exact IH.
Qed.

Section GmailListing.

Context {W : Type} (client : Gmail.Client W).

(** X10.  A successful [listEmails] asked the backend for one page, of
    100 results when [maxResults] is absent or 0, with the query of
    [buildQuery]; it returns, in the order of the listing, one message per
    listed entry that has a non-empty id, each of them fetched by
    [getEmail], and passes the page token and the size estimate on. *)
Theorem listEmails_one_message_per_listed_id
    (options : ListEmailsOptions.t) (w w' : W) (response : ListEmailsResponse.t) :
  Gmail.listEmails client options w = (Return response, w') ->
  exists request data w1,
    Gmail.messages_list client request w = (inl data, w1) /\
    Gmail.q_maxResults request <> 0 /\
    (ListEmailsOptions.maxResults options = None \/
     ListEmailsOptions.maxResults options = Some 0 -> Gmail.q_maxResults request = 100) /\
    Gmail.q request = Gmail.buildQuery options /\
    Gmail.q_pageToken request = ListEmailsOptions.pageToken options /\
    Forall2
      (fun entry m =>
         exists wa wb,
           Gmail.getEmail client (orStr (Gmail.m_id entry) "") wa = (Return m, wb))
      (filter (fun entry => truthyStr (Gmail.m_id entry))
         (match Gmail.d_messages data with Some l => l | None => [] end))
      (ListEmailsResponse.messages response) /\
    ListEmailsResponse.nextPageToken response = Gmail.d_nextPageToken data /\
    ListEmailsResponse.totalCount response = Gmail.d_resultSizeEstimate data.
Proof.
  unfold Gmail.listEmails. unfold Async.tryNormalize at 1. unfold Async.bind at 1.
  unfold Async.await at 1.
  match goal with |- context [Gmail.messages_list client ?rq w] =>
    set (request := rq); destruct (Gmail.messages_list client request w)
      as [[data|raw] w1] eqn:El; [|discriminate]
  end.
  unfold Async.bind at 1.
  match goal with |- context [Async.forEach ?f ?l w1] =>
    destruct (Async.forEach f l w1) as [[ms|e] w2] eqn:Ef; [|discriminate];
    pose proof (forEach_Forall2 (fun entry => truthyStr (Gmail.m_id entry)) f) as HF
  end.
  unfold Async.ret. intros H. injection H as <- _.
  exists request, data, w1. split; [exact El|].
  split; [|split; [|split; [reflexivity|split; [reflexivity|split; [|split; reflexivity]]]]].
  - unfold request; cbn [Gmail.q_maxResults].
    destruct (ListEmailsOptions.maxResults options) as [n|]; [|discriminate].
    destruct (Z.eqb_spec n 0); [discriminate | assumption].
  - unfold request; cbn [Gmail.q_maxResults]. intros [-> | ->]; reflexivity.
  - cbn [ListEmailsResponse.messages].
    assert (G : Forall2
                  (fun entry m =>
                     exists w3 w4,
                       (if truthyStr (Gmail.m_id entry)
                        then fullMessage <~ Gmail.getEmail client (orStr (Gmail.m_id entry) "");;
                             Async.ret (Some fullMessage)
                        else Async.ret None) w3 = (Return (Some m), w4))
                  (filter (fun entry => truthyStr (Gmail.m_id entry))
                     (match Gmail.d_messages data with Some l => l | None => [] end)) ms).
    { apply (HF) with (w := w1) (w' := w2); [|exact Ef].
      intros a wa r wb Ha. destruct (truthyStr (Gmail.m_id a)).
      - left. split; [reflexivity|]. unfold Async.bind, Async.ret in Ha.
        destruct (Gmail.getEmail client _ wa) as [[m|e] wc]; [|discriminate].
        injection Ha as <- _. eauto.
      - right. split; [reflexivity|]. unfold Async.ret in Ha. now injection Ha as <- _. }
    clear HF Ef. induction G as [|entry m es ms' [w3 [w4 Hm]] _ IH]; constructor; [|exact IH].
    destruct (truthyStr (Gmail.m_id entry)); [|discriminate].
    unfold Async.bind, Async.ret in Hm.
    destruct (Gmail.getEmail client _ w3) as [[m'|e] wc] eqn:Eg; [|discriminate].
    injection Hm as -> ->. eauto.
Qed.

End GmailListing.

Lemma listEmails_one_message_per_listed_id_witness :
  exists response,
    Gmail.listEmails Scenario.gmailClient ListEmailsOptions.empty [] = (Return response, []) /\
    List.length (ListEmailsResponse.messages response) = 2%nat /\
    ListEmailsResponse.totalCount response = Some 2.
Proof.
  eexists. split; [reflexivity|].
  destruct (listEmails_one_message_per_listed_id Scenario.gmailClient
              ListEmailsOptions.empty [] [] _ eq_refl)
    as [request [data [w1 [Hl [_ [_ [_ [_ [HF [_ Ht]]]]]]]]]].
  split.
  - apply Forall2_length in HF. rewrite <- HF. injection Hl as <- _. reflexivity.
  - rewrite Ht. injection Hl as <- _. reflexivity.
Defined.

(** *** Attachments and headers of a Gmail message *)

(** The attachments a part contributes by itself: those of the part
    without its sub-parts *)
Lemma extractAttachments_parts :
  forall payload : Gmail.GmailMessagePart,
    Gmail.extractAttachments payload
    = flat_map (fun p => match p with
                         | Gmail.mkPart mt fn hs body _ =>
                             Gmail.extractAttachments (Gmail.mkPart mt fn hs body None)
                         end) (partsOf payload).
Proof.
  fix IH 1. intros [mt fn hs body parts].
  set (own := fun p : Gmail.GmailMessagePart =>
                match p with
                | Gmail.mkPart mt fn hs body _ =>
                    Gmail.extractAttachments (Gmail.mkPart mt fn hs body None)
                end) in *.
  cbn [partsOf flat_map].
  change (own (Gmail.mkPart mt fn hs body parts))
    with (Gmail.extractAttachments (Gmail.mkPart mt fn hs body None)).
  cbn [Gmail.extractAttachments]. rewrite app_nil_r.
  f_equal. destruct parts as [ps|]; [|reflexivity].
  induction ps as [|p r IHr]; [reflexivity|].
  rewrite flat_map_app, <- IHr. f_equal. exact (IH p).
Qed.

Lemma own_attachment (p : Gmail.GmailMessagePart) (a : EmailAttachment.t) :
  In a (match p with
        | Gmail.mkPart mt fn hs body _ =>
            Gmail.extractAttachments (Gmail.mkPart mt fn hs body None)
        end) <-> refersTo a p.
Proof.
  destruct p as [mt fn hs body parts]. cbn [Gmail.extractAttachments]. rewrite app_nil_r.
  unfold refersTo. cbn [Gmail.p_filename Gmail.p_body Gmail.p_mimeType]. split.
  - destruct fn as [fn|]; [|intros []]. destruct body as [b|]; [|intros []].
    destruct (String.eqb_spec fn "") as [->|Hfn]; cbn [negb andb]; [intros []|].
    destruct (Gmail.b_attachmentId b) as [id|] eqn:Hid; [|intros []].
    destruct (truthyStr (Some id)) eqn:Ht; [|intros []].
    apply truthyStr_Some in Ht. intros [<- | []].
    exists fn, b, id. repeat (split; [assumption || reflexivity|]).
    unfold orStr at 1. rewrite (proj2 (truthyStr_Some id) Ht). reflexivity.
  - intros [fn' [b' [id [-> [Hfn [-> [Hid [Hne ->]]]]]]]].
    destruct (String.eqb_spec fn' ""); [contradiction|]. cbn [negb andb].
    rewrite Hid, (proj2 (truthyStr_Some id) Hne). left.
    unfold orStr at 1. rewrite (proj2 (truthyStr_Some id) Hne). reflexivity.
Qed.

Lemma own_attachment_count (p : Gmail.GmailMessagePart) :
  List.length (match p with
               | Gmail.mkPart mt fn hs body _ =>
                   Gmail.extractAttachments (Gmail.mkPart mt fn hs body None)
               end)
  = if attached p then 1%nat else 0%nat.
Proof.
  destruct p as [mt fn hs body parts]. cbn [Gmail.extractAttachments]. rewrite app_nil_r.
  unfold attached. cbn [Gmail.p_filename Gmail.p_body].
  destruct fn as [fn|]; [|reflexivity]. cbn [truthyStr].
  destruct body as [b|]; [|now rewrite andb_false_r].
  destruct (negb (fn =? "")%string); [|reflexivity]. cbn [andb].
  destruct (truthyStr (Gmail.b_attachmentId b)); reflexivity.
Qed.

Lemma extractAttachments_spec (payload : Gmail.GmailMessagePart) :
  (forall a, In a (Gmail.extractAttachments payload)
             <-> exists p, In p (partsOf payload) /\ refersTo a p) /\
  List.length (Gmail.extractAttachments payload)
  = List.length (filter attached (partsOf payload)).
Proof.
  rewrite extractAttachments_parts. split.
  - intros a. rewrite in_flat_map. split; intros [p [Hp Ha]]; exists p;
      (split; [exact Hp|]); now apply own_attachment.
  - induction (partsOf payload) as [|p l IH]; [reflexivity|].
    cbn [flat_map filter]. rewrite length_app, own_attachment_count, IH.
    destruct (attached p); reflexivity.
Qed.

Lemma getHeader_case (hs hs' : list Gmail.GmailMessagePartHeader) :
  Forall2 sameUpToCase hs hs' ->
  forall name name',
    toLowerCase name = toLowerCase name' ->
    Gmail.getHeader hs name = Gmail.getHeader hs' name'.
Proof.
  intros H name name' E. unfold Gmail.getHeader. rewrite <- E.
  induction H as [|h h' l l' [Hv Hn] _ IH]; [reflexivity|].
  cbn [find].
  destruct (Gmail.h_name h) as [n|], (Gmail.h_name h') as [n'|];
    cbn [option_map] in Hn; try discriminate.
  - injection Hn as Hn. rewrite Hn.
    destruct (toLowerCase n' =? toLowerCase name)%string; [exact Hv | exact IH].
  - exact IH.
Qed.

Section GmailConversion.

Context {W : Type} (client : Gmail.Client W).

(** X14.  The attachments of a message that [getEmail] returns are those
    of the parts of the backend record's payload, the payload itself and
    its sub-parts at every depth: there is one attachment for each part
    that has a non-empty file name and a non-empty attachment id, no
    other, and it carries the part's file name, its MIME type (the
    octet-stream type when the part has none), the size of its body and,
    as its content, not the bytes but the attachment id.  A record without
    payload gives a message without attachment list. *)
Theorem gmail_attachments_are_references
    (emailId : string) (w w' : W) (m : EmailMessage.t) :
  Gmail.getEmail client emailId w = (Return m, w') ->
  exists data,
    Gmail.messages_get client emailId w = (inl data, w') /\
    match Gmail.m_payload data with
    | None => EmailMessage.attachments m = None
    | Some payload =>
        exists l,
          EmailMessage.attachments m = Some l /\
          (forall a, In a l <-> exists p, In p (partsOf payload) /\ refersTo a p) /\
          List.length l = List.length (filter attached (partsOf payload))
    end.
Proof.
  intros H. destruct (getEmail_Return client _ _ _ _ H) as [data [Hd ->]].
  exists data. split; [exact Hd|].
  unfold Gmail.convertGmailMessage, Gmail.convertGmailMessageWith.
  cbn [EmailMessage.attachments].
  destruct (Gmail.m_payload data) as [p|]; [|reflexivity].
  eexists. split; [reflexivity|]. apply extractAttachments_spec.
Qed.

(** X15.  Header names are matched without regard to case: two backend
    records that differ only in the capitalisation of the names of their
    headers convert to the same message. *)
Theorem gmail_headers_case_insensitive
    (id threadId : option string) (labelIds : option (list string))
    (mimeType filename : option string) (hs hs' : list Gmail.GmailMessagePartHeader)
    (body : option Gmail.GmailMessagePartBody)
    (parts : option (list Gmail.GmailMessagePart)) (internalDate : option string) :
  Forall2 sameUpToCase hs hs' ->
  Gmail.convertGmailMessage client
    (Gmail.mkMessage id threadId labelIds
       (Some (Gmail.mkPart mimeType filename (Some hs) body parts)) internalDate)
  = Gmail.convertGmailMessage client
      (Gmail.mkMessage id threadId labelIds
         (Some (Gmail.mkPart mimeType filename (Some hs') body parts)) internalDate).
Proof.
  intros H. unfold Gmail.convertGmailMessage, Gmail.convertGmailMessageWith.
  cbn [Gmail.m_payload Gmail.p_headers Gmail.m_id Gmail.m_threadId Gmail.m_labelIds
       Gmail.m_internalDate].
  rewrite (getHeader_case hs hs' H "subject" "subject" eq_refl),
          (getHeader_case hs hs' H "from" "from" eq_refl),
          (getHeader_case hs hs' H "to" "to" eq_refl),
          (getHeader_case hs hs' H "cc" "cc" eq_refl).
  reflexivity.
Qed.

End GmailConversion.

Lemma gmail_attachments_are_references_witness :
  exists m,
    Gmail.getEmail Mailboxes.gmailReadsAttachments "m1" [] = (Return m, []) /\
    EmailMessage.attachments m = Some [Mailboxes.pdfAttachment] /\
    (exists p, In p (partsOf Mailboxes.withAttachments) /\
               refersTo Mailboxes.pdfAttachment p).
Proof.
  eexists. split; [reflexivity|]. split; [reflexivity|].
  destruct (gmail_attachments_are_references Mailboxes.gmailReadsAttachments "m1" [] [] _
              eq_refl) as [data [Hd Hm]].
  injection Hd as <-. cbn [Gmail.m_payload] in Hm.
  destruct Hm as [l [Hl [Hin _]]]. apply Hin.
  cbn in Hl. injection Hl as <-. left. reflexivity.
Defined.

Lemma gmail_headers_case_insensitive_witness :
  Gmail.convertGmailMessage Scenario.gmailClient
    (Gmail.mkMessage (Some "m1") None None
       (Some (Gmail.mkPart None None
                (Some [Scenario.header "SUBJECT" "Hello"; Scenario.header "from" "a@b.c"])
                None None)) None)
  = Gmail.convertGmailMessage Scenario.gmailClient
      (Gmail.mkMessage (Some "m1") None None
         (Some (Gmail.mkPart None None
                  (Some [Scenario.header "Subject" "Hello"; Scenario.header "From" "a@b.c"])
                  None None)) None) /\
  EmailMessage.subject
    (Gmail.convertGmailMessage Scenario.gmailClient
       (Gmail.mkMessage (Some "m1") None None
          (Some (Gmail.mkPart None None
                   (Some [Scenario.header "SUBJECT" "Hello"; Scenario.header "from" "a@b.c"])
                   None None)) None)) = "Hello".
Proof.
  split; [|reflexivity].
  apply (gmail_headers_case_insensitive Scenario.gmailClient).
  repeat constructor.
Defined.

(* ===================================================================== *)
(** ** Further properties of recipients, folders and flags                *)
(* ===================================================================== *)

(** *** Microsoft recipients, out and back *)

(** X11.  What [convertToGraphRecipient] writes, [convertFromGraphRecipient]
    reads back unchanged: the round trip is the identity on every address,
    and on every list of recipients of a Graph message. *)
Theorem graph_recipient_round_trip (addr : EmailAddress.t) (l : list EmailAddress.t) :
  Microsoft.convertFromGraphRecipient (Some (MicrosoftSend.convertToGraphRecipient addr))
  = addr /\
  Microsoft.convertRecipients (Some (map MicrosoftSend.convertToGraphRecipient l)) = l.
Proof.
  assert (One : forall a,
            Microsoft.convertFromGraphRecipient
              (Some (MicrosoftSend.convertToGraphRecipient a)) = a).
  { intros [e n]. unfold MicrosoftSend.convertToGraphRecipient,
      Microsoft.convertFromGraphRecipient. cbn.
    unfold orStr, truthyStr. destruct e; reflexivity. }
  split; [apply One|].
  unfold Microsoft.convertRecipients. rewrite map_map.
  induction l as [|a l IH]; [reflexivity|].
  cbn [map]. rewrite One, IH. reflexivity.
Qed.

(** *** The IMAP folder tree *)

Lemma fullPathOf_top (name : string) : ImapFolders.fullPathOf "" name = name.
Proof. reflexivity. Qed.

Lemma flattenBoxes_length (boxes : ImapFolders.MailBoxes) :
  forall parentPath,
    List.length (ImapFolders.flattenBoxes boxes parentPath) = ImapFolders.boxCount boxes.
Proof.
  induction boxes as [|name rest IH|name children IHc rest IHr]; intros p; simpl.
  - reflexivity.
  - now rewrite IH.
  - rewrite length_app, IHc, IHr. reflexivity.
Qed.

Lemma flattenBoxes_parents (boxes : ImapFolders.MailBoxes) :
  forall parentPath f,
    In f (ImapFolders.flattenBoxes boxes parentPath) ->
    (EmailFolder.parentId f = None /\ EmailFolder.id f = EmailFolder.name f) \/
    (exists q,
        q <> "" /\
        EmailFolder.parentId f = Some q /\
        EmailFolder.id f = q ++ "/" ++ EmailFolder.name f /\
        (q = parentPath \/
         exists g, In g (ImapFolders.flattenBoxes boxes parentPath) /\ EmailFolder.id g = q)).
Proof.
  assert (Here : forall (p name : string) (l : list EmailFolder.t),
            (EmailFolder.parentId (ImapFolders.folderOf p name) = None /\
             EmailFolder.id (ImapFolders.folderOf p name)
             = EmailFolder.name (ImapFolders.folderOf p name)) \/
            (exists q,
                q <> "" /\
                EmailFolder.parentId (ImapFolders.folderOf p name) = Some q /\
                EmailFolder.id (ImapFolders.folderOf p name)
                = q ++ "/" ++ EmailFolder.name (ImapFolders.folderOf p name) /\
                (q = p \/ exists g, In g l /\ EmailFolder.id g = q))).
  { intros p name l. unfold ImapFolders.folderOf, ImapFolders.fullPathOf. cbn.
    destruct (String.eqb_spec p "") as [->|Hp]; cbn.
    - left. split; reflexivity.
    - right. exists p. repeat (split; [assumption || reflexivity|]). now left. }
  induction boxes as [|name rest IH|name children IHc rest IHr]; intros p f Hf.
  - destruct Hf.
  - cbn [ImapFolders.flattenBoxes] in *. destruct Hf as [<- | Hf]; [apply Here|].
    destruct (IH p f Hf) as [HN | [q [Hq [Hp [Hi [-> | [g [Hg Hgi]]]]]]]].
    + now left.
    + right. exists p. repeat (split; [assumption|]). now left.
    + right. exists q. repeat (split; [assumption|]). right. exists g.
      split; [now right | assumption].
  - cbn [ImapFolders.flattenBoxes] in *. destruct Hf as [<- | Hf]; [apply Here|].
    apply in_app_or in Hf. destruct Hf as [Hf | Hf].
    + destruct (IHc _ f Hf) as [HN | [q [Hq [Hp [Hi [-> | [g [Hg Hgi]]]]]]]].
      * now left.
      * right. eexists. repeat (split; [eassumption|]). right.
        exists (ImapFolders.folderOf p name). split; [now left | reflexivity].
      * right. exists q. repeat (split; [assumption|]). right. exists g.
        split; [right; apply in_or_app; now left | assumption].
    + destruct (IHr p f Hf) as [HN | [q [Hq [Hp [Hi [-> | [g [Hg Hgi]]]]]]]].
      * now left.
      * right. exists p. repeat (split; [assumption|]). now left.
      * right. exists q. repeat (split; [assumption|]). right. exists g.
        split; [right; apply in_or_app; now right | assumption].
Qed.

(** X12.  [flattenBoxes], called as [listFolders] calls it, returns one
    folder per mailbox of the tree, and the folders hang together: a folder
    without parent has its own name as id, and a folder with parent [q] has
    the id [q/name], where [q] is the id of a folder of the same result. *)
Theorem flattenBoxes_tree_shape (boxes : ImapFolders.MailBoxes) :
  List.length (ImapFolders.flattenBoxes boxes "") = ImapFolders.boxCount boxes /\
  forall f,
    In f (ImapFolders.flattenBoxes boxes "") ->
    match EmailFolder.parentId f with
    | None => EmailFolder.id f = EmailFolder.name f
    | Some q =>
        EmailFolder.id f = q ++ "/" ++ EmailFolder.name f /\
        exists g, In g (ImapFolders.flattenBoxes boxes "") /\ EmailFolder.id g = q
    end.
Proof.
  split; [apply flattenBoxes_length|].
  intros f Hf.
  destruct (flattenBoxes_parents boxes "" f Hf)
    as [[HN Hi] | [q [Hq [Hp [Hi [-> | Hg]]]]]].
  - rewrite HN. exact Hi.
  - now contradiction Hq.
  - rewrite Hp. split; assumption.
Qed.

(** *** Gmail folders are its system labels *)

Section GmailFolders.

Context {W : Type} (client : GmailLabels.Client W).

(** X13.  On the same answer of the backend, the folders [listFolders]
    returns are exactly the labels that [listLabels] reports with type
    [system], in the same order, with the same ids and names; and when one
    of the two fails the other fails with the same error. *)
Theorem listFolders_are_system_labels (w : W) :
  match GmailLabels.listLabels client w with
  | (Return labels, w') =>
      exists folders,
        GmailLabels.listFolders client w = (Return folders, w') /\
        map (fun f => (EmailFolder.id f, EmailFolder.name f)) folders
        = map (fun l => (EmailLabel.id l, EmailLabel.name l))
            (filter (fun l => match EmailLabel.type l with
                              | Some system => true
                              | _ => false
                              end) labels) /\
        Forall (fun f => EmailFolder.parentId f = None) folders
  | (Throw e, w') => GmailLabels.listFolders client w = (Throw e, w')
  end.
Proof.
  unfold GmailLabels.listLabels, GmailLabels.listFolders, Async.tryNormalize,
    Async.bind, Async.await, Async.ret.
  destruct (GmailLabels.labels_list client w) as [[data|raw] w']; [|reflexivity].
  eexists. split; [reflexivity|].
  generalize (match data with Some l => l | None => [] end). intros l.
  split.
  - induction l as [|entry l IH]; [reflexivity|].
    cbn [map filter EmailLabel.type]. destruct (GmailLabels.isSystem entry); cbn [map].
    + f_equal. exact IH.
    + exact IH.
  - apply Forall_forall. intros f Hf. apply in_map_iff in Hf.
    destruct Hf as [entry [<- _]]. reflexivity.
Qed.

End GmailFolders.

(** *** Flags and labels, written and read back *)

Lemma modify_Return {W : Type} (writes : GmailLabels.Client W)
    (emailId : string) (rq : GmailLabels.ModifyRequest) (w w' : W) (u : unit) :
  Async.tryNormalize "gmail"
    (Async.await (GmailLabels.messages_modify writes emailId rq)) w = (Return u, w') ->
  GmailLabels.messages_modify writes emailId rq w = (inl tt, w').
Proof.
  unfold Async.tryNormalize, Async.await.
  destruct (GmailLabels.messages_modify writes emailId rq w) as [[[]|raw] w1]; intros H.
  - now injection H as _ <-.
  - discriminate.
Qed.

Lemma labels_of_converted {W : Type} (reads : Gmail.Client W)
    (data : Gmail.GmailMessage) (l : string) :
  In l (labelIdsOf data) <->
  exists ls, EmailMessage.labels (Gmail.convertGmailMessage reads data) = Some ls /\ In l ls.
Proof.
  destruct (converted_read_state reads data) as [Hl _]. cbv zeta in Hl. split.
  - intros H. eexists. split; [exact Hl | exact H].
  - intros [ls [E H]]. rewrite Hl in E. now injection E as <-.
Qed.

Section GmailFlags.

Context {W : Type} (reads : Gmail.Client W) (writes : GmailLabels.Client W).
Hypothesis backend : appliesModify reads writes.

(** X16.  On a backend that applies [modify] as documented, what the six
    label operations of the Gmail adapter write is what [getEmail] reads
    next: after [markAsRead] the message is read and after [markAsUnread]
    it is unread; after [archiveEmail] it no longer has the label INBOX;
    after [addLabels] it has each of the labels and after [removeLabels]
    none of them; after [moveToFolder] it has the folder's label, and it
    still has every label it had before, the one of the folder it came from
    included. *)
Theorem gmail_written_flags_are_read_back (emailId : string) (w w' w'' : W) (u : unit)
    (m : EmailMessage.t) (ls : list string) :
  Gmail.getEmail reads emailId w' = (Return m, w'') ->
  EmailMessage.labels m = Some ls ->
  (GmailLabels.markAsRead writes emailId w = (Return u, w') ->
   EmailMessage.isRead m = Some true) /\
  (GmailLabels.markAsUnread writes emailId w = (Return u, w') ->
   EmailMessage.isRead m = Some false) /\
  (GmailLabels.archiveEmail writes emailId w = (Return u, w') -> ~ In "INBOX" ls) /\
  (forall labelIds,
      GmailLabels.addLabels writes (LabelsOptions.mk emailId labelIds) w = (Return u, w') ->
      incl labelIds ls) /\
  (forall labelIds,
      GmailLabels.removeLabels writes (LabelsOptions.mk emailId labelIds) w
      = (Return u, w') ->
      forall l, In l labelIds -> ~ In l ls) /\
  (forall folderId,
      GmailLabels.moveToFolder writes (MoveEmailOptions.mk emailId folderId) w
      = (Return u, w') ->
      In folderId ls /\
      forall w0 m0 ls0,
        Gmail.getEmail reads emailId w0 = (Return m0, w) ->
        EmailMessage.labels m0 = Some ls0 ->
        incl ls0 ls).
Proof.
  intros Hget Hls.
  destruct (getEmail_Return reads _ _ _ _ Hget) as [after [Hafter ->]].
  destruct (converted_read_state reads after) as [Hl [Hunread [Hread _]]].
  cbv zeta in Hl, Hunread, Hread. rewrite Hl in Hls. injection Hls as <-.
  split; [|split; [|split; [|split; [|split]]]].
  - intros H. apply modify_Return in H.
    destruct (backend _ _ _ _ _ _ H Hafter) as [_ [Hrem _]].
    apply Hread. apply Hrem; [now left | intros []].
  - intros H. apply modify_Return in H.
    destruct (backend _ _ _ _ _ _ H Hafter) as [Hadd _].
    apply Hunread. apply Hadd. now left.
  - intros H. apply modify_Return in H.
    destruct (backend _ _ _ _ _ _ H Hafter) as [_ [Hrem _]].
    apply Hrem; [now left | intros []].
  - intros labelIds H. apply modify_Return in H.
    destruct (backend _ _ _ _ _ _ H Hafter) as [Hadd _].
    intros l Hin. now apply Hadd.
  - intros labelIds H. apply modify_Return in H.
    destruct (backend _ _ _ _ _ _ H Hafter) as [_ [Hrem _]].
    intros l Hin. apply Hrem; [exact Hin | intros []].
  - intros folderId H. apply modify_Return in H.
    destruct (backend _ _ _ _ _ _ H Hafter) as [Hadd [_ Hkeep]].
    split; [apply Hadd; now left|].
    intros w0 m0 ls0 Hget0 Hls0.
    destruct (getEmail_Return reads _ _ _ _ Hget0) as [before [Hbefore ->]].
    destruct (converted_read_state reads before) as [Hl0 _]. cbv zeta in Hl0.
    rewrite Hl0 in Hls0. injection Hls0 as <-.
    intros l Hin. apply (Hkeep w0 before l Hbefore Hin). intros [].
Qed.

End GmailFlags.

Lemma without_In (ids w : list string) (l : string) :
  In l (Mailboxes.without ids w) <-> In l w /\ ~ In l ids.
Proof.
  unfold Mailboxes.without. rewrite filter_In. split.
  - intros [H E]. split; [exact H|]. intros Hin. apply includes_In in Hin.
    rewrite Hin in E. discriminate.
  - intros [H N]. split; [exact H|]. destruct (includes ids l) eqn:E; [|reflexivity].
    apply includes_In in E. contradiction.
Qed.

Lemma mailbox_appliesModify : appliesModify Mailboxes.gmailReads Mailboxes.gmailWrites.
Proof.
  intros emailId rq w w' after w'' Hm Hg. cbn in Hm, Hg.
  injection Hm as <-. injection Hg as <- _. unfold labelIdsOf, added, removed. cbn.
  split; [|split].
  - intros l H. apply in_or_app. now right.
  - intros l Hr Ha H. apply in_app_or in H. destruct H as [H | H]; [|contradiction].
    apply without_In in H. destruct H as [_ N]. contradiction.
  - intros w0 before l Hb Hin Hr. injection Hb as <- <-. cbn in Hin.
    apply in_or_app. left. apply without_In. split; assumption.
Qed.

Lemma gmail_written_flags_are_read_back_witness :
  exists m,
    Gmail.getEmail Mailboxes.gmailReads "m1" ["INBOX"] = (Return m, ["INBOX"]) /\
    EmailMessage.labels m = Some ["INBOX"] /\
    EmailMessage.isRead m = Some true /\
    GmailLabels.markAsRead Mailboxes.gmailWrites "m1" ["INBOX"; "UNREAD"]
    = (Return tt, ["INBOX"]).
Proof.
  eexists. split; [reflexivity|]. split; [reflexivity|]. split; [|reflexivity].
  exact (proj1 (gmail_written_flags_are_read_back Mailboxes.gmailReads Mailboxes.gmailWrites
                  mailbox_appliesModify "m1" ["INBOX"; "UNREAD"] ["INBOX"] ["INBOX"] tt
                  _ ["INBOX"] eq_refl eq_refl) eq_refl).
Defined.

Section MicrosoftFlagsRead.

Context {W : Type} (client : Microsoft.Client W).
Hypothesis backend : appliesPatch client.

(** X17.  On a backend that applies a patch of [isRead], the Microsoft
    adapter's [markAsRead] and [markAsUnread] address the very message that
    [getEmail] fetches: the message read next has [isRead] true,
    respectively false. *)
Theorem microsoft_read_flag_is_read_back (emailId : string) (w w' w'' : W) (u : unit)
    (m : EmailMessage.t) :
  Microsoft.getEmail client emailId w' = (Return m, w'') ->
  (MicrosoftFlags.markAsRead client emailId w = (Return u, w') ->
   EmailMessage.isRead m = Some true) /\
  (MicrosoftFlags.markAsUnread client emailId w = (Return u, w') ->
   EmailMessage.isRead m = Some false).
Proof.
  intros Hget.
  unfold Microsoft.getEmail, Async.tryNormalize, Async.bind, Async.await, Async.ret in Hget.
  destruct (Microsoft.get_message client ("/me/messages/" ++ emailId) w')
    as [[after|raw] w1] eqn:Hafter; [|discriminate].
  injection Hget as <- <-.
  assert (P : forall flag,
             Async.tryNormalize "microsoft"
               (Async.await
                  (Microsoft.patch client ("/me/messages/" ++ emailId)
                     (Microsoft.PatchIsRead flag))) w = (Return u, w') ->
             EmailMessage.isRead (Microsoft.convertGraphMessage client after) = Some flag).
  { intros flag H. unfold Async.tryNormalize, Async.await in H.
    destruct (Microsoft.patch client _ _ w) as [[[]|raw] w2] eqn:Hp; [|discriminate].
    injection H as _ <-.
    exact (backend _ _ _ _ _ _ Hp Hafter). }
  split; intros H; exact (P _ H).
Qed.

End MicrosoftFlagsRead.

Lemma graphFlags_appliesPatch : appliesPatch Mailboxes.graphFlags.
Proof.
  intros endpoint flag w w' after w'' Hp Hg. cbn in Hp, Hg.
  injection Hp as <-. injection Hg as <- _. reflexivity.
Qed.

Lemma microsoft_read_flag_is_read_back_witness :
  exists m,
    MicrosoftFlags.markAsUnread Mailboxes.graphFlags "m1" (Some true)
    = (Return tt, Some false) /\
    Microsoft.getEmail Mailboxes.graphFlags "m1" (Some false) = (Return m, Some false) /\
    EmailMessage.isRead m = Some false.
Proof.
  eexists. split; [reflexivity|]. split; [reflexivity|].
  exact (proj2 (microsoft_read_flag_is_read_back Mailboxes.graphFlags graphFlags_appliesPatch
                  "m1" (Some true) (Some false) (Some false) tt _ eq_refl) eq_refl).
Defined.

(** *** Cases of the folder tree and of the label list *)

Lemma flattenBoxes_tree_shape_witness :
  map EmailFolder.id (ImapFolders.flattenBoxes Mailboxes.mailTree "")
  = ["INBOX"; "INBOX/Work"; "INBOX/Work/2024"; "INBOX/Private"; "Sent"] /\
  List.length (ImapFolders.flattenBoxes Mailboxes.mailTree "") = 5%nat.
Proof.
  split; [reflexivity|].
  exact (proj1 (flattenBoxes_tree_shape Mailboxes.mailTree)).
Defined.
